(** * GitLab inventory scripts: a shallow embedding

    The two scripts [scripts/gitlab-groups.py] and [scripts/gitlab-details.py]
    are sequential batch jobs over the GitLab REST API.  The embedding below
    follows the Python text function by function:

    - JSON payloads are the dynamically typed values [json]; the Python
      operations the scripts apply to them ([.get], subscripts, truthiness,
      [len], iteration, comparison with an integer) are the functions of
      module [Py], raising the exception Python raises on a value of the
      wrong kind.  JSON numbers are integers, as every numeric field the
      scripts read from GitLab is; a string is the UTF-8 encoding of the
      Python string, one [ascii] for each byte.
    - The floats the scripts compute (a true division, a product, a rounding
      to two places) are binary doubles given exactly, with the rounding to
      53 bits and the [OverflowError] of Python's arithmetic.
    - The network is a function [world] from requests to replies: a reply is
      a response (status, headers, body) or the exception [requests] raised.
    - Code that issues requests lives in a state-and-exception monad whose
      state holds the chronological list of requests issued so far, so that
      theorems can speak about what was and was not asked of the server.
    - [while True] loops take fuel; bounded loops recurse on their bound.
    - Logging is omitted except where evaluating the logged expression can
      raise. *)

From Stdlib Require Import ZArith List String Ascii Bool Lia QArith.
Import ListNotations.

Set Warnings "-register-all".

Open Scope string_scope.
Open Scope list_scope.
Open Scope Z_scope.

(** ** Python values and exceptions *)

Module Py.

Inductive exn : Type :=
| Timeout
| ConnectionError
| JSONDecodeError
| ValueError
| TypeError
| AttributeError
| KeyError
| OverflowError.

Inductive outcome (A : Type) : Type :=
| Ok (a : A)
| Raise (e : exn).

Arguments Ok {A} a.
Arguments Raise {A} e.

Inductive json : Type :=
| JNull
| JBool (b : bool)
| JInt (z : Z)
| JStr (s : string)
| JList (l : list json)
| JDict (d : list (string * json)).

(** Lookup in a dict kept as an association list with distinct keys. *)
Fixpoint assoc {A : Type} (k : string) (d : list (string * A)) : option A :=
  match d with
  | [] => None
  | (k', v) :: d' => if String.eqb k k' then Some v else assoc k d'
  end.

(** [d[k] = v] on a dict: replaces the value of an existing key in place,
    appends a new key at the end. *)
Fixpoint assoc_set {A : Type} (k : string) (v : A) (d : list (string * A))
  : list (string * A) :=
  match d with
  | [] => [(k, v)]
  | (k', v') :: d' =>
      if String.eqb k k' then (k, v) :: d' else (k', v') :: assoc_set k v d'
  end.

(** [bool(v)] *)
Definition truthy (v : json) : bool :=
  match v with
  | JNull => false
  | JBool b => b
  | JInt z => negb (z =? 0)
  | JStr s => negb (String.eqb s "")
  | JList l => match l with [] => false | _ => true end
  | JDict d => match d with [] => false | _ => true end
  end.

(** [v.get(k, dflt)]: only dicts have a [get] method. *)
Definition get (v : json) (k : string) (dflt : json) : outcome json :=
  match v with
  | JDict d => Ok (match assoc k d with Some x => x | None => dflt end)
  | _ => Raise AttributeError
  end.

(** [v[k]] with a string key. *)
Definition item (v : json) (k : string) : outcome json :=
  match v with
  | JDict d => match assoc k d with Some x => Ok x | None => Raise KeyError end
  | _ => Raise TypeError
  end.

(** [v[k] = x] with a string key. *)
Definition set_item (v : json) (k : string) (x : json) : outcome json :=
  match v with
  | JDict d => Ok (JDict (assoc_set k x d))
  | _ => Raise TypeError
  end.

(** A continuation byte of UTF-8: [128] to [191]. *)
Definition continuation (c : ascii) : bool :=
  let n := nat_of_ascii c in (andb (128 <=? n) (n <=? 191))%nat.

(** The characters of a string: each one a leading byte with the
    continuation bytes that follow it. *)
Fixpoint code_points (l : list ascii) : list string :=
  match l with
  | [] => []
  | c :: l' =>
      match code_points l' with
      | g :: gs =>
          if match l' with c' :: _ => continuation c' | [] => false end
          then String c g :: gs
          else String c EmptyString :: g :: gs
      | [] => [String c EmptyString]
      end
  end.

Definition chars (s : string) : list json :=
  map JStr (code_points (list_ascii_of_string s)).

(** The elements [for x in v] walks through: the items of a list, the keys
    of a dict, the characters of a string. *)
Definition iter (v : json) : outcome (list json) :=
  match v with
  | JList l => Ok l
  | JDict d => Ok (map (fun kv => JStr (fst kv)) d)
  | JStr s => Ok (chars s)
  | _ => Raise TypeError
  end.

(** [len(v)] *)
Definition len (v : json) : outcome Z :=
  match v with
  | JList l => Ok (Z.of_nat (List.length l))
  | JDict d => Ok (Z.of_nat (List.length d))
  | JStr s => Ok (Z.of_nat (List.length (chars s)))
  | _ => Raise TypeError
  end.

(** The integer a value stands for in arithmetic and ordering with an
    [int]: [bool] is a subclass of [int]; every other kind raises. *)
Definition as_int (v : json) : outcome Z :=
  match v with
  | JInt z => Ok z
  | JBool b => Ok (if b then 1 else 0)
  | _ => Raise TypeError
  end.

(** [v > n] *)
Definition gt (v : json) (n : Z) : outcome bool :=
  match as_int v with
  | Ok z => Ok (n <? z)
  | Raise e => Raise e
  end.

(** [v == n] never raises. *)
Definition eq_int (v : json) (n : Z) : bool :=
  match as_int v with
  | Ok z => z =? n
  | Raise _ => false
  end.

(** [v == s] for a string literal [s]. *)
Definition eq_str (v : json) (s : string) : bool :=
  match v with
  | JStr s' => String.eqb s' s
  | _ => false
  end.

(** Values that can be put in a [set]. *)
Definition hashable (v : json) : bool :=
  match v with
  | JList _ | JDict _ => false
  | _ => true
  end.

(** Equality of hashable values as a [set] sees it: [True == 1]. *)
Definition key_eqb (a b : json) : bool :=
  match a, b with
  | JNull, JNull => true
  | JStr s, JStr s' => String.eqb s s'
  | (JInt _ | JBool _), (JInt _ | JBool _) =>
      match as_int a, as_int b with
      | Ok x, Ok y => x =? y
      | _, _ => false
      end
  | _, _ => false
  end.

(** [s.add(v)] on a set kept as a duplicate-free list. *)
Definition set_add (v : json) (s : list json) : outcome (list json) :=
  if hashable v then
    Ok (if existsb (key_eqb v) s then s else s ++ [v])
  else Raise TypeError.

(** [str.lower] as far as ASCII goes.  The letters [A] to [Z] become [a]
    to [z]; the Kelvin sign (U+212A, bytes 226 132 170) becomes [k]; the
    dotted capital I (U+0130, bytes 196 176) becomes [i] and the combining
    dot above (U+0307, bytes 204 135).  No other character has a lower-case
    form with an ASCII character in it: those are left as they are, where
    Python may put other characters that are not ASCII either, which a test
    of the result against ASCII text, the one use the scripts make of it,
    does not see. *)
Definition lower_ascii (c : ascii) : ascii :=
  let n := nat_of_ascii c in
  if (andb (65 <=? n) (n <=? 90))%nat then ascii_of_nat (n + 32) else c.

Definition dotted_capital_i (c c1 : ascii) : bool :=
  andb (Ascii.eqb c "196") (Ascii.eqb c1 "176").

Definition kelvin_sign (c c1 c2 : ascii) : bool :=
  andb (Ascii.eqb c "226") (andb (Ascii.eqb c1 "132") (Ascii.eqb c2 "170")).

Fixpoint lower_list (l : list ascii) : list ascii :=
  match l with
  | [] => []
  | c :: l1 =>
      match l1 with
      | [] => [lower_ascii c]
      | c1 :: l2 =>
          if dotted_capital_i c c1 then
            "i"%char :: "204"%char :: "135"%char :: lower_list l2
          else
            match l2 with
            | [] => lower_ascii c :: lower_list l1
            | c2 :: l3 =>
                if kelvin_sign c c1 c2 then "k"%char :: lower_list l3
                else lower_ascii c :: lower_list l1
            end
      end
  end.

Definition lower (s : string) : string :=
  string_of_list_ascii (lower_list (list_ascii_of_string s)).

Fixpoint prefix_list (p l : list ascii) : bool :=
  match p, l with
  | [], _ => true
  | _ :: _, [] => false
  | a :: p', b :: l' => andb (Ascii.eqb a b) (prefix_list p' l')
  end.

Definition endswith (s suffix : string) : bool :=
  prefix_list (rev (list_ascii_of_string suffix)) (rev (list_ascii_of_string s)).

(** [str.endswith] compares bytes: in UTF-8 a string ends with the
    characters of [suffix] when its encoding ends with their bytes. *)
Definition is_space (c : ascii) : bool :=
  let n := nat_of_ascii c in
  orb (n =? 32)%nat (orb (andb (9 <=? n) (n <=? 13))%nat (andb (28 <=? n) (n <=? 31))%nat).

(** The white space of two bytes: U+0085 and U+00A0. *)
Definition is_space2 (c c1 : ascii) : bool :=
  andb (Ascii.eqb c "194") (orb (Ascii.eqb c1 "133") (Ascii.eqb c1 "160")).

(** The white space of three bytes: U+1680, U+2000 to U+200A, U+2028,
    U+2029, U+202F, U+205F and U+3000. *)
Definition is_space3 (c c1 c2 : ascii) : bool :=
  let n := nat_of_ascii c in
  let n1 := nat_of_ascii c1 in
  let n2 := nat_of_ascii c2 in
  orb (andb (n =? 225) (andb (n1 =? 154) (n2 =? 128)))%nat
   (orb (andb (n =? 226)
           (orb (andb (n1 =? 128)
                   (orb (andb (128 <=? n2) (n2 <=? 138))
                      (orb (n2 =? 168) (orb (n2 =? 169) (n2 =? 175)))))
              (andb (n1 =? 129) (n2 =? 159))))
      (andb (n =? 227) (andb (n1 =? 128) (n2 =? 128))))%nat.

(** Dropping the leading white space, the bytes of a character being read
    in the order [forwards] says: as written at the front of a string,
    backwards at the front of a reversed string. *)
Fixpoint lstrip_list (forwards : bool) (l : list ascii) : list ascii :=
  match l with
  | [] => []
  | c :: l1 =>
      if is_space c then lstrip_list forwards l1
      else
        match l1 with
        | [] => l
        | c1 :: l2 =>
            if (if forwards then is_space2 c c1 else is_space2 c1 c)
            then lstrip_list forwards l2
            else
              match l2 with
              | [] => l
              | c2 :: l3 =>
                  if (if forwards then is_space3 c c1 c2 else is_space3 c2 c1 c)
                  then lstrip_list forwards l3
                  else l
              end
        end
  end.

(** [str.strip()]: the white space of Python's strings dropped at both
    ends. *)
Definition strip (s : string) : string :=
  string_of_list_ascii
    (rev (lstrip_list false (rev (lstrip_list true (list_ascii_of_string s))))).

Fixpoint substring_list (p l : list ascii) : bool :=
  orb (prefix_list p l)
      match l with
      | [] => false
      | _ :: l' => substring_list p l'
      end.

(** [k in v] for a string [k]: a key of a dict, an element of a list, a
    substring of a string. *)
Definition contains (v : json) (k : string) : outcome bool :=
  match v with
  | JDict d => Ok (match assoc k d with Some _ => true | None => false end)
  | JList l => Ok (existsb (fun x => eq_str x k) l)
  | JStr s => Ok (substring_list (list_ascii_of_string k) (list_ascii_of_string s))
  | _ => Raise TypeError
  end.

(** The value must be a [str], as [os.environ[...] = v], [os.path.join] and
    string methods require. *)
Definition as_str (v : json) (e : exn) : outcome string :=
  match v with
  | JStr s => Ok s
  | _ => Raise e
  end.

(** The digits-only fragment of Python's [int] on strings, to run the
    model on concrete replies. *)
Fixpoint digits_value (l : list ascii) (acc : Z) : option Z :=
  match l with
  | [] => Some acc
  | c :: l' =>
      let n := nat_of_ascii c in
      if andb (48 <=? n)%nat (n <=? 57)%nat
      then digits_value l' (10 * acc + Z.of_nat (n - 48))
      else None
  end.

Definition int_of_digits (s : string) : option Z :=
  match list_ascii_of_string s with
  | [] => None
  | l => digits_value l 0
  end.

End Py.

Import Py.

(** ** Floating point *)

(** The integer nearest to [n / d] for [d > 0], ties to the even one. *)
Definition round_half_even (n d : Z) : Z :=
  let q := n / d in
  let r := n mod d in
  if 2 * r <? d then q
  else if d <? 2 * r then q + 1
  else if Z.even q then q else q + 1.

(** A binary floating-point number, given exactly:
    [numerator / 2 ^ shift] with [shift >= 0]. *)
Record double : Type := Double { numerator : Z; shift : Z }.

(** The double nearest to [p / q] for [q > 0], ties to even: 53 significant
    bits at the binary exponent of [p / q], and the fixed exponent [-1074]
    in the subnormal range.  The exponent is not bounded above here: a
    result at or beyond [2 ^ 1024] is one that is [too_large]. *)
Definition nearest_double (p q : Z) : double :=
  if p =? 0 then Double 0 0
  else
    let a := Z.abs p in
    let k := Z.log2 a - Z.log2 q in
    let below := if 0 <=? k then a <? q * 2 ^ k else a * 2 ^ (- k) <? q in
    let e := Z.max (-1074) ((if below then k - 1 else k) - 52) in
    if 0 <=? e then Double (round_half_even p (q * 2 ^ e) * 2 ^ e) 0
    else Double (round_half_even (p * 2 ^ (- e)) q) (- e).

(** No finite double holds a number of magnitude [2 ^ 1024] or more. *)
Definition too_large (x : double) : bool :=
  2 ^ 1024 * 2 ^ shift x <=? Z.abs (numerator x).

(** [a / b] on integers, for [b > 0]: the correctly rounded quotient, or
    [OverflowError] ("integer division result too large for a float"). *)
Definition true_divide (a b : Z) : outcome double :=
  let x := nearest_double a b in
  if too_large x then Raise OverflowError else Ok x.

(** An integer operand of a float operation is converted first
    ("int too large to convert to float"). *)
Definition float_of_int (n : Z) : outcome double := true_divide n 1.

(** [x * y] on floats: beyond the range the product is an infinity, here a
    value that is [too_large]; no exception is raised. *)
Definition float_mul (x y : double) : double :=
  nearest_double (numerator x * numerator y) (2 ^ (shift x + shift y)).

(** [int(x)]: truncation, [OverflowError] on an infinity. *)
Definition int_of_float (x : double) : outcome Z :=
  if too_large x then Raise OverflowError
  else Ok (Z.quot (numerator x) (2 ^ shift x)).

(** [x > n] for a float and an integer: Python compares the exact values. *)
Definition float_gt (x : double) (n : Z) : bool :=
  n * 2 ^ shift x <? numerator x.

(** [round(x, 2)] rounds the exact value of [x] to hundredths, ties to
    even, and returns the double nearest to that decimal: the number of
    hundredths. *)
Definition hundredths (x : double) : Z :=
  round_half_even (100 * numerator x) (2 ^ shift x).

(** ** The network *)

Inductive method : Type := GET | HEAD.

(** The endpoints the scripts address, with the query parameters that vary. *)
Inductive endpoint : Type :=
| Groups (per_page page : Z)
| GroupProjects (group : json) (per_page page : Z)
| GroupProjectsCount (group_id : json)
| Subgroups (group_id : json)
| Members (group_id : json)
| Project (project_id : json)
| ProjectStatistics (project_id : json)
| Branches (project_id : json) (per_page : Z)
| Commits (project_id : json) (ref : json)
| SearchBlobs (project_id : json)
| Tree (project_id : json) (ref : json) (page : Z)
| File (project_id : json) (path : string) (ref : json)
| Tags (project_id : json)
| MergeRequests (project_id : json)
| Contributors (project_id : json).

Record request : Type := Request { meth : method; target : endpoint }.

Record response : Type := Response {
  status_code : Z;
  headers : list (string * string);
  (** [None] when [response.json()] raises. *)
  body : option json
}.

Inductive reply : Type :=
| Replied (r : response)
| Failed (e : exn).

Definition trace : Type := list request.

(** ['name' in response.headers] *)
Definition has_header (r : response) (name : string) : bool :=
  match assoc name (headers r) with Some _ => true | None => false end.

(** ['X-Next-Page' in response.headers and response.headers['X-Next-Page']] *)
Definition has_next_page (r : response) : bool :=
  match assoc "X-Next-Page" (headers r) with
  | Some v => negb (String.eqb v "")
  | None => false
  end.

(** [response.json()] *)
Definition json_of (r : response) : outcome json :=
  match body r with
  | Some v => Ok v
  | None => Raise JSONDecodeError
  end.

(** ** Paginated listing fetch *)

Section Fetch.

Variable world : request -> reply.

(** The loop shared by [fetch_all_groups] (both scripts) and
    [fetch_all_projects]: [url page] is the request of one page, [acc] the
    list accumulated so far and [t] the requests issued so far.  Every
    exception raised inside the loop body is caught by one of the [except]
    clauses, all of which return [None].  The result is [None] when the fuel
    runs out, and otherwise the pair of the Python return value ([None] or
    the list) and the requests issued. *)
Fixpoint paginate (fuel : nat) (url : Z -> request) (page : Z)
    (acc : list json) (t : trace) : option (option (list json) * trace) :=
  match fuel with
  | O => None
  | S fuel' =>
      let t' := t ++ [url page] in
      match world (url page) with
      | Failed _ => Some (None, t')
      | Replied response =>
          if negb (status_code response =? 200) then Some (None, t')
          else
            match json_of response with
            | Raise _ => Some (None, t')
            | Ok items =>
                if negb (truthy items) then Some (Some acc, t')
                else
                  match iter items with
                  | Raise _ => Some (None, t')
                  | Ok l =>
                      if has_next_page response
                      then paginate fuel' url (page + 1) (acc ++ l) t'
                      else Some (Some (acc ++ l), t')
                  end
            end
      end
  end.

Definition groups_url (per_page page : Z) : request :=
  Request GET (Groups per_page page).

Definition group_projects_url (group_name : json) (per_page page : Z) : request :=
  Request GET (GroupProjects group_name per_page page).

End Fetch.

(** [fetch_all_groups], the same loop in both scripts: gitlab-groups.py
    names the [Timeout] and [ConnectionError] handlers before the general
    one, gitlab-details.py has the general one only; all return [None]. *)
Definition fetch_all_groups (world : request -> reply) (fuel : nat) (t : trace)
  : option (option (list json) * trace) :=
  paginate world fuel (groups_url 50) 1 [] t.

(** [fetch_all_projects] of gitlab-details.py *)
Definition fetch_all_projects (world : request -> reply) (fuel : nat)
    (group_name : json) (t : trace) : option (option (list json) * trace) :=
  paginate world fuel (group_projects_url group_name 100) 1 [] t.

(** ** State and exceptions *)

(** A computation over a state [S] that returns a value or raises; the state
    reached when the exception is raised is kept, as Python keeps the
    mutations made before a [raise]. *)
Definition M (S A : Type) : Type := S -> outcome A * S.

Definition ret {S A : Type} (a : A) : M S A := fun s => (Ok a, s).

Definition bind {S A B : Type} (c : M S A) (k : A -> M S B) : M S B :=
  fun s =>
    match c s with
    | (Ok a, s') => k a s'
    | (Raise e, s') => (Raise e, s')
    end.

(** An operation on values that touches no state. *)
Definition lift {S A : Type} (o : outcome A) : M S A := fun s => (o, s).

(** [try: c  except Exception: handler] *)
Definition try {S A : Type} (c : M S A) (handler : exn -> M S A) : M S A :=
  fun s =>
    match c s with
    | (Ok a, s') => (Ok a, s')
    | (Raise e, s') => handler e s'
    end.

Declare Scope monad_scope.
Delimit Scope monad_scope with monad.
Notation "x <- c ;; k" := (bind c (fun x => k))
  (at level 61, c at next level, right associativity) : monad_scope.
Notation "c ;;; k" := (bind c (fun _ => k))
  (at level 61, right associativity) : monad_scope.
Open Scope monad_scope.

(** [for x in l: body x] *)
Fixpoint for_each {S A : Type} (l : list A) (body : A -> M S unit) : M S unit :=
  match l with
  | [] => ret tt
  | x :: l' => body x ;;; for_each l' body
  end.

(** A computation on the request log, run inside a function that also has
    local variables [L] that outlive its exceptions. *)
Definition zoom {L A : Type} (c : M trace A) : M (L * trace) A :=
  fun s =>
    let (o, t) := c (snd s) in (o, (fst s, t)).

(** Read and update the local variables. *)
Definition locals {L : Type} : M (L * trace) L :=
  fun s => (Ok (fst s), s).

Definition update {L : Type} (f : L -> L) : M (L * trace) unit :=
  fun s => (Ok tt, (f (fst s), snd s)).

(** ** Auxiliary lookups *)

Section Lookups.

Variable world : request -> reply.

(** Python's [int] applied to a header string: [None] stands for
    [ValueError]. *)
Variable py_int : string -> option Z.

(** [requests.get] / [requests.head]: the request is logged, then the reply
    is returned or its exception raised. *)
Definition send (rq : request) : M trace response :=
  fun t =>
    match world rq with
    | Replied r => (Ok r, t ++ [rq])
    | Failed e => (Raise e, t ++ [rq])
    end.

(** [int(response.headers[name])] *)
Definition header_int (r : response) (name : string) : outcome Z :=
  match assoc name (headers r) with
  | Some v => match py_int v with Some z => Ok z | None => Raise ValueError end
  | None => Raise KeyError
  end.

(** The body shared by [get_branch_count] and, in gitlab-groups.py,
    [get_group_project_count], [get_subgroup_count] and
    [get_group_member_count]: a HEAD request for the [X-Total] header, then a
    GET request, then the length of the returned page. *)
Definition count_via (target : endpoint) : M trace Z :=
  try
    (response <- send (Request HEAD target) ;;
     if andb (status_code response =? 200) (has_header response "X-Total")
     then lift (header_int response "X-Total")
     else
       response <- send (Request GET target) ;;
       if status_code response =? 200 then
         if has_header response "X-Total"
         then lift (header_int response "X-Total")
         else v <- lift (json_of response) ;; lift (len v)
       else ret 0)
    (fun _ => ret 0).

Definition get_branch_count (project_id : json) : M trace Z :=
  count_via (Branches project_id 1).

Definition get_group_project_count (group_id : json) : M trace Z :=
  count_via (GroupProjectsCount group_id).

Definition get_subgroup_count (group_id : json) : M trace Z :=
  count_via (Subgroups group_id).

Definition get_group_member_count (group_id : json) : M trace Z :=
  count_via (Members group_id).

(** *** [get_repository_file_count] *)

(** [len([item for item in items if item.get('type') == 'blob'])] *)
Fixpoint count_blobs (items : list json) : outcome Z :=
  match items with
  | [] => Ok 0
  | item :: items' =>
      match get item "type" JNull with
      | Raise e => Raise e
      | Ok ty =>
          match count_blobs items' with
          | Raise e => Raise e
          | Ok n => Ok (if eq_str ty "blob" then 1 + n else n)
          end
      end
  end.

(** How one turn of the tree loop ends: [return v], [break] or the next
    page, each with the number of files collected so far. *)
Inductive tree_step : Type :=
| Return (v : Z)
| Break (count : Z)
| Next (count : Z).

Definition max_pages : nat := 50.

(** [int((len(all_files) / page) * total_pages)], the estimate that is
    logged when the server has more pages than are walked: a true division
    of integers, a product with an integer converted to a float, and the
    conversion of the product, infinite when it is out of range, to an
    integer. *)
Definition estimated_total (files page total_pages : Z) : outcome Z :=
  match true_divide files page with
  | Raise e => Raise e
  | Ok files_per_page =>
      match float_of_int total_pages with
      | Raise e => Raise e
      | Ok pages => int_of_float (float_mul files_per_page pages)
      end
  end.

(** The block [if total_pages_header:], with [files] for [len(all_files)]:
    the header is read as a number, and the estimate is computed when that
    number is above [max_pages] and a file has been counted. *)
Definition check_total_pages (response : response) (page files : Z)
  : outcome unit :=
  match assoc "X-Total-Pages" (headers response) with
  | Some h =>
      if String.eqb h "" then Ok tt
      else
        match py_int h with
        | Some total_pages =>
            if andb (Z.of_nat max_pages <? total_pages) (0 <? files) then
              match estimated_total files page total_pages with
              | Ok _ => Ok tt
              | Raise e => Raise e
              end
            else Ok tt
        | None => Raise ValueError
        end
  | None => Ok tt
  end.

(** One turn of the [while page <= max_pages] loop.  Both [except] clauses
    break; an exception raised after [all_files.extend] leaves the extended
    list behind. *)
Definition tree_page (project_id ref : json) (page count : Z) : M trace tree_step :=
  try
    (response <- send (Request GET (Tree project_id ref page)) ;;
     if status_code response =? 404 then ret (Return 0)
     else if negb (status_code response =? 200) then ret (Break count)
     else
       items <- lift (json_of response) ;;
       if negb (truthy items) then ret (Break count)
       else
         l <- lift (iter items) ;;
         n <- lift (count_blobs l) ;;
         try
           (lift (check_total_pages response page (count + n)) ;;;
            if has_next_page response then ret (Next (count + n))
            else ret (Break (count + n)))
           (fun _ => ret (Break (count + n))))
    (fun _ => ret (Break count)).

Fixpoint count_tree (remaining : nat) (project_id ref : json) (page count : Z)
  : M trace Z :=
  match remaining with
  | O => ret count
  | S remaining' =>
      step <- tree_page project_id ref page count ;;
      match step with
      | Return v => ret v
      | Break c => ret c
      | Next c => count_tree remaining' project_id ref (page + 1) c
      end
  end.

(** The search-count shortcut for repositories over 10 GB: [Some v] is
    [return v], [None] falls through to the standard count. *)
Definition large_repo_count (project_id default_branch : json) : M trace (option Z) :=
  try
    (commits_response <- send (Request HEAD (Commits project_id default_branch)) ;;
     if status_code commits_response =? 200 then
       search_response <- send (Request HEAD (SearchBlobs project_id)) ;;
       if andb (status_code search_response =? 200)
               (has_header search_response "X-Total")
       then
         file_count <- lift (header_int search_response "X-Total") ;;
         if 0 <? file_count then ret (Some file_count) else ret (Some 0)
       else ret (Some 0)
     else ret None)
    (fun _ => ret None).

Definition get_repository_file_count (project_id : json) : M trace Z :=
  try
    (project_response <- send (Request GET (Project project_id)) ;;
     if negb (status_code project_response =? 200) then ret 0
     else
       project_info <- lift (json_of project_response) ;;
       default_branch <- lift (get project_info "default_branch" JNull) ;;
       statistics <- lift (get project_info "statistics" (JDict [])) ;;
       repo_size <- lift (get statistics "repository_size" (JInt 0)) ;;
       (* repo_size / (1024 * 1024) raises on a value that is no number and
          on an integer beyond the range of floats *)
       repo_size <- lift (as_int repo_size) ;;
       repo_size_mb <- lift (true_divide repo_size (1024 * 1024)) ;;
       if negb (truthy default_branch) then ret 0
       else
         early <- (if float_gt repo_size_mb 10000
                   then large_repo_count project_id default_branch
                   else ret None) ;;
         match early with
         | Some v => ret v
         | None => count_tree max_pages project_id default_branch 1 0
         end)
    (fun _ => ret 0).

(** *** [check_for_pipeline_config] *)

Definition pipeline_files : list string :=
  [".gitlab-ci.yml"; ".gitlab-ci.yaml"; "gitlab-ci.yml"; "gitlab-ci.yaml";
   ".gitlab/ci.yml"; ".gitlab/ci.yaml"].

Fixpoint find_pipeline_file (project_id default_branch : json)
    (files : list string) : M trace bool :=
  match files with
  | [] => ret false
  | pipeline_file :: files' =>
      found <- try
                 (response <- send (Request HEAD
                                      (File project_id pipeline_file default_branch)) ;;
                  ret (status_code response =? 200))
                 (fun _ => ret false) ;;
      if found then ret true
      else find_pipeline_file project_id default_branch files'
  end.

Definition check_for_pipeline_config (project_id : json) : M trace bool :=
  try
    (project_response <- send (Request GET (Project project_id)) ;;
     if negb (status_code project_response =? 200) then ret false
     else
       project_info <- lift (json_of project_response) ;;
       default_branch <- lift (get project_info "default_branch" JNull) ;;
       if negb (truthy default_branch) then ret false
       else find_pipeline_file project_id default_branch pipeline_files)
    (fun _ => ret false).

(** *** [get_all_branches_file_stats] *)

(** The two locals that survive the per-branch [except]. *)
Record scan_locals : Type := ScanLocals {
  unique_files : list json;
  large_file_found : bool
}.

Definition large_file_patterns : list string :=
  [".zip"; ".tar"; ".gz"; ".iso"; ".dmg"; ".exe"; ".deb"; ".rpm";
   ".pkg"; ".msi"; ".war"; ".ear"; ".jar"; ".pdf"; ".mp4";
   ".mov"; ".avi"; ".mkv"; ".mp3"; ".wav"; ".flac"].

(** [any(file_path.lower().endswith(ext) for ext in large_file_patterns)] *)
Definition has_large_file_extension (file_path : string) : bool :=
  existsb (endswith (lower file_path)) large_file_patterns.

Definition large_file_threshold : Z := 100 * 1024 * 1024.

(** [int(file_response.headers.get('X-Gitlab-Size', '0'))] *)
Definition gitlab_size (r : response) : option Z :=
  match assoc "X-Gitlab-Size" (headers r) with
  | Some v => py_int v
  | None => Some 0
  end.

(** [unique_files.add(file_path)] *)
Definition add_unique_file (file_path : json) : M (scan_locals * trace) unit :=
  u <- locals ;;
  files <- lift (set_add file_path (unique_files u)) ;;
  update (fun u => ScanLocals files (large_file_found u)).

(** The HEAD request for the size of one candidate file; both [except]
    clauses pass.  Once the flag is set the size is logged in megabytes:
    the division can raise [OverflowError], which the outer clause
    passes. *)
Definition check_file_size (project_id : json) (file_path : string)
    (branch_name : json) : M (scan_locals * trace) unit :=
  try
    (file_response <- zoom (send (Request HEAD
                                    (File project_id file_path branch_name))) ;;
     if status_code file_response =? 200 then
       match gitlab_size file_response with
       | Some file_size =>
           if large_file_threshold <? file_size
           then
             update (fun u => ScanLocals (unique_files u) true) ;;;
             _ <- lift (true_divide file_size (1024 * 1024)) ;;
             ret tt
           else ret tt
       | None => ret tt
       end
     else ret tt)
    (fun _ => ret tt).

(** The body of [for item in items]. *)
Definition scan_item (project_id branch_name item : json)
  : M (scan_locals * trace) unit :=
  ty <- lift (get item "type" JNull) ;;
  if eq_str ty "blob" then
    file_path <- lift (get item "path" (JStr "")) ;;
    (if truthy file_path then add_unique_file file_path else ret tt) ;;;
    u <- locals ;;
    if andb (negb (large_file_found u)) (truthy file_path) then
      (* file_path.lower() *)
      path <- lift (as_str file_path AttributeError) ;;
      if has_large_file_extension path
      then check_file_size project_id path branch_name
      else ret tt
    else ret tt
  else ret tt.

(** [while page <= max_pages_per_branch] *)
Fixpoint scan_pages (remaining : nat) (project_id branch_name : json) (page : Z)
  : M (scan_locals * trace) unit :=
  match remaining with
  | O => ret tt
  | S remaining' =>
      tree_response <- zoom (send (Request GET (Tree project_id branch_name page))) ;;
      if negb (status_code tree_response =? 200) then ret tt
      else
        items <- lift (json_of tree_response) ;;
        if negb (truthy items) then ret tt
        else
          l <- lift (iter items) ;;
          for_each l (scan_item project_id branch_name) ;;;
          if has_next_page tree_response
          then scan_pages remaining' project_id branch_name (page + 1)
          else ret tt
  end.

Definition max_pages_per_branch : nat := 5.

(** [for idx, branch in enumerate(branches_to_check)]: reading the branch
    name is outside the inner [try], the tree walk inside it. *)
Fixpoint scan_branches (project_id : json) (branches : list json)
  : M (scan_locals * trace) unit :=
  match branches with
  | [] => ret tt
  | branch :: branches' =>
      branch_name <- lift (get branch "name" JNull) ;;
      (if truthy branch_name
       then try (scan_pages max_pages_per_branch project_id branch_name 1)
                (fun _ => ret tt)
       else ret tt) ;;;
      scan_branches project_id branches'
  end.

(** The elements of [branches[:10] if len(branches) > 10 else branches]. *)
Definition branches_to_check (branches : json) : outcome (list json) :=
  match branches with
  | JList l => Ok (firstn 10 l)
  | JStr s => Ok (firstn 10 (chars s))
  | JDict d =>
      if (10 <? List.length d)%nat then Raise TypeError
      else Ok (map (fun kv => JStr (fst kv)) d)
  | _ => Raise TypeError
  end.

Definition scan_all_branches (project_id : json) : M (scan_locals * trace) unit :=
  branches_response <- zoom (send (Request GET (Branches project_id 100))) ;;
  if negb (status_code branches_response =? 200) then ret tt
  else
    branches <- lift (json_of branches_response) ;;
    l <- lift (branches_to_check branches) ;;
    scan_branches project_id l.

(** Returns the pair of [stats['total_files']] and [stats['has_large_file']]:
    what the locals hold at the end, or the initial [0] and [False] when the
    outer [except] is reached. *)
Definition get_all_branches_file_stats (project_id : json) : M trace (Z * bool) :=
  fun t =>
    match scan_all_branches project_id (ScanLocals [] false, t) with
    | (Ok _, (u, t')) =>
        (Ok (Z.of_nat (List.length (unique_files u)), large_file_found u), t')
    | (Raise _, (_, t')) => (Ok (0, false), t')
    end.

(** *** [get_repository_stats_via_api] *)

(** The [stats] dictionary: its eleven keys are fixed by the initial literal,
    so it is a record; the three values copied from the API payload stay
    JSON values. *)
Record stats : Type := Stats {
  file_count : Z;
  repository_size : json;
  storage_size : json;
  commit_count : json;
  branch_count : Z;
  object_count : Z;
  all_branches_file_count : Z;
  has_large_file : bool;
  exceeds_6gb : bool;
  exceeds_2gb : bool;
  has_pipeline : bool
}.

Definition initial_stats : stats :=
  Stats 0 (JInt 0) (JInt 0) (JInt 0) 0 0 0 false false false false.

Definition two_gb : Z := 2 * 1024 * 1024 * 1024.
Definition six_gb : Z := 6 * 1024 * 1024 * 1024.

Definition set_sizes (r s c : json) (st : stats) : stats :=
  Stats (file_count st) r s c (branch_count st) (object_count st)
        (all_branches_file_count st) (has_large_file st)
        (exceeds_6gb st) (exceeds_2gb st) (has_pipeline st).

Definition set_exceeds_2gb (b : bool) (st : stats) : stats :=
  Stats (file_count st) (repository_size st) (storage_size st) (commit_count st)
        (branch_count st) (object_count st) (all_branches_file_count st)
        (has_large_file st) (exceeds_6gb st) b (has_pipeline st).

Definition set_exceeds_6gb (b : bool) (st : stats) : stats :=
  Stats (file_count st) (repository_size st) (storage_size st) (commit_count st)
        (branch_count st) (object_count st) (all_branches_file_count st)
        (has_large_file st) b (exceeds_2gb st) (has_pipeline st).

Definition set_file_count (n : Z) (st : stats) : stats :=
  Stats n (repository_size st) (storage_size st) (commit_count st)
        (branch_count st) (object_count st) (all_branches_file_count st)
        (has_large_file st) (exceeds_6gb st) (exceeds_2gb st) (has_pipeline st).

Definition set_branch_count (n : Z) (st : stats) : stats :=
  Stats (file_count st) (repository_size st) (storage_size st) (commit_count st)
        n (object_count st) (all_branches_file_count st)
        (has_large_file st) (exceeds_6gb st) (exceeds_2gb st) (has_pipeline st).

Definition set_has_pipeline (b : bool) (st : stats) : stats :=
  Stats (file_count st) (repository_size st) (storage_size st) (commit_count st)
        (branch_count st) (object_count st) (all_branches_file_count st)
        (has_large_file st) (exceeds_6gb st) (exceeds_2gb st) b.

Definition set_all_branches (n : Z) (b : bool) (st : stats) : stats :=
  Stats (file_count st) (repository_size st) (storage_size st) (commit_count st)
        (branch_count st) (object_count st) n b
        (exceeds_6gb st) (exceeds_2gb st) (has_pipeline st).

Definition set_object_count (n : Z) (st : stats) : stats :=
  Stats (file_count st) (repository_size st) (storage_size st) (commit_count st)
        (branch_count st) n (all_branches_file_count st)
        (has_large_file st) (exceeds_6gb st) (exceeds_2gb st) (has_pipeline st).

(** [int(response.headers.get('X-Total', 0))] behind the guard
    [status_code == 200 and 'X-Total' in response.headers]; nothing is added
    when the guard fails. *)
Definition total_if_ok (r : response) : outcome Z :=
  if andb (status_code r =? 200) (has_header r "X-Total")
  then header_int r "X-Total"
  else Ok 0.

(** [get_repository_object_count]: the key [all_branches_file_count] is
    always present in [existing_stats], so the inner default [file_count] of
    the [.get] is never used on the main path.  The handler recomputes a
    smaller sum, and can itself raise. *)
Definition get_repository_object_count (project_id : json) (existing_stats : stats)
  : M trace Z :=
  try
    (commits <- lift (as_int (commit_count existing_stats)) ;;
     let object_count := 0 + commits + branch_count existing_stats in
     tags_response <- send (Request HEAD (Tags project_id)) ;;
     tag_count <- lift (total_if_ok tags_response) ;;
     let object_count := object_count + tag_count in
     let file_count := all_branches_file_count existing_stats in
     let estimated_tree_objects := Z.max (file_count / 10) 1 in
     let object_count := object_count + (file_count + estimated_tree_objects) in
     mr_response <- send (Request HEAD (MergeRequests project_id)) ;;
     mr_count <- lift (total_if_ok mr_response) ;;
     ret (object_count + mr_count))
    (fun _ =>
       commits <- lift (as_int (commit_count existing_stats)) ;;
       ret (commits + file_count existing_stats)).

(** The statistics block guarded by [if response.status_code == 200]: the
    three sizes are stored before the threshold comparisons, which raise on a
    storage size that is no number. *)
Definition read_statistics (response : response) : M (stats * trace) unit :=
  if status_code response =? 200 then
    project_data <- lift (json_of response) ;;
    statistics <- lift (get project_data "statistics" (JDict [])) ;;
    if truthy statistics then
      r <- lift (get statistics "repository_size" (JInt 0)) ;;
      s <- lift (get statistics "storage_size" (JInt 0)) ;;
      c <- lift (get statistics "commit_count" (JInt 0)) ;;
      update (set_sizes r s c) ;;;
      over2 <- lift (gt s two_gb) ;;
      update (set_exceeds_2gb over2) ;;;
      over6 <- lift (gt s six_gb) ;;
      update (set_exceeds_6gb over6)
    else ret tt
  else ret tt.

(** The lookups that follow the statistics block, each stored under its
    key as soon as it returns. *)
Definition collect_counts (project_id : json) : M (stats * trace) unit :=
  n <- zoom (get_repository_file_count project_id) ;;
  update (set_file_count n) ;;;
  n <- zoom (get_branch_count project_id) ;;
  update (set_branch_count n) ;;;
  b <- zoom (check_for_pipeline_config project_id) ;;
  update (set_has_pipeline b) ;;;
  all_branches_stats <- zoom (get_all_branches_file_stats project_id) ;;
  update (set_all_branches (fst all_branches_stats) (snd all_branches_stats)) ;;;
  st <- locals ;;
  n <- zoom (get_repository_object_count project_id st) ;;
  update (set_object_count n).

(** The body of the [try] block. *)
Definition collect_stats (project_id : json) : M (stats * trace) unit :=
  response <- zoom (send (Request GET (ProjectStatistics project_id))) ;;
  read_statistics response ;;;
  collect_counts project_id.

(** Both the [try] block and its [except] end in [return stats]: the
    dictionary as it stands when the block ends or is left. *)
Definition get_repository_stats_via_api (project_id : json) : M trace stats :=
  fun t =>
    let '(_, (st, t')) := collect_stats project_id (initial_stats, t) in
    (Ok st, t').

End Lookups.

(** ** Utility functions *)

(** A value of an output row: a JSON-like value, or the [float] that
    [round(x, 2)] returns, given by the two-decimal number it is the nearest
    double to. *)
Inductive cell : Type :=
| CJson (v : json)
| CFloat (q : Q).

(** [bytes_to_mb], the same in both scripts:
    [round(bytes_value / (1024 * 1024), 2)].  The division is Python's true
    division of integers, which rounds the quotient to a double (exactly the
    quotient for an integer below [2^53] in magnitude) and raises
    [OverflowError] beyond the range of doubles. *)
Definition bytes_to_mb (bytes_value : json) : outcome cell :=
  match bytes_value with
  | JNull => Ok (CJson (JInt 0))
  | _ =>
      match as_int bytes_value with
      | Ok z =>
          match true_divide z (1024 * 1024) with
          | Ok x => Ok (CFloat (Qred (hundredths x # 100)))
          | Raise e => Raise e
          end
      | Raise e => Raise e
      end
  end.

(** ** Project filter (gitlab-details.py) *)

(** [v in project_filter] for a set of strings: an unhashable value raises,
    a hashable value that is no string is never a member. *)
Definition in_filter (v : json) (project_filter : list string) : outcome bool :=
  if hashable v then
    Ok (match v with
        | JStr s => existsb (String.eqb s) project_filter
        | _ => false
        end)
  else Raise TypeError.

Definition should_process_project (project : json)
    (project_filter : option (list string)) : outcome bool :=
  match project_filter with
  | None => Ok true
  | Some names =>
      match get project "name" (JStr "") with
      | Raise e => Raise e
      | Ok project_name =>
          match get project "path" (JStr "") with
          | Raise e => Raise e
          | Ok project_path =>
              match in_filter project_name names with
              | Raise e => Raise e
              | Ok true => Ok true
              | Ok false => in_filter project_path names
              end
          end
      end
  end.

(** The project-list file as [load_project_filter] finds it: absent,
    unreadable, or a table with the header [csv.DictReader] read
    ([None] for an empty file) and its rows, a missing cell being [None]. *)
Inductive filter_file : Type :=
| NoFilterFile
| UnreadableFilterFile
| FilterTable (fieldnames : option (list string))
              (rows : list (list (string * option string))).

(** [row.get(column, '').strip()] *)
Definition stripped (row : list (string * option string)) (column : string)
  : outcome string :=
  match assoc column row with
  | Some (Some s) => Ok (strip s)
  | Some None => Raise AttributeError
  | None => Ok (strip "")
  end.

(** [migrate_value in MIGRATE_REPO_VALUES] *)
Definition migrate_match (MIGRATE_REPO_VALUES : list json) (migrate_value : string)
  : bool :=
  existsb (fun v => eq_str v migrate_value) MIGRATE_REPO_VALUES.

(** [projects_to_migrate.add(project_name)] on a set of strings. *)
Definition add_name (name : string) (names : list string) : list string :=
  if existsb (String.eqb name) names then names else names ++ [name].

(** The [for row in reader] loop. *)
Fixpoint filter_rows (MIGRATE_REPO_VALUES : list json)
    (rows : list (list (string * option string)))
    (projects_to_migrate : list string) : outcome (list string) :=
  match rows with
  | [] => Ok projects_to_migrate
  | row :: rows' =>
      match stripped row "Migrate Repo" with
      | Raise e => Raise e
      | Ok migrate_value =>
          match stripped row "Name" with
          | Raise e => Raise e
          | Ok project_name =>
              filter_rows MIGRATE_REPO_VALUES rows'
                (if andb (migrate_match MIGRATE_REPO_VALUES migrate_value)
                         (negb (String.eqb project_name ""))
                 then add_name project_name projects_to_migrate
                 else projects_to_migrate)
          end
      end
  end.

(** [load_project_filter]: [Ok None] is Python's [None], "process all
    projects".  Only [os.path.join] on a configured name that is no string is
    outside the [try]. *)
Definition load_project_filter (PROJECT_LIST_FILE : json)
    (MIGRATE_REPO_VALUES : list json) (file : filter_file)
  : outcome (option (list string)) :=
  if negb (truthy PROJECT_LIST_FILE) then Ok None
  else
    match as_str PROJECT_LIST_FILE TypeError with
    | Raise e => Raise e
    | Ok _ =>
        match file with
        | NoFilterFile => Ok None
        | UnreadableFilterFile => Ok None
        | FilterTable None _ => Ok None
        | FilterTable (Some fieldnames) rows =>
            if orb (negb (existsb (String.eqb "Migrate Repo") fieldnames))
                   (negb (existsb (String.eqb "Name") fieldnames))
            then Ok None
            else
              match filter_rows MIGRATE_REPO_VALUES rows [] with
              | Raise _ => Ok None
              | Ok projects_to_migrate =>
                  if (List.length projects_to_migrate =? 0)%nat then Ok None
                  else Ok (Some projects_to_migrate)
              end
        end
    end.

(** [[p for p in projects if should_process_project(p, project_filter)]] *)
Fixpoint filter_projects (projects : list json) (project_filter : option (list string))
  : outcome (list json) :=
  match projects with
  | [] => Ok []
  | p :: projects' =>
      match should_process_project p project_filter with
      | Raise e => Raise e
      | Ok keep =>
          match filter_projects projects' project_filter with
          | Raise e => Raise e
          | Ok l => Ok (if keep then p :: l else l)
          end
      end
  end.

(** The step of the main block that applies the filter:
    [if project_filter is not None: projects = filtered_projects]. *)
Definition apply_project_filter (projects : list json)
    (project_filter : option (list string)) : outcome (list json) :=
  match project_filter with
  | None => Ok projects
  | Some _ => filter_projects projects project_filter
  end.

(** ** Start-up: token and settings *)

Record environment : Type := Environment {
  env_GITLAB_TOKEN : option string;
  env_GITLAB_URL : option string;
  env_GITHUB_TOKEN : option string
}.

(** The [.token] file: absent, present but not loadable as JSON, or loaded. *)
Inductive token_file : Type :=
| NoTokenFile
| UnreadableTokenFile
| TokenData (token_data : json).

(** Module-level code either ends the process or lets it go on. *)
Inductive startup (A : Type) : Type :=
| Exit (code : Z)
| Proceed (a : A).

Arguments Exit {A} code.
Arguments Proceed {A} a.

(** [not v] for the result of [os.environ.get]. *)
Definition unset (v : option string) : bool :=
  match v with
  | Some s => String.eqb s ""
  | None => true
  end.

(** [os.environ[name] = v] *)
Definition setenv (v : json) : outcome unit :=
  match as_str v TypeError with
  | Ok _ => Ok tt
  | Raise e => Raise e
  end.

(** [if key in token_data: os.environ[...] = token_data[key]] *)
Definition export_if_present (token_data : json) (key : string) : outcome unit :=
  match contains token_data key with
  | Raise e => Raise e
  | Ok false => Ok tt
  | Ok true =>
      match item token_data key with
      | Raise e => Raise e
      | Ok v => setenv v
      end
  end.

(** [if key in token_data: X = token_data[key]], [X] keeping [dflt] else. *)
Definition read_if_present (token_data : json) (key : string) (dflt : json)
  : outcome json :=
  match contains token_data key with
  | Raise e => Raise e
  | Ok false => Ok dflt
  | Ok true => item token_data key
  end.

(** The [migrate_repo_values] setting: a list, a single string, or, when the
    key is absent, the default [['Migrate']]; a value of another kind leaves
    the initial empty list. *)
Definition read_migrate_values (token_data : json) : outcome (list json) :=
  match contains token_data "migrate_repo_values" with
  | Raise e => Raise e
  | Ok false => Ok [JStr "Migrate"]
  | Ok true =>
      match item token_data "migrate_repo_values" with
      | Raise e => Raise e
      | Ok (JList l) => Ok l
      | Ok (JStr s) => Ok [JStr s]
      | Ok _ => Ok []
      end
  end.

(** ** Report writer *)

(** A record of the run, as the dict literal builds it: keys in order. *)
Definition row : Type := list (string * cell).

(** What a run leaves behind: the exit status of the process, the output
    file if one was written (header line and data lines), and the requests
    issued. *)
Record run : Type := Run {
  exit_code : Z;
  output_file : option (list string * list (list cell));
  issued : trace
}.

(** [csv.DictWriter] turns a dict into a line: a key outside [fieldnames]
    raises [ValueError], a missing key is written as the empty string. *)
Definition dict_to_list (fieldnames : list string) (r : row) : outcome (list cell) :=
  if forallb (fun kv => existsb (String.eqb (fst kv)) fieldnames) r
  then Ok (map (fun f => match assoc f r with
                         | Some c => c
                         | None => CJson (JStr "")
                         end) fieldnames)
  else Raise ValueError.

(** [writer.writerows(stats)]: the lines written, and whether a row raised. *)
Fixpoint writerows (fieldnames : list string) (stats : list row)
  : list (list cell) * bool :=
  match stats with
  | [] => ([], false)
  | r :: stats' =>
      match dict_to_list fieldnames r with
      | Raise _ => ([], true)
      | Ok line =>
          let (lines, raised) := writerows fieldnames stats' in
          (line :: lines, raised)
      end
  end.

(** The end of both main blocks: [if stats:] write the file; an exception
    from the writer is not caught. *)
Definition write_report (fieldnames : list string) (stats : list row) (t : trace)
  : run :=
  match stats with
  | [] => Run 0 None t
  | _ =>
      let (lines, raised) := writerows fieldnames stats in
      Run (if raised then 1 else 0) (Some (fieldnames, lines)) t
  end.

(** Sequencing of operations on values. *)
Definition and_then {A B : Type} (o : outcome A) (k : A -> outcome B) : outcome B :=
  match o with
  | Ok a => k a
  | Raise e => Raise e
  end.

(** ** gitlab-groups.py *)

Module Groups.

(** The [try] block that reads the token from the [.token] file. *)
Definition token_from_file (token_data : json) : outcome json :=
  and_then (get token_data "token" JNull) (fun tok =>
  and_then (if truthy tok then setenv tok else Ok tt) (fun _ =>
  and_then (export_if_present token_data "gitlab_url") (fun _ =>
  Ok tok))).

(** Module-level token resolution; the result is the token in use.  With a
    token in the environment, the settings read sits in
    [try: ... except: pass] and changes nothing modelled here. *)
Definition resolve_token (env : environment) (file : token_file) : startup json :=
  if unset (env_GITLAB_TOKEN env) then
    match file with
    | NoTokenFile => Exit 1
    | UnreadableTokenFile => Exit 1
    | TokenData token_data =>
        match token_from_file token_data with
        | Raise _ => Exit 1
        | Ok tok => if negb (truthy tok) then Exit 1 else Proceed tok
        end
    end
  else
    Proceed (JStr (match env_GITLAB_TOKEN env with Some token => token | None => "" end)).

Definition fieldnames : list string :=
  ["id"; "name"; "path"; "full_path"; "description"; "visibility";
   "project_count"; "subgroup_count"; "member_count";
   "storage_size_mb"; "repository_size_mb";
   "created_at"; "parent_id"; "web_url"].

Section Main.

Variable world : request -> reply.
Variable py_int : string -> option Z.

(** The [try] block of the per-group loop, up to the [group_stats] literal. *)
Definition group_stats (group group_id : json) : M trace row :=
  project_count <- get_group_project_count world py_int group_id ;;
  subgroup_count <- get_subgroup_count world py_int group_id ;;
  member_count <- get_group_member_count world py_int group_id ;;
  statistics <- lift (get group "statistics" (JDict [])) ;;
  storage_size <- lift (get statistics "storage_size" (JInt 0)) ;;
  repository_size <- lift (get statistics "repository_size" (JInt 0)) ;;
  id <- lift (item group "id") ;;
  name <- lift (item group "name") ;;
  path <- lift (item group "path") ;;
  full_path <- lift (item group "full_path") ;;
  description <- lift (get group "description" (JStr "")) ;;
  visibility <- lift (get group "visibility" (JStr "N/A")) ;;
  storage_size_mb <- lift (bytes_to_mb storage_size) ;;
  repository_size_mb <- lift (bytes_to_mb repository_size) ;;
  created_at <- lift (get group "created_at" (JStr "N/A")) ;;
  parent_id <- lift (get group "parent_id" (JStr "")) ;;
  web_url <- lift (get group "web_url" (JStr "N/A")) ;;
  ret [("id", CJson id);
       ("name", CJson name);
       ("path", CJson path);
       ("full_path", CJson full_path);
       ("description", CJson description);
       ("visibility", CJson visibility);
       ("project_count", CJson (JInt project_count));
       ("subgroup_count", CJson (JInt subgroup_count));
       ("member_count", CJson (JInt member_count));
       ("storage_size_mb", storage_size_mb);
       ("repository_size_mb", repository_size_mb);
       ("created_at", CJson created_at);
       ("parent_id", CJson parent_id);
       ("web_url", CJson web_url)].

(** The per-group loop: the three subscripts before the [try] are not
    protected; a failure inside it skips the group. *)
Fixpoint process_groups (groups : list json) (stats : list row) : M trace (list row) :=
  match groups with
  | [] => ret stats
  | group :: groups' =>
      group_id <- lift (item group "id") ;;
      group_name <- lift (item group "name") ;;
      group_path <- lift (item group "full_path") ;;
      r <- try (r <- group_stats group group_id ;; ret (Some r))
               (fun _ => ret None) ;;
      process_groups groups' (match r with Some r => stats ++ [r] | None => stats end)
  end.

(** The main block; [None] when the fuel of the listing fetch runs out. *)
Definition main (fuel : nat) : option run :=
  match fetch_all_groups world fuel [] with
  | None => None
  | Some (None, t) => Some (Run 1 None t)
  | Some (Some [], t) => Some (Run 0 None t)
  | Some (Some groups, t) =>
      match process_groups groups [] t with
      | (Raise _, t') => Some (Run 1 None t')
      | (Ok stats, t') => Some (write_report fieldnames stats t')
      end
  end.

(** The whole script. *)
Definition script (fuel : nat) (env : environment) (file : token_file) : option run :=
  match resolve_token env file with
  | Exit code => Some (Run code None [])
  | Proceed _ => main fuel
  end.

End Main.

End Groups.

(** ** gitlab-details.py *)

Module Details.

Record config : Type := Config {
  GITLAB_TOKEN : json;
  PROJECT_LIST_FILE : json;
  MIGRATE_REPO_VALUES : list json
}.

(** The [try] block run when the environment has no token. *)
Definition settings_without_env_token (token_data : json) : outcome config :=
  and_then (get token_data "token" JNull) (fun tok =>
  and_then (if truthy tok then setenv tok else Ok tt) (fun _ =>
  and_then (export_if_present token_data "github_token") (fun _ =>
  and_then (export_if_present token_data "gitlab_url") (fun _ =>
  and_then (read_if_present token_data "project_list_file" JNull) (fun plf =>
  and_then (read_migrate_values token_data) (fun values =>
  Ok (Config tok plf values))))))).

(** The statements of lines 100 to 134, the block meant for a token found
    in the environment, in their order.  The [try] around them has no
    handler in the source text, which for this reason is no Python (see
    [script]): the block is read here statement by statement, what is raised
    in it ending the run, to say which token and settings its assignments
    produce; the default for an empty [MIGRATE_REPO_VALUES] follows the
    [with] block. *)
Definition settings_with_env_token (env : environment) (token : string)
    (token_data : json) : outcome config :=
  and_then (if unset (env_GITHUB_TOKEN env)
            then export_if_present token_data "github_token" else Ok tt) (fun _ =>
  and_then (match env_GITLAB_URL env with
            | None => export_if_present token_data "gitlab_url"
            | Some url =>
                if String.eqb url "https://gitlab.com"
                then export_if_present token_data "gitlab_url" else Ok tt
            end) (fun _ =>
  and_then (read_if_present token_data "project_list_file" JNull) (fun plf =>
  and_then (read_migrate_values token_data) (fun values =>
  Ok (Config (JStr token) plf
        (match values with [] => [JStr "Migrate"] | _ => values end)))))).

(** Module-level configuration, up to [if not GITLAB_TOKEN: sys.exit(1)]. *)
Definition resolve_config (env : environment) (file : token_file) : startup config :=
  if unset (env_GITLAB_TOKEN env) then
    match file with
    | NoTokenFile => Exit 1
    | UnreadableTokenFile => Exit 1
    | TokenData token_data =>
        match settings_without_env_token token_data with
        | Raise _ => Exit 1
        | Ok cfg => if negb (truthy (GITLAB_TOKEN cfg)) then Exit 1 else Proceed cfg
        end
    end
  else
    let token := match env_GITLAB_TOKEN env with Some token => token | None => "" end in
    match file with
    | NoTokenFile => Proceed (Config (JStr token) JNull [])
    | UnreadableTokenFile => Exit 1
    | TokenData token_data =>
        match settings_with_env_token env token token_data with
        | Raise _ => Exit 1
        | Ok cfg => Proceed cfg
        end
    end.

Definition fieldnames : list string :=
  ["id"; "group_name"; "project_name"; "group_path"; "path"; "status"; "archived";
   "stars"; "forks"; "open_issues"; "merge_requests";
   "last_activity"; "contributors"; "total_commits"; "branch_count";
   "file_count"; "all_branches_file_count"; "total_objects";
   "repository_size_mb"; "total_size_mb"; "has_large_file_100mb";
   "exceeds_2gb"; "exceeds_6gb"; "pipeline"; "visibility";
   "created_at"; "default_branch"; "web_url"].

(** [sum(c.get('commits', 0) for c in contributors)] *)
Fixpoint sum_commits (contributors : list json) (total : Z) : outcome Z :=
  match contributors with
  | [] => Ok total
  | c :: contributors' =>
      and_then (get c "commits" (JInt 0)) (fun v =>
      and_then (as_int v) (fun n =>
      sum_commits contributors' (total + n)))
  end.

(** The size pair the record is built from: the API statistics, or, when
    both are zero, the statistics embedded in the listing payload.  The
    logged test [repository_size > 0 or storage_size > 0] raises on values
    that are no numbers. *)
Definition final_sizes (project : json) (repo_stats : stats) : outcome (json * json) :=
  let repository_size := repository_size repo_stats in
  let storage_size := storage_size repo_stats in
  if andb (eq_int repository_size 0) (eq_int storage_size 0) then
    and_then (get project "statistics" (JDict [])) (fun statistics =>
    and_then (get statistics "repository_size" (JInt 0)) (fun repository_size =>
    and_then (get statistics "storage_size" (JInt 0)) (fun storage_size =>
    and_then (gt repository_size 0) (fun positive =>
    and_then (if positive then Ok true else gt storage_size 0) (fun _ =>
    Ok (repository_size, storage_size))))))
  else Ok (repository_size, storage_size).

(** The part of the per-project [try] block that follows the requests: the
    size fallback, the thresholds recomputed from the final storage size and
    the [project_stats] literal. *)
Definition build_project_stats (project is_archived default_branch : json)
    (contributors : Z * Z) (repo_stats : stats) (merge_request_count : Z)
  : outcome row :=
  let file_count := file_count repo_stats in
  let branch_count := branch_count repo_stats in
  and_then (final_sizes project repo_stats) (fun sizes =>
  let repository_size := fst sizes in
  let storage_size := snd sizes in
  and_then (gt storage_size two_gb) (fun exceeds_2gb =>
  and_then (gt storage_size six_gb) (fun exceeds_6gb =>
  and_then (item project "id") (fun id =>
  and_then (get project "_group_name" (JStr "N/A")) (fun group_name =>
  and_then (item project "name") (fun project_name =>
  and_then (get project "_group_path" (JStr "N/A")) (fun group_path =>
  and_then (item project "path_with_namespace") (fun path =>
  and_then (get project "star_count" (JInt 0)) (fun stars =>
  and_then (get project "forks_count" (JInt 0)) (fun forks =>
  and_then (get project "open_issues_count" (JInt 0)) (fun open_issues =>
  and_then (get project "last_activity_at" (JStr "N/A")) (fun last_activity =>
  and_then (bytes_to_mb repository_size) (fun repository_size_mb =>
  and_then (bytes_to_mb storage_size) (fun total_size_mb =>
  and_then (get project "visibility" (JStr "N/A")) (fun visibility =>
  and_then (get project "created_at" (JStr "N/A")) (fun created_at =>
  and_then (get project "web_url" (JStr "N/A")) (fun web_url =>
  Ok [("id", CJson id);
      ("group_name", CJson group_name);
      ("project_name", CJson project_name);
      ("group_path", CJson group_path);
      ("path", CJson path);
      ("status", CJson (JStr (if truthy is_archived then "archived" else "active")));
      ("archived", CJson is_archived);
      ("stars", CJson stars);
      ("forks", CJson forks);
      ("open_issues", CJson open_issues);
      ("merge_requests", CJson (JInt merge_request_count));
      ("last_activity", CJson last_activity);
      ("contributors", CJson (JInt (fst contributors)));
      ("total_commits", CJson (JInt (snd contributors)));
      ("branch_count", CJson (JInt branch_count));
      ("file_count", CJson (JInt file_count));
      ("all_branches_file_count", CJson (JInt (all_branches_file_count repo_stats)));
      ("total_objects", CJson (JInt (object_count repo_stats)));
      ("repository_size_mb", repository_size_mb);
      ("total_size_mb", total_size_mb);
      ("has_large_file_100mb", CJson (JBool (has_large_file repo_stats)));
      ("exceeds_2gb", CJson (JBool exceeds_2gb));
      ("exceeds_6gb", CJson (JBool exceeds_6gb));
      ("pipeline", CJson (JBool (has_pipeline repo_stats)));
      ("visibility", CJson visibility);
      ("created_at", CJson created_at);
      ("default_branch", CJson default_branch);
      ("web_url", CJson web_url)]))))))))))))))))).

Section Main.

Variable world : request -> reply.
Variable py_int : string -> option Z.

(** The contributors request is not protected by a handler of its own. *)
Definition contributor_stats (project_id : json) : M trace (Z * Z) :=
  commit_response <- send world (Request GET (Contributors project_id)) ;;
  if status_code commit_response =? 200 then
    contributors <- lift (json_of commit_response) ;;
    l <- lift (iter contributors) ;;
    total_commits <- lift (sum_commits l 0) ;;
    n <- lift (len contributors) ;;
    ret (n, total_commits)
  else ret (0, 0).

(** The merge-request count of the main block, with its own handler. *)
Definition merge_request_count (project_id : json) : M trace Z :=
  try
    (mr_response <- send world (Request HEAD (MergeRequests project_id)) ;;
     lift (total_if_ok py_int mr_response))
    (fun _ => ret 0).

(** The [try] block of the per-project loop. *)
Definition project_stats (project project_id : json) : M trace row :=
  is_archived <- lift (get project "archived" (JBool false)) ;;
  default_branch <- lift (get project "default_branch" (JStr "main")) ;;
  contributors <- contributor_stats project_id ;;
  repo_stats <- get_repository_stats_via_api world py_int project_id ;;
  merge_request_count <- merge_request_count project_id ;;
  lift (build_project_stats project is_archived default_branch
          contributors repo_stats merge_request_count).

(** The per-project loop: the two subscripts before the [try] are not
    protected; a failure inside it skips the project. *)
Fixpoint process_projects (projects : list json) (stats : list row)
  : M trace (list row) :=
  match projects with
  | [] => ret stats
  | project :: projects' =>
      project_id <- lift (item project "id") ;;
      project_name <- lift (item project "name") ;;
      r <- try (r <- project_stats project project_id ;; ret (Some r))
               (fun _ => ret None) ;;
      process_projects projects'
        (match r with Some r => stats ++ [r] | None => stats end)
  end.

(** [project['_group_name'] = group_name; project['_group_path'] = group_path]
    for every project of one group. *)
Fixpoint tag_projects (group_name group_path : json) (projects : list json)
  : outcome (list json) :=
  match projects with
  | [] => Ok []
  | project :: projects' =>
      and_then (set_item project "_group_name" group_name) (fun project =>
      and_then (set_item project "_group_path" group_path) (fun project =>
      and_then (tag_projects group_name group_path projects') (fun l =>
      Ok (project :: l))))
  end.

(** The loop over the discovered groups: a group whose project listing
    fails is skipped.  [None] when a listing fetch runs out of fuel. *)
Fixpoint collect_projects (fuel : nat) (groups : list json) (all_projects : list json)
    (t : trace) : option (outcome (list json) * trace) :=
  match groups with
  | [] => Some (Ok all_projects, t)
  | group :: groups' =>
      match item group "name" with
      | Raise e => Some (Raise e, t)
      | Ok group_name =>
          match item group "full_path" with
          | Raise e => Some (Raise e, t)
          | Ok group_path =>
              match fetch_all_projects world fuel group_path t with
              | None => None
              | Some (None, t') => collect_projects fuel groups' all_projects t'
              | Some (Some projects, t') =>
                  match tag_projects group_name group_path projects with
                  | Raise e => Some (Raise e, t')
                  | Ok projects =>
                      collect_projects fuel groups' (all_projects ++ projects) t'
                  end
              end
          end
      end
  end.

(** The main block.  An exception that reaches the top level ends the
    process with status 1 before anything is written. *)
Definition main (fuel : nat) (project_filter : option (list string)) : option run :=
  match fetch_all_groups world fuel [] with
  | None => None
  | Some (None, t) => Some (Run 1 None t)
  | Some (Some [], t) => Some (Run 0 None t)
  | Some (Some groups, t) =>
      match collect_projects fuel groups [] t with
      | None => None
      | Some (Raise _, t') => Some (Run 1 None t')
      | Some (Ok all_projects, t') =>
          match apply_project_filter all_projects project_filter with
          | Raise _ => Some (Run 1 None t')
          | Ok [] => Some (Run 0 None t')
          | Ok projects =>
              match process_projects projects [] t' with
              | (Raise _, t'') => Some (Run 1 None t'')
              | (Ok stats, t'') => Some (write_report fieldnames stats t'')
              end
          end
      end
  end.

End Main.

(** The process.  Python compiles a whole file before it runs the first
    statement of it.  In gitlab-details.py the [try] that opens at line 100
    is followed by no [except] or [finally] clause: its suite ends at line
    134 and line 137 stands at module level (the sibling script closes the
    same [try] with [except: pass]).  The compilation ends in a
    [SyntaxError]; the interpreter reports it and exits with status 1.  No
    statement of the file runs, so neither the environment, the files nor
    the server play a part, no request is issued and no report is
    written. *)
Definition script (world : request -> reply) (py_int : string -> option Z)
    (fuel : nat) (env : environment) (file : token_file)
    (project_list : filter_file) : option run :=
  Some (Run 1 None []).

End Details.

(** * Vocabulary of the statements *)

(** ** Listing pages *)

(** A page request that ends in failure: a non-success status, a time-out, a
    connection error or any other exception of the transport. *)
Definition hard_failure (r : reply) : Prop :=
  match r with
  | Failed _ => True
  | Replied response => status_code response <> 200
  end.

(** A successful page holding [items], with a next-page indicator. *)
Definition continuing (r : reply) (items : list json) : Prop :=
  exists response v,
    r = Replied response /\ status_code response = 200 /\
    body response = Some v /\ truthy v = true /\ iter v = Ok items /\
    has_next_page response = true.

(** A successful page that ends the traversal: an empty page, or a page
    holding [items] without a next-page indicator. *)
Definition ending (r : reply) (items : list json) : Prop :=
  exists response v,
    r = Replied response /\ status_code response = 200 /\
    body response = Some v /\
    ((truthy v = false /\ items = []) \/
     (truthy v = true /\ iter v = Ok items /\ has_next_page response = false)).

(** Pages [1], [2], ... of a listing hold the item lists [pages], in order. *)
Definition serves (world : request -> reply) (url : Z -> request)
    (pages : list (list json)) : Prop :=
  forall i items,
    nth_error pages i = Some items ->
    continuing (world (url (1 + Z.of_nat i))) items.

(** The requests for pages [first], ..., [first + n - 1]. *)
Definition page_requests (url : Z -> request) (first : Z) (n : nat) : trace :=
  map (fun i => url (first + Z.of_nat i)) (seq 0 n).

(** A server that holds one ordered collection and serves it in pages of the
    size the request asks for, with the next-page header GitLab sends: the
    number of the next page, or the empty string on the last page. *)
Definition page_of (collection : list json) (per_page page : Z) : list json :=
  firstn (Z.to_nat per_page) (skipn (Z.to_nat ((page - 1) * per_page)) collection).

Definition paged_reply (collection : list json) (per_page page : Z) : reply :=
  Replied
    (Response 200
       [("X-Next-Page",
         if page * per_page <? Z.of_nat (List.length collection) then "next" else "")]
       (Some (JList (page_of collection per_page page)))).

Definition paged_server (collection : list json) (rq : request) : reply :=
  match target rq with
  | Groups per_page page => paged_reply collection per_page page
  | GroupProjects _ per_page page => paged_reply collection per_page page
  | _ => Failed ConnectionError
  end.

(** ** Process exit *)

(** No token can be resolved: none in the environment, and no token file, an
    unreadable one, or one whose [token] entry is missing or empty. *)
Definition token_unresolvable (env : environment) (file : token_file) : Prop :=
  unset (env_GITLAB_TOKEN env) = true /\
  match file with
  | NoTokenFile => True
  | UnreadableTokenFile => True
  | TokenData token_data =>
      forall tok, get token_data "token" JNull = Ok tok -> truthy tok = false
  end.

Definition exits_nonzero (o : option run) : Prop :=
  exists r, o = Some r /\ exit_code r <> 0 /\ output_file r = None.

Definition exits_zero_without_output (o : option run) : Prop :=
  exists r, o = Some r /\ exit_code r = 0 /\ output_file r = None.

(** ** Object-count estimate *)

(** The estimate in the words of the specification. *)
Definition additive_total
    (commits branches tags files merge_requests : Z) : Z :=
  commits + branches + tags + files + Z.max (files / 10) 1 + merge_requests.

(** The count a tag or merge-request lookup contributes: [None] when the
    request raises or its [X-Total] header cannot be read as a number, and
    otherwise the header's value, or 0 for a reply that is no success or has
    no such header. *)
Definition lookup_count (py_int : string -> option Z) (r : reply) : option Z :=
  match r with
  | Failed _ => None
  | Replied response =>
      match total_if_ok py_int response with
      | Ok n => Some n
      | Raise _ => None
      end
  end.

(** The claim that the estimate of every project is the additive total, for
    some non-negative tag and merge-request counts and either file count. *)
Definition object_count_is_additive (world : request -> reply)
    (py_int : string -> option Z) (project_id : json) : Prop :=
  forall st t,
    get_repository_stats_via_api world py_int project_id [] = (Ok st, t) ->
    exists commits tags merge_requests files,
      as_int (commit_count st) = Ok commits /\
      0 <= tags /\ 0 <= merge_requests /\
      (files = all_branches_file_count st \/ files = file_count st) /\
      object_count st =
      additive_total commits (branch_count st) tags files merge_requests.

(** A small server: project 1 has the given storage size, 5 commits,
    3 branches, 2 merge requests, an empty default branch and no
    contributors; the tag listing answers [tags]. *)
Definition sample_server (storage : Z) (tags : reply) (rq : request) : reply :=
  match target rq with
  | ProjectStatistics _ =>
      Replied (Response 200 []
                 (Some (JDict [("statistics",
                                JDict [("repository_size", JInt 10);
                                       ("storage_size", JInt storage);
                                       ("commit_count", JInt 5)])])))
  | Branches _ 1 => Replied (Response 200 [("X-Total", "3")] None)
  | Branches _ _ => Replied (Response 200 [] (Some (JList [])))
  | Project _ => Replied (Response 200 [] (Some (JDict [])))
  | Contributors _ => Replied (Response 200 [] (Some (JList [])))
  | MergeRequests _ => Replied (Response 200 [("X-Total", "2")] None)
  | Tags _ => tags
  | _ => Replied (Response 404 [] None)
  end.

(** The sample server with a tag listing that times out. *)
Definition tags_time_out : request -> reply :=
  sample_server 10 (Failed Timeout).

(** ** Large-file scan *)

(** A size lookup: the HEAD request on a repository file. *)
Definition is_size_lookup (rq : request) : bool :=
  match meth rq, target rq with
  | HEAD, File _ _ _ => true
  | _, _ => false
  end.

(** A reply that reports a size strictly above 100 MiB. *)
Definition reports_large (py_int : string -> option Z) (r : reply) : bool :=
  match r with
  | Failed _ => false
  | Replied response =>
      andb (status_code response =? 200)
           match gitlab_size py_int response with
           | Some file_size => 100 * 1024 * 1024 <? file_size
           | None => false
           end
  end.

(** A size lookup whose reply reports a large file. *)
Definition large_lookup (world : request -> reply) (py_int : string -> option Z)
    (rq : request) : bool :=
  andb (is_size_lookup rq) (reports_large py_int (world rq)).

(** In a chronological request log, no size lookup follows one that found a
    large file. *)
Fixpoint lookups_stop (large : request -> bool) (t : trace) : bool :=
  match t with
  | [] => true
  | rq :: t' =>
      andb (if large rq then forallb (fun r => negb (is_size_lookup r)) t' else true)
           (lookups_stop large t')
  end.

(** The branches the scan walks: the first ten entries of the branch
    listing, none when the listing fails. *)
Definition checked_branches (world : request -> reply) (project_id : json)
  : list json :=
  match world (Request GET (Branches project_id 100)) with
  | Failed _ => []
  | Replied response =>
      if status_code response =? 200 then
        match body response with
        | Some branches =>
            match branches_to_check branches with
            | Ok l => l
            | Raise _ => []
            end
        | None => []
        end
      else []
  end.

(** [ref] is the name of one of the branches [checked]. *)
Definition names_branch (checked : list json) (ref : json) : Prop :=
  exists branch, In branch checked /\ get branch "name" JNull = Ok ref /\
                 truthy ref = true.

(** The requests the scan of a project may issue: the branch listing, tree
    pages of checked branches, and size lookups in checked branches for
    paths with a listed extension. *)
Definition within_scan (project_id : json) (checked : list json) (rq : request)
  : Prop :=
  match meth rq, target rq with
  | GET, Branches p per_page => p = project_id /\ per_page = 100
  | GET, Tree p ref _ => p = project_id /\ names_branch checked ref
  | HEAD, File p path ref =>
      p = project_id /\ has_large_file_extension path = true /\
      names_branch checked ref
  | _, _ => False
  end.

(** Every entry is a JSON object. *)
Definition is_object (v : json) : Prop :=
  match v with
  | JDict _ => True
  | _ => False
  end.

(** ** Invariants of stateful code *)

(** [c] keeps the state property [I], whether it returns or raises. *)
Definition preserves {S A : Type} (I : S -> Prop) (c : M S A) : Prop :=
  forall s o s', c s = (o, s') -> I s -> I s'.

(** [c] returns on every state. *)
Definition never_raises {S A : Type} (c : M S A) : Prop :=
  forall s, exists a s', c s = (Ok a, s').

(** What holds of the locals and the request log throughout the scan of a
    project: the log stays within the scan, the flag says whether a lookup
    found a large file, and no lookup follows such a find. *)
Definition scan_invariant (world : request -> reply) (py_int : string -> option Z)
    (project_id : json) (checked : list json) (s : scan_locals * trace) : Prop :=
  Forall (within_scan project_id checked) (snd s) /\
  large_file_found (fst s) = existsb (large_lookup world py_int) (snd s) /\
  lookups_stop (large_lookup world py_int) (snd s) = true.

(** ** Sub-query failures *)

(** The reading of the zero-default rule for the tag lookup: when it fails,
    the object count of the emitted record is 0. *)
Definition tag_failure_defaults_to_zero (world : request -> reply)
    (py_int : string -> option Z) (project project_id : json) : Prop :=
  hard_failure (world (Request HEAD (Tags project_id))) ->
  forall row t,
    Details.project_stats world py_int project project_id [] = (Ok row, t) ->
    assoc "total_objects" row = Some (CJson (JInt 0)).

(** A listing entry with the three mandatory keys only. *)
Definition sample_project : json :=
  JDict [("id", JInt 1); ("name", JStr "p"); ("path_with_namespace", JStr "g/p")].

(** The two sizes of a [stats] dictionary. *)
Definition sizes (st : stats) : json * json :=
  (repository_size st, storage_size st).

(** ** Size thresholds *)

(** The threshold flags of the statistics dictionary follow its storage
    size, strictly. *)
Definition flags_follow_storage (st : stats) : Prop :=
  forall z, as_int (storage_size st) = Ok z ->
            exceeds_2gb st = (two_gb <? z) /\ exceeds_6gb st = (six_gb <? z).

(** ** Sample servers and inputs *)

Definition sample_group (name : string) : json :=
  JDict [("id", JInt 7); ("name", JStr name); ("path", JStr name);
         ("full_path", JStr name)].

(** Page 1 of every listing holds one entry and announces a next page;
    every other request times out. *)
Definition second_page_down (rq : request) : reply :=
  match target rq with
  | Groups _ 1 | GroupProjects _ _ 1 =>
      Replied (Response 200 [("X-Next-Page", "2")] (Some (JList [sample_group "a"])))
  | _ => Failed Timeout
  end.

(** Every listing has two pages of one entry each. *)
Definition two_pages (rq : request) : reply :=
  match target rq with
  | Groups _ 1 | GroupProjects _ _ 1 =>
      Replied (Response 200 [("X-Next-Page", "2")] (Some (JList [sample_group "a"])))
  | Groups _ 2 | GroupProjects _ _ 2 =>
      Replied (Response 200 [("X-Next-Page", "")] (Some (JList [sample_group "b"])))
  | _ => Failed Timeout
  end.

(** One branch with three files, the first of which is over 100 MiB. *)
Definition large_file_server (rq : request) : reply :=
  match target rq with
  | Branches _ _ => Replied (Response 200 [] (Some (JList [JDict [("name", JStr "main")]])))
  | Tree _ _ 1 =>
      Replied (Response 200 []
                 (Some (JList [JDict [("type", JStr "blob"); ("path", JStr "a.ZIP")];
                               JDict [("type", JStr "blob"); ("path", JStr "b.txt")];
                               JDict [("type", JStr "blob"); ("path", JStr "c.iso")]])))
  | File _ "a.ZIP" _ => Replied (Response 200 [("X-Gitlab-Size", "104857601")] None)
  | File _ _ _ => Replied (Response 200 [("X-Gitlab-Size", "1")] None)
  | _ => Failed ConnectionError
  end.

(** A filter file in which no row is marked for migration. *)
Definition sample_rows : list (list (string * option string)) :=
  [[("Name", Some "alpha"); ("Migrate Repo", Some "Archive")];
   [("Name", Some "beta"); ("Migrate Repo", Some " keep ")]].

(** ** Run time report *)

(** The closing lines of both scripts split the whole seconds of the run
    into hours, minutes and seconds and log the first format whose leading
    unit is positive. *)
Inductive time_report : Type :=
| HoursMinutesSeconds (hours minutes seconds : Z)
| MinutesSeconds (minutes seconds : Z)
| SecondsOnly (seconds : Z).

Definition execution_time_report (total_seconds : Z) : time_report :=
  let hours := total_seconds / 3600 in
  let minutes := (total_seconds mod 3600) / 60 in
  let seconds := total_seconds mod 60 in
  if 0 <? hours then HoursMinutesSeconds hours minutes seconds
  else if 0 <? minutes then MinutesSeconds minutes seconds
  else SecondsOnly seconds.

(** ** Default-branch file count and pipeline lookup *)

(** [item.get('type') == 'blob'] on an entry that has a [get] method. *)
Definition is_blob (item : json) : bool :=
  match get item "type" JNull with
  | Ok ty => eq_str ty "blob"
  | Raise _ => false
  end.

Definition has_get (item : json) : bool :=
  match item with
  | JDict _ => true
  | _ => false
  end.

(** The request for one page of the repository tree at [ref]. *)
Definition tree_url (project_id ref : json) (page : Z) : request :=
  Request GET (Tree project_id ref page).

(** What [get_repository_file_count] may ask before it walks the tree, in
    this order. *)
Definition file_count_preamble (project_id ref : json) : trace :=
  [Request GET (Project project_id);
   Request HEAD (Commits project_id ref);
   Request HEAD (SearchBlobs project_id)].

(** The HEAD request for one candidate pipeline file. *)
Definition pipeline_lookup (project_id ref : json) (pipeline_file : string)
  : request :=
  Request HEAD (File project_id pipeline_file ref).

(** The reply is a response with status 200. *)
Definition gives_200 (r : reply) : bool :=
  match r with
  | Replied response => status_code response =? 200
  | Failed _ => false
  end.

(** The elements of [l] up to and including the first one [found]. *)
Fixpoint through_first {A : Type} (found : A -> bool) (l : list A) : list A :=
  match l with
  | [] => []
  | x :: l' => if found x then [x] else x :: through_first found l'
  end.

(** ** Tree pages of the all-branches scan *)

(** The page numbers of the tree requests of a log, in order. *)
Definition tree_pages (t : trace) : list Z :=
  flat_map (fun rq => match target rq with
                      | Tree _ _ page => [page]
                      | _ => []
                      end) t.

(** [c] issues at most [k] tree requests, each for a page from [lo] to
    [hi], whether it returns or raises. *)
Definition adds_tree_pages {L A : Type} (k : nat) (lo hi : Z)
    (c : M (L * trace) A) : Prop :=
  forall s o s',
    c s = (o, s') ->
    exists pages,
      tree_pages (snd s') = tree_pages (snd s) ++ pages /\
      (List.length pages <= k)%nat /\
      Forall (fun p => lo <= p <= hi) pages.

(** ** Files counted by the all-branches scan *)

(** [file_path] is the path of a [blob] entry in the reply to a tree request
    for the project that is in the log [t]. *)
Definition listed_blob (world : request -> reply) (project_id : json)
    (t : trace) (file_path : json) : Prop :=
  exists ref page response v items item,
    In (tree_url project_id ref page) t /\
    world (tree_url project_id ref page) = Replied response /\
    status_code response = 200 /\ json_of response = Ok v /\
    iter v = Ok items /\ In item items /\
    is_blob item = true /\ get item "path" (JStr "") = Ok file_path.

(** No two elements are the same key of a [set]. *)
Fixpoint distinct_keys (l : list json) : bool :=
  match l with
  | [] => true
  | x :: l' => andb (negb (existsb (key_eqb x) l')) (distinct_keys l')
  end.

(** What holds of the set [unique_files] throughout the scan, the log having
    grown from [t0]: its elements are pairwise different, none is empty, and
    each is a listed blob path. *)
Definition counted_files_invariant (world : request -> reply) (project_id : json)
    (t0 : trace) (s : scan_locals * trace) : Prop :=
  (exists extra, snd s = t0 ++ extra) /\
  distinct_keys (unique_files (fst s)) = true /\
  Forall (fun f => truthy f = true /\ listed_blob world project_id (snd s) f)
         (unique_files (fst s)).

(** ** Project filter *)

(** The project's [name] or its [path] is one of [names]. *)
Definition named_in (names : list string) (project : json) : Prop :=
  exists s,
    In s names /\
    (get project "name" (JStr "") = Ok (JStr s) \/
     get project "path" (JStr "") = Ok (JStr s)).

(** A row of the project list that selects the project [name]: its stripped
    [Migrate Repo] cell is one of the configured values and its stripped
    [Name] cell is [name]. *)
Definition selects (MIGRATE_REPO_VALUES : list json)
    (row : list (string * option string)) (name : string) : Prop :=
  exists migrate_value,
    stripped row "Migrate Repo" = Ok migrate_value /\
    migrate_match MIGRATE_REPO_VALUES migrate_value = true /\
    stripped row "Name" = Ok name.

(** ** Discovery of projects *)

(** [project] is [original] with the group's name and full path stored under
    [_group_name] and [_group_path], every other key unchanged. *)
Definition tagged_with (group_name group_path original project : json) : Prop :=
  is_object original /\
  item project "_group_name" = Ok group_name /\
  item project "_group_path" = Ok group_path /\
  forall key,
    key <> "_group_name" -> key <> "_group_path" ->
    item project key = item original key.

(** [project] was listed for one of [groups] and carries that group's name
    and full path. *)
Definition discovered_in (world : request -> reply) (fuel : nat)
    (groups : list json) (project : json) : Prop :=
  exists group group_name group_path projects original t t',
    In group groups /\
    item group "name" = Ok group_name /\
    item group "full_path" = Ok group_path /\
    fetch_all_projects world fuel group_path t = Some (Some projects, t') /\
    In original projects /\
    tagged_with group_name group_path original project.

(** A request for a page of 100 of the project listing of one of
    [groups]. *)
Definition lists_group_projects (groups : list json) (rq : request) : Prop :=
  exists group group_path page,
    In group groups /\ item group "full_path" = Ok group_path /\
    rq = group_projects_url group_path 100 page.

(** One group holding the sample project; every other request is answered
    by the sample server. *)
Definition reporting_server (rq : request) : reply :=
  match target rq with
  | Groups _ _ => Replied (Response 200 [] (Some (JList [sample_group "g"])))
  | GroupProjects _ _ _ => Replied (Response 200 [] (Some (JList [sample_project])))
  | _ => sample_server 10 (Failed Timeout) rq
  end.

(** ** Complete group entries *)

(** A size entry [bytes_to_mb] accepts: absent, [null], a truth value or
    an integer; one below [2^53] in magnitude is well inside the range of
    floats. *)
Definition sized (entry : option json) : Prop :=
  match entry with
  | None | Some JNull | Some (JBool _) => True
  | Some (JInt z) => Z.abs z < 2 ^ 53
  | Some _ => False
  end.

(** A group entry with the four keys the record subscripts and, if it has
    statistics, an object there with acceptable sizes. *)
Definition complete_group (group : json) : Prop :=
  exists d,
    group = JDict d /\
    assoc "id" d <> None /\ assoc "name" d <> None /\
    assoc "path" d <> None /\ assoc "full_path" d <> None /\
    match assoc "statistics" d with
    | None => True
    | Some (JDict statistics) =>
        sized (assoc "storage_size" statistics) /\
        sized (assoc "repository_size" statistics)
    | Some _ => False
    end.

(** The record [r] is the one of the group entry [group]. *)
Definition record_of_group (group : json) (r : row) : Prop :=
  exists id, item group "id" = Ok id /\ assoc "id" r = Some (CJson id).

(** ** Contributors *)

(** [c.get('commits', 0)] read as a number; 0 where the entry has none. *)
Definition commits_of (contributor : json) : Z :=
  match get contributor "commits" (JInt 0) with
  | Ok v => match as_int v with Ok n => n | Raise _ => 0 end
  | Raise _ => 0
  end.

(** ** Token masking *)

(** The masked token both scripts log:
    [f"{token[:8]}...{token[-4:]}" if len(token) > 12 else "***"]. *)
Definition masked_token (token : string) : string :=
  let l := list_ascii_of_string token in
  if (12 <? List.length l)%nat
  then string_of_list_ascii
         (firstn 8 l ++ list_ascii_of_string "..." ++ skipn (List.length l - 4) l)
  else "***".

(** Three contributors with 3 and 4 commits and no [commits] entry. *)
Definition contributors_server (rq : request) : reply :=
  match target rq with
  | Contributors _ =>
      Replied (Response 200 []
                 (Some (JList [JDict [("commits", JInt 3)];
                               JDict [("commits", JInt 4)];
                               JDict [("name", JStr "x")]])))
  | _ => Failed Timeout
  end.

(** ** Walk of the default-branch tree *)

(** The project request is answered with a default branch [ref] and a
    repository of [size] bytes. *)
Definition project_reply (world : request -> reply) (project_id ref : json)
    (size : Z) : Prop :=
  exists response info statistics v,
    world (Request GET (Project project_id)) = Replied response /\
    status_code response = 200 /\ body response = Some info /\
    get info "default_branch" JNull = Ok ref /\ truthy ref = true /\
    get info "statistics" (JDict []) = Ok statistics /\
    get statistics "repository_size" (JInt 0) = Ok v /\ as_int v = Ok size.

(** The number of [blob] entries among [items]. *)
Definition blobs (items : list json) : Z :=
  Z.of_nat (List.length (filter is_blob items)).

(** The reply to the request for page [page] of the tree at [ref] is a page
    holding [items], all of them objects; [files] blobs having been counted
    on the pages before it, the block that reads the page-count header
    raises nothing; [more] tells whether the reply announces a next page. *)
Definition tree_page_holds (world : request -> reply)
    (py_int : string -> option Z) (project_id ref : json) (page files : Z)
    (items : list json) (more : bool) : Prop :=
  exists response v,
    world (tree_url project_id ref page) = Replied response /\
    status_code response = 200 /\
    body response = Some v /\ truthy v = true /\ iter v = Ok items /\
    forallb has_get items = true /\
    check_total_pages py_int response page (files + blobs items) = Ok tt /\
    has_next_page response = more.

(** A project of one branch whose tree has two pages: two files and a
    directory, then one file. *)
Definition tree_server (rq : request) : reply :=
  match target rq with
  | Project _ =>
      Replied (Response 200 [] (Some (JDict [("default_branch", JStr "main")])))
  | Tree _ _ 1 =>
      Replied (Response 200 [("X-Next-Page", "2"); ("X-Total-Pages", "2")]
                 (Some (JList [JDict [("type", JStr "blob"); ("path", JStr "a")];
                               JDict [("type", JStr "tree"); ("path", JStr "d")];
                               JDict [("type", JStr "blob"); ("path", JStr "d/b")]])))
  | Tree _ _ 2 =>
      Replied (Response 200 [("X-Next-Page", ""); ("X-Total-Pages", "2")]
                 (Some (JList [JDict [("type", JStr "blob"); ("path", JStr "d/c")]])))
  | _ => Failed Timeout
  end.

(** A repository of 20 GB for which the blob search reports 1234 files. *)
Definition large_repo_server (rq : request) : reply :=
  match target rq with
  | Project _ =>
      Replied (Response 200 []
                 (Some (JDict [("default_branch", JStr "main");
                               ("statistics",
                                JDict [("repository_size", JInt 21474836480)])])))
  | Commits _ _ => Replied (Response 200 [] None)
  | SearchBlobs _ => Replied (Response 200 [("X-Total", "1234")] None)
  | _ => Failed Timeout
  end.

(** ** Completeness of the all-branches count *)

(** [file_path] is in the set [files]. *)
Definition counted (file_path : json) (files : list json) : Prop :=
  existsb (key_eqb file_path) files = true.

(** Every entry of every readable tree page of the project is an object
    whose [path], if it has one, is a string, as GitLab's are. *)
Definition tree_of_objects (world : request -> reply) (project_id : json) : Prop :=
  forall ref page response v items item,
    world (tree_url project_id ref page) = Replied response ->
    status_code response = 200 -> json_of response = Ok v ->
    iter v = Ok items -> In item items ->
    exists d,
      item = JDict d /\
      match assoc "path" d with
      | Some (JStr _) | None => True
      | Some _ => False
      end.

(** From state [s] to state [s']: the log has grown by [extra], the set
    [unique_files] has lost nothing, and it holds every non-empty blob path
    listed in answer to a tree request of [extra]. *)
Definition scan_step (world : request -> reply) (project_id : json)
    (s s' : scan_locals * trace) (extra : trace) : Prop :=
  snd s' = snd s ++ extra /\
  (forall f, counted f (unique_files (fst s)) ->
             counted f (unique_files (fst s'))) /\
  (forall f, truthy f = true -> listed_blob world project_id extra f ->
             counted f (unique_files (fst s'))).

(** ** Entries the loops cannot start on *)

(** A project entry on which [project['id']] or [project['name']] raises. *)
Definition unreadable_project (project : json) : Prop :=
  (exists e, item project "id" = Raise e) \/
  (exists e, item project "name" = Raise e).

(** A group entry on which one of the three subscripts before the [try]
    raises. *)
Definition unreadable_group (group : json) : Prop :=
  (exists e, item group "id" = Raise e) \/
  (exists e, item group "name" = Raise e) \/
  (exists e, item group "full_path" = Raise e).

(** ** Completeness of the size lookups *)

(** The allow-list of the large-file check: the path ends, in any letter
    case, in one of the archive, media and binary extensions. *)
Definition on_allow_list (file_path : string) : Prop :=
  exists extension,
    In extension [".zip"; ".tar"; ".gz"; ".iso"; ".dmg"; ".exe"; ".deb";
                  ".rpm"; ".pkg"; ".msi"; ".war"; ".ear"; ".jar"; ".pdf";
                  ".mp4"; ".mov"; ".avi"; ".mkv"; ".mp3"; ".wav"; ".flac"] /\
    endswith (lower file_path) extension = true.

(** A candidate for the size lookup that the scan has seen: [file_path],
    not empty and on the allow-list, is the path of a [blob] entry in the
    reply to a request of the log [t] for a tree page of the branch
    [ref]. *)
Definition listed_candidate (world : request -> reply) (project_id : json)
    (t : trace) (ref : json) (file_path : string) : Prop :=
  exists page response v items item,
    In (tree_url project_id ref page) t /\
    world (tree_url project_id ref page) = Replied response /\
    status_code response = 200 /\ json_of response = Ok v /\
    iter v = Ok items /\ In item items /\
    is_blob item = true /\ get item "path" (JStr "") = Ok (JStr file_path) /\
    file_path <> "" /\ on_allow_list file_path.

(** From state [s] to state [s']: the log has grown by [extra], a raised
    flag has stayed raised, and every candidate seen in [extra] has been
    looked up in its branch unless the flag is raised. *)
Definition lookup_step (world : request -> reply) (project_id : json)
    (s s' : scan_locals * trace) (extra : trace) : Prop :=
  snd s' = snd s ++ extra /\
  (large_file_found (fst s) = true -> large_file_found (fst s') = true) /\
  (forall ref file_path,
     listed_candidate world project_id extra ref file_path ->
     large_file_found (fst s') = true \/
     In (Request HEAD (File project_id file_path ref)) extra).

(** * Theorems *)

(** ** Bytes to megabytes *)

Lemma round_half_even_near (n d : Z) :
  0 < d -> 2 * Z.abs (n - round_half_even n d * d) <= d.
Proof.
  intros Hd. unfold round_half_even.
  pose proof (Z.div_mod n d ltac:(lia)) as E.
  pose proof (Z.mod_pos_bound n d Hd) as B.
  destruct (Z.ltb_spec (2 * (n mod d)) d);
    [| destruct (Z.ltb_spec d (2 * (n mod d))); [| destruct (Z.even (n / d))]];
    nia.
Qed.

Lemma round_half_even_multiple (x d : Z) :
  0 < d -> round_half_even (x * d) d = x.
Proof.
  intros Hd. unfold round_half_even.
  rewrite Z.div_mul, Z.mod_mul by lia.
  destruct (Z.ltb_spec (2 * 0) d); [reflexivity | lia].
Qed.

Lemma round_half_even_scale (n d c : Z) :
  0 < d -> 0 < c -> round_half_even (n * c) (d * c) = round_half_even n d.
Proof.
  intros Hd Hc. unfold round_half_even.
  rewrite Z.div_mul_cancel_r, Z.mul_mod_distr_r by lia.
  assert (E1 : (2 * (n mod d * c) <? d * c) = (2 * (n mod d) <? d)).
  { destruct (Z.ltb_spec (2 * (n mod d * c)) (d * c));
      destruct (Z.ltb_spec (2 * (n mod d)) d); try reflexivity; nia. }
  assert (E2 : (d * c <? 2 * (n mod d * c)) = (d <? 2 * (n mod d))).
  { destruct (Z.ltb_spec (d * c) (2 * (n mod d * c)));
      destruct (Z.ltb_spec d (2 * (n mod d))); try reflexivity; nia. }
  now rewrite E1, E2.
Qed.

(** Below [2^53] the quotient by [1024 * 1024] is a double: the division
    is exact. *)
Lemma nearest_double_mb (z : Z) :
  z <> 0 -> Z.abs z < 2 ^ 53 ->
  nearest_double z (1024 * 1024)
  = Double (z * 2 ^ (52 - Z.log2 (Z.abs z))) (72 - Z.log2 (Z.abs z)).
Proof.
  intros Hz Hb. unfold nearest_double.
  destruct (Z.eqb_spec z 0) as [E | _]; [contradiction |].
  change (Z.log2 (1024 * 1024)) with 20. change (1024 * 1024) with (2 ^ 20).
  cbv zeta.
  set (a := Z.abs z) in *. set (la := Z.log2 a).
  assert (Ha : 0 < a) by (unfold a; lia).
  destruct (Z.log2_spec a Ha) as [Hlo Hhi]. fold la in Hlo, Hhi.
  assert (Hla0 : 0 <= la) by apply Z.log2_nonneg.
  assert (Hla : la < 53) by (apply Z.log2_lt_pow2; [exact Ha | exact Hb]).
  assert (Hbelow : (if 0 <=? la - 20 then a <? 2 ^ 20 * 2 ^ (la - 20)
                    else a * 2 ^ (- (la - 20)) <? 2 ^ 20) = false).
  { destruct (Z.leb_spec 0 (la - 20)).
    - rewrite <- Z.pow_add_r by lia. replace (20 + (la - 20)) with la by lia.
      apply Z.ltb_ge. exact Hlo.
    - apply Z.ltb_ge.
      replace (2 ^ 20) with (2 ^ la * 2 ^ (- (la - 20)))
        by (rewrite <- Z.pow_add_r by lia; f_equal; lia).
      apply Z.mul_le_mono_nonneg_r; [apply Z.pow_nonneg; lia | exact Hlo]. }
  rewrite Hbelow.
  rewrite Z.max_r by lia.
  destruct (Z.leb_spec 0 (la - 20 - 52)); [lia |].
  replace (- (la - 20 - 52)) with (72 - la) by lia.
  replace (2 ^ (72 - la)) with (2 ^ (52 - la) * 2 ^ 20)
    by (rewrite <- Z.pow_add_r by lia; f_equal; lia).
  rewrite Z.mul_assoc, round_half_even_multiple by lia.
  reflexivity.
Qed.

(** The division by [1024 * 1024] of an integer below [2^53] in magnitude
    returns the quotient. *)
Lemma true_divide_mb (z : Z) :
  Z.abs z < 2 ^ 53 ->
  exists x,
    true_divide z (1024 * 1024) = Ok x /\
    0 <= shift x /\ numerator x * 2 ^ 20 = z * 2 ^ shift x.
Proof.
  intros Hb. destruct (Z.eq_dec z 0) as [-> | Hz].
  - exists (Double 0 0).
    split; [reflexivity | split; [cbn; lia | reflexivity]].
  - unfold true_divide. rewrite (nearest_double_mb z Hz Hb).
    set (a := Z.abs z) in *. set (la := Z.log2 a).
    assert (Ha : 0 < a) by (unfold a; lia).
    destruct (Z.log2_spec a Ha) as [Hlo Hhi]. fold la in Hlo, Hhi.
    assert (Hla0 : 0 <= la) by apply Z.log2_nonneg.
    assert (Hla : la < 53) by (apply Z.log2_lt_pow2; [exact Ha | exact Hb]).
    assert (Hsmall : too_large (Double (z * 2 ^ (52 - la)) (72 - la)) = false).
    { unfold too_large. cbn [numerator shift]. apply Z.leb_gt.
      rewrite Z.abs_mul. fold a.
      rewrite (Z.abs_eq (2 ^ (52 - la))) by (apply Z.pow_nonneg; lia).
      assert (H1 : a * 2 ^ (52 - la) < 2 ^ 53).
      { replace (2 ^ 53) with (2 ^ Z.succ la * 2 ^ (52 - la))
          by (rewrite <- Z.pow_add_r by lia; f_equal; lia).
        apply Z.mul_lt_mono_pos_r; [apply Z.pow_pos_nonneg; lia | exact Hhi]. }
      assert (H2 : 0 < 2 ^ (72 - la)) by (apply Z.pow_pos_nonneg; lia).
      assert (H3 : 2 ^ 53 < 2 ^ 1024) by (apply Z.pow_lt_mono_r; lia).
      assert (H4 : 0 < 2 ^ 1024) by (apply Z.pow_pos_nonneg; lia).
      nia. }
    rewrite Hsmall. eexists. split; [reflexivity |]. cbn [numerator shift].
    split; [lia |].
    rewrite <- Z.mul_assoc, <- Z.pow_add_r by lia.
    f_equal. f_equal. lia.
Qed.

Lemma hundredths_exact (x : double) (z : Z) :
  0 <= shift x -> numerator x * 2 ^ 20 = z * 2 ^ shift x ->
  hundredths x = round_half_even (100 * z) (1024 * 1024).
Proof.
  intros Hs E. unfold hundredths. change (1024 * 1024) with (2 ^ 20).
  assert (Hk : 0 < 2 ^ shift x) by (apply Z.pow_pos_nonneg; lia).
  rewrite <- (round_half_even_scale (100 * numerator x) (2 ^ shift x) (2 ^ 20))
    by lia.
  rewrite <- (round_half_even_scale (100 * z) (2 ^ 20) (2 ^ shift x)) by lia.
  f_equal; [| apply Z.mul_comm].
  rewrite <- !Z.mul_assoc. now rewrite E.
Qed.

Lemma float_gt_exact (x : double) (z c : Z) :
  0 <= shift x -> numerator x * 2 ^ 20 = z * 2 ^ shift x ->
  float_gt x c = (c * (1024 * 1024) <? z).
Proof.
  intros Hs E. unfold float_gt. change (1024 * 1024) with (2 ^ 20).
  assert (Hk : 0 < 2 ^ shift x) by (apply Z.pow_pos_nonneg; lia).
  assert (H20 : 0 < 2 ^ 20) by lia.
  destruct (Z.ltb_spec (c * 2 ^ shift x) (numerator x));
    destruct (Z.ltb_spec (c * 2 ^ 20) z); try reflexivity; nia.
Qed.

(** [bytes_to_mb] below [2^53]. *)
Lemma bytes_to_mb_exact (z : Z) :
  Z.abs z < 2 ^ 53 ->
  bytes_to_mb (JInt z)
  = Ok (CFloat (Qred (round_half_even (100 * z) (1024 * 1024) # 100))).
Proof.
  intros Hb. unfold bytes_to_mb, as_int.
  destruct (true_divide_mb z Hb) as (x & -> & Hs & E).
  now rewrite (hundredths_exact x z Hs E).
Qed.

(** C4. [bytes_to_mb] maps [None] to the integer 0, 0 to 0.0 and 1048576 to
    1.0.  Every result for a number is a float of hundredths [h / 100], the
    quotient that Python's division returns rounded to two places; for a
    byte count below [2^53] in magnitude that quotient is
    [bytes / 1048576] itself, the function returns, and the result is
    within half a hundredth of [bytes / 1048576]. *)
Theorem bytes_to_mb_rounds_to_hundredths :
  bytes_to_mb JNull = Ok (CJson (JInt 0)) /\
  bytes_to_mb (JInt 0) = Ok (CFloat 0) /\
  bytes_to_mb (JInt 1048576) = Ok (CFloat 1) /\
  (forall bytes_value : Z,
     Z.abs bytes_value < 2 ^ 53 ->
     exists h : Z,
       bytes_to_mb (JInt bytes_value) = Ok (CFloat (Qred (h # 100))) /\
       2 * Z.abs (100 * bytes_value - h * 1048576) <= 1048576) /\
  (forall (bytes_value : Z) (result : cell),
     bytes_to_mb (JInt bytes_value) = Ok result ->
     exists (quotient : double) (h : Z),
       true_divide bytes_value (1024 * 1024) = Ok quotient /\
       result = CFloat (Qred (h # 100)) /\
       2 * Z.abs (100 * numerator quotient - h * 2 ^ shift quotient)
       <= 2 ^ shift quotient).
Proof.
  split; [reflexivity |].
  split; [exact (bytes_to_mb_exact 0 ltac:(cbn; lia)) |].
  split; [exact (bytes_to_mb_exact 1048576 ltac:(cbn; lia)) |].
  split.
  - intros z Hb. exists (round_half_even (100 * z) (1024 * 1024)). split.
    + exact (bytes_to_mb_exact z Hb).
    + apply (round_half_even_near (100 * z) 1048576). lia.
  - intros z result. unfold bytes_to_mb, as_int.
    destruct (true_divide z (1024 * 1024)) as [x |] eqn:Ex; [| discriminate].
    intros [= <-]. exists x, (hundredths x).
    split; [reflexivity |]. split; [reflexivity |].
    unfold hundredths. apply round_half_even_near.
    unfold true_divide in Ex.
    destruct (too_large (nearest_double z (1024 * 1024))); [discriminate |].
    inversion Ex; subst x. unfold nearest_double.
    destruct (z =? 0); [cbn; lia |]. cbv zeta.
    match goal with
    | |- context [if 0 <=? ?e then _ else _] => destruct (Z.leb_spec 0 e)
    end; cbn [shift]; apply Z.pow_pos_nonneg; lia.
Qed.

(** ** Filter fallback *)

Lemma filter_rows_without_match values rows :
  Forall (fun row => forall migrate_value,
            stripped row "Migrate Repo" = Ok migrate_value ->
            migrate_match values migrate_value = false) rows ->
  forall names selected,
    filter_rows values rows names = Ok selected -> selected = names.
Proof.
  induction 1 as [| row rows Hrow _ IH]; intros names selected; simpl.
  - intros E. now inversion E.
  - destruct (stripped row "Migrate Repo") as [m |] eqn:Em; [| discriminate].
    destruct (stripped row "Name") as [n |]; [| discriminate].
    rewrite (Hrow m eq_refl). simpl. apply IH.
Qed.

Lemma load_project_filter_never_empty PROJECT_LIST_FILE values file names :
  load_project_filter PROJECT_LIST_FILE values file = Ok (Some names) -> names <> [].
Proof.
  unfold load_project_filter.
  destruct (negb (truthy PROJECT_LIST_FILE)); [discriminate |].
  destruct (as_str PROJECT_LIST_FILE TypeError); [| discriminate].
  destruct file as [| | [fieldnames |] rows]; try discriminate.
  destruct (orb _ _); [discriminate |].
  destruct (filter_rows values rows []) as [selected |]; [| discriminate].
  destruct selected; simpl; [discriminate |].
  intros H. inversion H. discriminate.
Qed.

(** C3. When no row of the filter file has a "Migrate Repo" value among the
    configured filter values, [load_project_filter] returns [None] and the
    project set handed on by the main block is the discovered set itself;
    and on no input at all does it return an empty allow-list. *)
Theorem filter_without_match_is_ignored
    (file_name : string) (values : list json) (fieldnames : option (list string))
    (rows : list (list (string * option string))) (projects : list json) :
  Forall (fun row => forall migrate_value,
            stripped row "Migrate Repo" = Ok migrate_value ->
            migrate_match values migrate_value = false) rows ->
  load_project_filter (JStr file_name) values (FilterTable fieldnames rows) = Ok None /\
  and_then (load_project_filter (JStr file_name) values (FilterTable fieldnames rows))
           (apply_project_filter projects) = Ok projects /\
  (forall PROJECT_LIST_FILE MIGRATE_REPO_VALUES file names,
     load_project_filter PROJECT_LIST_FILE MIGRATE_REPO_VALUES file = Ok (Some names) ->
     names <> []).
Proof.
  intros H.
  assert (E : load_project_filter (JStr file_name) values
                (FilterTable fieldnames rows) = Ok None).
  { unfold load_project_filter.
    destruct (negb (truthy (JStr file_name))); [reflexivity |]. simpl.
    destruct fieldnames as [names |]; [| reflexivity].
    destruct (orb _ _); [reflexivity |].
    destruct (filter_rows values rows []) as [selected |] eqn:Es; [| reflexivity].
    apply (filter_rows_without_match _ _ H) in Es. subst selected. reflexivity. }
  split; [exact E |]. split; [rewrite E; reflexivity |].
  intros. eapply load_project_filter_never_empty. eassumption.
Qed.

(** ** Paginated listing fetch *)

Section Pagination.

Variable world : request -> reply.
Variable url : Z -> request.

Lemma paginate_continuing fuel page acc t items :
  continuing (world (url page)) items ->
  paginate world (S fuel) url page acc t =
  paginate world fuel url (page + 1) (acc ++ items) (t ++ [url page]).
Proof.
  intros (response & v & E & Hs & Hb & Ht & Hi & Hn). simpl.
  rewrite E, Hs. unfold json_of. rewrite Hb, Ht, Hi, Hn. reflexivity.
Qed.

Lemma paginate_hard_failure fuel page acc t :
  hard_failure (world (url page)) ->
  paginate world (S fuel) url page acc t = Some (None, t ++ [url page]).
Proof.
  intros H. simpl. destruct (world (url page)) as [response | e]; [| reflexivity].
  simpl in H. destruct (Z.eqb_spec (status_code response) 200); [contradiction |].
  reflexivity.
Qed.

Lemma paginate_ending fuel page acc t items :
  ending (world (url page)) items ->
  paginate world (S fuel) url page acc t = Some (Some (acc ++ items), t ++ [url page]).
Proof.
  intros (response & v & E & Hs & Hb & [[Ht Hi] | (Ht & Hi & Hn)]); simpl;
    rewrite E, Hs; unfold json_of; rewrite Hb, Ht; simpl.
  - subst items. now rewrite app_nil_r.
  - now rewrite Hi, Hn.
Qed.

Lemma page_requests_S first n :
  page_requests url first (S n) = url first :: page_requests url (first + 1) n.
Proof.
  unfold page_requests. simpl. rewrite Z.add_0_r. f_equal.
  rewrite <- seq_shift, map_map. apply map_ext. intros i. f_equal. lia.
Qed.

Lemma page_requests_last first n :
  page_requests url first (S n) =
  page_requests url first n ++ [url (first + Z.of_nat n)].
Proof.
  unfold page_requests. rewrite seq_S, map_app. reflexivity.
Qed.

(** Walking through a run of continuing pages. *)
Lemma paginate_pages (pages : list (list json)) :
  forall fuel page acc t,
    (forall i items, nth_error pages i = Some items ->
                     continuing (world (url (page + Z.of_nat i))) items) ->
    paginate world (List.length pages + fuel)%nat url page acc t =
    paginate world fuel url (page + Z.of_nat (List.length pages))
             (acc ++ List.concat pages)
             (t ++ page_requests url page (List.length pages)).
Proof.
  induction pages as [| items pages IH]; intros fuel page acc t H.
  - simpl. now rewrite Z.add_0_r, !app_nil_r.
  - cbn [List.length Nat.add List.concat].
    rewrite (paginate_continuing _ _ _ _ items).
    + rewrite IH.
      * rewrite page_requests_S, <- !app_assoc. simpl. f_equal. lia.
      * intros i its Hi. replace (page + 1 + Z.of_nat i) with (page + Z.of_nat (S i)) by lia.
        apply H. exact Hi.
    + specialize (H 0%nat items eq_refl). now rewrite Z.add_0_r in H.
Qed.

(** A returned list was built from requests that all succeeded. *)
Lemma paginate_list_without_failure fuel :
  forall page acc t l t',
    paginate world fuel url page acc t = Some (Some l, t') ->
    exists new, t' = t ++ new /\ Forall (fun rq => ~ hard_failure (world rq)) new.
Proof.
  induction fuel as [| fuel IH]; intros page acc t l t'; simpl; [discriminate |].
  destruct (world (url page)) as [response | e] eqn:E; [| discriminate].
  destruct (Z.eqb_spec (status_code response) 200) as [Hs | Hs]; simpl; [| discriminate].
  assert (Hok : ~ hard_failure (world (url page))).
  { rewrite E. simpl. intros C. now apply C. }
  destruct (json_of response) as [items |]; [| discriminate].
  destruct (truthy items); simpl.
  - destruct (iter items) as [its |]; [| discriminate].
    destruct (has_next_page response).
    + intros H. apply IH in H. destruct H as (new & -> & Hnew).
      exists (url page :: new). rewrite <- app_assoc. split; [reflexivity |].
      now constructor.
    + intros H. inversion H. exists [url page]. split; [reflexivity |].
      now constructor.
  - intros H. inversion H. exists [url page]. split; [reflexivity |].
    now constructor.
Qed.

(** A failure after any number of continuing pages discards them all. *)
Lemma paginate_failure_after pages fuel t :
  (List.length pages < fuel)%nat ->
  serves world url pages ->
  hard_failure (world (url (1 + Z.of_nat (List.length pages)))) ->
  paginate world fuel url 1 [] t =
  Some (None, t ++ page_requests url 1 (S (List.length pages))).
Proof.
  intros Hfuel Hpages Hfail.
  replace fuel with (List.length pages + S (fuel - S (List.length pages)))%nat by lia.
  rewrite paginate_pages by exact Hpages.
  rewrite paginate_hard_failure by exact Hfail.
  now rewrite page_requests_last, app_assoc.
Qed.

(** The traversal stops at the first ending page, with everything before. *)
Lemma paginate_end_after pages last fuel t :
  (List.length pages < fuel)%nat ->
  serves world url pages ->
  ending (world (url (1 + Z.of_nat (List.length pages)))) last ->
  paginate world fuel url 1 [] t =
  Some (Some (List.concat pages ++ last),
        t ++ page_requests url 1 (S (List.length pages))).
Proof.
  intros Hfuel Hpages Hend.
  replace fuel with (List.length pages + S (fuel - S (List.length pages)))%nat by lia.
  rewrite paginate_pages by exact Hpages.
  rewrite (paginate_ending _ _ _ _ last) by exact Hend.
  now rewrite page_requests_last, app_assoc.
Qed.

End Pagination.

(** C1. In every listing fetch, a page request that fails (non-success
    status, time-out, connection error or other exception) after any number
    of successfully accumulated pages makes the function return [None], with
    enough fuel to reach that page; and whenever a list is returned, none of
    the requests issued had failed. *)
Theorem listing_failure_returns_None
    (world : request -> reply) (fuel : nat) (pages : list (list json)) (t : trace) :
  (List.length pages < fuel)%nat ->
  (serves world (groups_url 50) pages ->
   hard_failure (world (groups_url 50 (1 + Z.of_nat (List.length pages)))) ->
   fetch_all_groups world fuel t =
   Some (None, t ++ page_requests (groups_url 50) 1 (S (List.length pages)))) /\
  (forall group_name,
     serves world (group_projects_url group_name 100) pages ->
     hard_failure (world (group_projects_url group_name 100
                            (1 + Z.of_nat (List.length pages)))) ->
     fetch_all_projects world fuel group_name t =
     Some (None, t ++ page_requests (group_projects_url group_name 100) 1
                        (S (List.length pages)))) /\
  (forall l t',
     fetch_all_groups world fuel t = Some (Some l, t') ->
     exists new, t' = t ++ new /\ Forall (fun rq => ~ hard_failure (world rq)) new) /\
  (forall group_name l t',
     fetch_all_projects world fuel group_name t = Some (Some l, t') ->
     exists new, t' = t ++ new /\ Forall (fun rq => ~ hard_failure (world rq)) new).
Proof.
  intros Hfuel. unfold fetch_all_groups, fetch_all_projects.
  repeat split.
  - intros. now apply paginate_failure_after.
  - intros. now apply paginate_failure_after.
  - intros l t' H. exact (paginate_list_without_failure _ _ _ _ _ _ _ _ H).
  - intros g l t' H. exact (paginate_list_without_failure _ _ _ _ _ _ _ _ H).
Qed.

(** ** Pagination as re-chunking *)

Lemma firstn_plus {A : Type} (n m : nat) (l : list A) :
  firstn (n + m) l = firstn n l ++ firstn m (skipn n l).
Proof.
  revert l. induction n as [| n IH]; intros l; [reflexivity |].
  destruct l as [| a l]; simpl.
  - now destruct m.
  - now rewrite IH.
Qed.

Lemma page_of_nat (collection : list json) (pp j : nat) :
  page_of collection (Z.of_nat pp) (1 + Z.of_nat j) =
  firstn pp (skipn (j * pp) collection).
Proof.
  unfold page_of. rewrite Nat2Z.id.
  replace ((1 + Z.of_nat j - 1) * Z.of_nat pp) with (Z.of_nat (j * pp)) by lia.
  now rewrite Nat2Z.id.
Qed.

Section PagedServer.

Variable collection : list json.
Variable pp : nat.
Variable url : Z -> request.
Hypothesis pp_positive : (0 < pp)%nat.
Hypothesis url_paged :
  forall page, paged_server collection (url page) =
               paged_reply collection (Z.of_nat pp) page.

Lemma paginate_paged_from fuel :
  forall j t,
    (0 < fuel)%nat ->
    (List.length collection < fuel + j * pp)%nat ->
    exists t',
      paginate (paged_server collection) fuel url (1 + Z.of_nat j)
               (firstn (j * pp) collection) t = Some (Some collection, t').
Proof.
  induction fuel as [| fuel IH]; intros j t Hpos Hlen; [lia |].
  cbn [paginate]. rewrite url_paged. unfold paged_reply. rewrite page_of_nat.
  unfold json_of, has_next_page.
  cbn [status_code body headers Z.eqb Pos.eqb negb truthy iter assoc].
  destruct (firstn pp (skipn (j * pp) collection)) as [| x items] eqn:E;
    cbn [negb].
  - assert (Hs : skipn (j * pp) collection = []).
    { destruct pp; [lia |].
      destruct (skipn (j * S n) collection); [reflexivity | discriminate]. }
    assert (Hall : firstn (j * pp) collection = collection).
    { apply firstn_all2.
      pose proof (length_skipn (j * pp) collection) as L.
      rewrite Hs in L. simpl in L. lia. }
    rewrite Hall. eexists. reflexivity.
  - assert (Hacc : firstn (j * pp) collection ++ x :: items =
                   firstn (S j * pp) collection).
    { rewrite <- E. simpl. rewrite (Nat.add_comm pp). apply eq_sym, firstn_plus. }
    rewrite Hacc. rewrite String.eqb_refl. cbn [negb].
    destruct (Z.ltb_spec ((1 + Z.of_nat j) * Z.of_nat pp)
                         (Z.of_nat (List.length collection))) as [Hmore | Hlast].
    + cbn [String.eqb Ascii.eqb Bool.eqb negb].
      replace (1 + Z.of_nat j + 1) with (1 + Z.of_nat (S j)) by lia.
      apply IH; nia.
    + cbn [String.eqb negb].
      assert (Hall : firstn (S j * pp) collection = collection).
      { apply firstn_all2. nia. }
      rewrite Hall. eexists. reflexivity.
Qed.

Lemma paginate_paged fuel t :
  (List.length collection < fuel)%nat ->
  exists t',
    paginate (paged_server collection) fuel url 1 [] t = Some (Some collection, t').
Proof.
  intros H. apply (paginate_paged_from fuel 0 t); lia.
Qed.

End PagedServer.

(** C7. A listing fetch that meets [pages] continuing pages and then an
    ending page (an empty page, or a page without next-page indicator)
    returns their items concatenated in order and has requested exactly the
    pages up to the ending one; and against a server that serves one
    collection in pages, the fetch returns that collection whatever the page
    size, in particular for the sizes 50 and 100 the scripts use. *)
Theorem pagination_concatenates_pages
    (world : request -> reply) (fuel : nat) (t : trace) :
  (forall pages last,
     (List.length pages < fuel)%nat ->
     serves world (groups_url 50) pages ->
     ending (world (groups_url 50 (1 + Z.of_nat (List.length pages)))) last ->
     fetch_all_groups world fuel t =
     Some (Some (List.concat pages ++ last),
           t ++ page_requests (groups_url 50) 1 (S (List.length pages)))) /\
  (forall group_name pages last,
     (List.length pages < fuel)%nat ->
     serves world (group_projects_url group_name 100) pages ->
     ending (world (group_projects_url group_name 100
                      (1 + Z.of_nat (List.length pages)))) last ->
     fetch_all_projects world fuel group_name t =
     Some (Some (List.concat pages ++ last),
           t ++ page_requests (group_projects_url group_name 100) 1
                  (S (List.length pages)))) /\
  (forall collection per_page group_name,
     (0 < per_page)%nat ->
     (List.length collection < fuel)%nat ->
     (exists t', paginate (paged_server collection) fuel
                   (groups_url (Z.of_nat per_page)) 1 [] t =
                 Some (Some collection, t')) /\
     (exists t', paginate (paged_server collection) fuel
                   (group_projects_url group_name (Z.of_nat per_page)) 1 [] t =
                 Some (Some collection, t')) /\
     (exists t', fetch_all_groups (paged_server collection) fuel t =
                 Some (Some collection, t')) /\
     (exists t', fetch_all_projects (paged_server collection) fuel group_name t =
                 Some (Some collection, t'))).
Proof.
  unfold fetch_all_groups, fetch_all_projects. repeat split.
  - intros. now apply paginate_end_after.
  - intros. now apply paginate_end_after.
  - apply (paginate_paged collection per_page (groups_url (Z.of_nat per_page)));
      [assumption | reflexivity | assumption].
  - apply (paginate_paged collection per_page
             (group_projects_url group_name (Z.of_nat per_page)));
      [assumption | reflexivity | assumption].
  - apply (paginate_paged collection 50 (groups_url 50));
      [lia | reflexivity | assumption].
  - apply (paginate_paged collection 100 (group_projects_url group_name 100));
      [lia | reflexivity | assumption].
Qed.

(** ** Process exit *)

Lemma groups_token_unresolvable env file :
  token_unresolvable env file -> Groups.resolve_token env file = Exit 1.
Proof.
  intros [Hu Hf]. unfold Groups.resolve_token. rewrite Hu.
  destruct file as [| | token_data]; try reflexivity.
  unfold Groups.token_from_file.
  destruct (get token_data "token" JNull) as [tok |] eqn:E; [| reflexivity].
  simpl. rewrite (Hf tok eq_refl).
  destruct (export_if_present token_data "gitlab_url"); simpl; [| reflexivity].
  now rewrite (Hf tok eq_refl).
Qed.

Lemma details_token_unresolvable env file :
  token_unresolvable env file -> Details.resolve_config env file = Exit 1.
Proof.
  intros [Hu Hf]. unfold Details.resolve_config. rewrite Hu.
  destruct file as [| | token_data]; try reflexivity.
  unfold Details.settings_without_env_token.
  destruct (get token_data "token" JNull) as [tok |] eqn:E; [| reflexivity].
  simpl. rewrite (Hf tok eq_refl).
  destruct (export_if_present token_data "github_token"); simpl; [| reflexivity].
  destruct (export_if_present token_data "gitlab_url"); simpl; [| reflexivity].
  destruct (read_if_present token_data "project_list_file" JNull); simpl; [| reflexivity].
  destruct (read_migrate_values token_data); simpl; [| reflexivity].
  now rewrite (Hf tok eq_refl).
Qed.

(** C6.  gitlab-groups.py exits with a non-zero status, writing nothing,
    when no token can be resolved and when the initial group listing fails,
    and with status zero, writing nothing, when the listing is empty.
    gitlab-details.py does not: as the file stands, its process ends with
    status 1 on every run, also when the listing is empty or no project is
    left after filtering, although its main block, read as written, handles
    the failed listing, the empty listing and the empty project list as the
    sibling does. *)
Theorem process_exit_behaviour
    (world : request -> reply) (py_int : string -> option Z) (fuel : nat) :
  (forall env file,
     token_unresolvable env file ->
     exits_nonzero (Groups.script world py_int fuel env file)) /\
  (forall env file token t,
     Groups.resolve_token env file = Proceed token ->
     fetch_all_groups world fuel [] = Some (None, t) ->
     exits_nonzero (Groups.script world py_int fuel env file)) /\
  (forall env file token t,
     Groups.resolve_token env file = Proceed token ->
     fetch_all_groups world fuel [] = Some (Some [], t) ->
     exits_zero_without_output (Groups.script world py_int fuel env file)) /\
  (forall env file project_list,
     Details.script world py_int fuel env file project_list
     = Some (Run 1 None []) /\
     ~ exits_zero_without_output
         (Details.script world py_int fuel env file project_list)) /\
  (forall t project_filter,
     fetch_all_groups world fuel [] = Some (None, t) ->
     exits_nonzero (Details.main world py_int fuel project_filter)) /\
  (forall t project_filter,
     fetch_all_groups world fuel [] = Some (Some [], t) ->
     exits_zero_without_output (Details.main world py_int fuel project_filter)) /\
  (forall groups t all_projects t' project_filter,
     fetch_all_groups world fuel [] = Some (Some groups, t) ->
     Details.collect_projects world fuel groups [] t = Some (Ok all_projects, t') ->
     apply_project_filter all_projects project_filter = Ok [] ->
     exits_zero_without_output (Details.main world py_int fuel project_filter)).
Proof.
  split; [| split; [| split; [| split; [| split; [| split]]]]].
  - intros env file H. unfold Groups.script.
    rewrite (groups_token_unresolvable _ _ H).
    eexists. split; [reflexivity |]. cbn. split; [lia | reflexivity].
  - intros env file token t Ht Hf. unfold Groups.script, Groups.main.
    rewrite Ht, Hf.
    eexists. split; [reflexivity |]. cbn. split; [lia | reflexivity].
  - intros env file token t Ht Hf. unfold Groups.script, Groups.main.
    rewrite Ht, Hf.
    eexists. split; [reflexivity |]. cbn. split; reflexivity.
  - intros env file project_list. split; [reflexivity |].
    intros (r & E & Hcode & _). inversion E; subst r. discriminate Hcode.
  - intros t project_filter Hf. unfold Details.main. rewrite Hf.
    eexists. split; [reflexivity |]. cbn. split; [lia | reflexivity].
  - intros t project_filter Hf. unfold Details.main. rewrite Hf.
    eexists. split; [reflexivity |]. cbn. split; reflexivity.
  - intros groups t all_projects t' project_filter Hg Hc Hf.
    unfold Details.main. rewrite Hg.
    destruct groups as [| g groups].
    + eexists. repeat split.
    + rewrite Hc, Hf. eexists. repeat split.
Qed.

(** ** Invariants of stateful code *)

Section Preservation.

Context {S : Type}.
Variable I : S -> Prop.

Lemma preserves_ret {A} (a : A) : preserves I (ret a).
Proof. intros s o s' E H. inversion E; now subst. Qed.

Lemma preserves_lift {A} (o : outcome A) : preserves I (lift o).
Proof. intros s o' s' E H. inversion E; now subst. Qed.

Lemma preserves_bind {A B} (c : M S A) (k : A -> M S B) :
  preserves I c -> (forall a, preserves I (k a)) -> preserves I (bind c k).
Proof.
  intros Hc Hk s o s' E H. unfold bind in E.
  destruct (c s) as [[a | e] s1] eqn:Ec.
  - eapply Hk; [exact E |]. eapply Hc; eassumption.
  - inversion E; subst. eapply Hc; eassumption.
Qed.

Lemma preserves_try {A} (c : M S A) (handler : exn -> M S A) :
  preserves I c -> (forall e, preserves I (handler e)) -> preserves I (try c handler).
Proof.
  intros Hc Hh s o s' E H. unfold try in E.
  destruct (c s) as [[a | e] s1] eqn:Ec.
  - inversion E; subst. eapply Hc; eassumption.
  - eapply Hh; [exact E |]. eapply Hc; eassumption.
Qed.

Lemma preserves_for_each {A} (l : list A) (body : A -> M S unit) :
  (forall x, In x l -> preserves I (body x)) -> preserves I (for_each l body).
Proof.
  induction l as [| x l IH]; intros Hb; simpl.
  - apply preserves_ret.
  - apply preserves_bind.
    + apply Hb. now left.
    + intros _. apply IH. intros y Hy. apply Hb. now right.
Qed.

End Preservation.

Lemma preserves_bind_lift {S A B} (I : S -> Prop) (o : outcome A) (k : A -> M S B) :
  (forall a, o = Ok a -> preserves I (k a)) -> preserves I (bind (lift o) k).
Proof.
  intros Hk s o' s' E H. unfold bind, lift in E.
  destruct o as [a | e].
  - eapply Hk; [reflexivity | exact E | exact H].
  - inversion E; now subst.
Qed.

Lemma preserves_zoom_locals {L A} (P : L -> Prop) (c : M trace A) :
  preserves (fun s : L * trace => P (fst s)) (zoom c).
Proof.
  intros [l t] o s' E H. unfold zoom in E. simpl in E.
  destruct (c t) as [o' t']. inversion E; now subst.
Qed.

Lemma preserves_update_locals {L} (P : L -> Prop) (f : L -> L) :
  (forall l, P l -> P (f l)) ->
  preserves (fun s : L * trace => P (fst s)) (update f).
Proof.
  intros Hf [l t] o s' E H. inversion E; subst. simpl in *. now apply Hf.
Qed.

Lemma preserves_locals {L} (I : L * trace -> Prop) : preserves I locals.
Proof. intros s o s' E H. inversion E; now subst. Qed.

(** ** The project record *)

Ltac and_then_inv H :=
  repeat match type of H with
         | and_then ?o _ = Ok _ =>
             let E := fresh "E" in
             destruct o eqn:E; cbn [and_then] in H; [| discriminate H]
         end.

(** Every emitted record is the literal built from the replies of the run. *)
Lemma project_stats_inversion world py_int project project_id t row t' :
  Details.project_stats world py_int project project_id t = (Ok row, t') ->
  exists is_archived default_branch contributors repo_stats merge_request_count t1 t2,
    get_repository_stats_via_api world py_int project_id t1 = (Ok repo_stats, t2) /\
    Details.build_project_stats project is_archived default_branch contributors
      repo_stats merge_request_count = Ok row.
Proof.
  unfold Details.project_stats, bind, lift. intros H.
  destruct (get project "archived" (JBool false)) as [ia |]; [| discriminate].
  destruct (get project "default_branch" (JStr "main")) as [db |]; [| discriminate].
  destruct (Details.contributor_stats world project_id t) as [[c |] t1]; [| discriminate].
  destruct (get_repository_stats_via_api world py_int project_id t1) as [[rs |] t2] eqn:Es;
    [| discriminate].
  destruct (Details.merge_request_count world py_int project_id t2) as [[mr |] t3];
    [| discriminate].
  destruct (Details.build_project_stats project ia db c rs mr) as [r |] eqn:Eb;
    [| discriminate].
  inversion H; subst. now exists ia, db, c, rs, mr, t1, t2.
Qed.

Lemma gt_inversion v n b :
  gt v n = Ok b -> exists z, as_int v = Ok z /\ b = (n <? z).
Proof.
  unfold gt. destruct (as_int v) as [z |]; [| discriminate].
  intros H. inversion H. now exists z.
Qed.

Lemma build_project_stats_sizes project is_archived default_branch contributors
    repo_stats merge_request_count row :
  Details.build_project_stats project is_archived default_branch contributors
    repo_stats merge_request_count = Ok row ->
  exists repository_size storage_size size repository_size_mb total_size_mb,
    Details.final_sizes project repo_stats = Ok (repository_size, storage_size) /\
    as_int storage_size = Ok size /\
    bytes_to_mb repository_size = Ok repository_size_mb /\
    bytes_to_mb storage_size = Ok total_size_mb /\
    assoc "repository_size_mb" row = Some repository_size_mb /\
    assoc "total_size_mb" row = Some total_size_mb /\
    assoc "exceeds_2gb" row = Some (CJson (JBool (two_gb <? size))) /\
    assoc "exceeds_6gb" row = Some (CJson (JBool (six_gb <? size))).
Proof.
  unfold Details.build_project_stats. intros H.
  destruct (Details.final_sizes project repo_stats) as [[r s] |] eqn:Es;
    cbn [and_then fst snd] in H; [| discriminate].
  destruct (gt s two_gb) as [e2 |] eqn:E2; cbn [and_then] in H; [| discriminate].
  destruct (gt s six_gb) as [e6 |] eqn:E6; cbn [and_then] in H; [| discriminate].
  and_then_inv H.
  apply gt_inversion in E2, E6.
  destruct E2 as (z & Hz & ->). destruct E6 as (z' & Hz' & ->).
  rewrite Hz in Hz'. inversion Hz'; subst z'.
  inversion H; subst row.
  exists r, s, z. do 2 eexists. repeat split; try eassumption; reflexivity.
Qed.

Lemma read_statistics_flags response t :
  flags_follow_storage (fst (snd (read_statistics response (initial_stats, t)))).
Proof.
  assert (H0 : flags_follow_storage initial_stats).
  { intros z Hz. inversion Hz. now split. }
  unfold read_statistics, bind, lift, update, ret.
  destruct (status_code response =? 200); [| exact H0].
  destruct (json_of response) as [project_data |]; [| exact H0].
  destruct (get project_data "statistics" (JDict [])) as [statistics |]; [| exact H0].
  destruct (truthy statistics); [| exact H0].
  destruct (get statistics "repository_size" (JInt 0)) as [r |]; [| exact H0].
  destruct (get statistics "storage_size" (JInt 0)) as [s |]; [| exact H0].
  destruct (get statistics "commit_count" (JInt 0)) as [c |]; [| exact H0].
  cbn [fst snd]. unfold gt.
  destruct (as_int s) as [z |] eqn:Ez; cbn [fst snd];
    intros z' Hz'; cbn in Hz'; rewrite Ez in Hz'; [| discriminate].
  inversion Hz'; subst z'. now split.
Qed.

Lemma collect_counts_keeps_flags world py_int project_id :
  preserves (fun s : stats * trace => flags_follow_storage (fst s))
            (collect_counts world py_int project_id).
Proof.
  unfold collect_counts.
  repeat first
    [ apply preserves_bind; [| intros ?]
    | apply (preserves_zoom_locals flags_follow_storage)
    | apply (preserves_update_locals flags_follow_storage); intros st Hst; exact Hst
    | apply preserves_locals ].
Qed.

Lemma api_flags_follow_storage world py_int project_id t st t' :
  get_repository_stats_via_api world py_int project_id t = (Ok st, t') ->
  flags_follow_storage st.
Proof.
  assert (H0 : flags_follow_storage initial_stats).
  { intros z Hz. inversion Hz. now split. }
  unfold get_repository_stats_via_api, collect_stats.
  unfold bind at 1. unfold zoom, send. cbn [fst snd].
  destruct (world (Request GET (ProjectStatistics project_id))) as [response | e].
  - unfold bind.
    pose proof (read_statistics_flags response
                  (t ++ [Request GET (ProjectStatistics project_id)])) as H1.
    destruct (read_statistics response _) as [[[] | e] [st1 t1]]; cbn [fst snd] in H1.
    + destruct (collect_counts world py_int project_id _) as [o [st2 t2]] eqn:E.
      intros H. inversion H; subst.
      exact (collect_counts_keeps_flags _ _ _ _ _ _ E H1).
    + intros H. inversion H; subst. exact H1.
  - intros H. inversion H; subst. exact H0.
Qed.

(** C2. In every emitted project record the two threshold flags are computed
    from the final storage size (the API statistics, or the statistics of
    the listing payload when the API ones are both zero), the same value that
    gives the record's total size; each flag holds exactly when that size is
    strictly above its threshold, so a size of [2 * 1024^3] sets no flag, a
    size of [6 * 1024^3 + 1] sets both, and the 6 GiB flag implies the 2 GiB
    flag.  The flags kept in the statistics dictionary follow its own storage
    size in the same strict way. *)
Theorem size_flags_follow_final_size
    (world : request -> reply) (py_int : string -> option Z)
    (project project_id : json) (t t' : trace) (row : row) :
  Details.project_stats world py_int project project_id t = (Ok row, t') ->
  exists repo_stats repository_size storage_size size total_size_mb exceeds_2gb exceeds_6gb,
    (exists t1 t2,
       get_repository_stats_via_api world py_int project_id t1 = (Ok repo_stats, t2)) /\
    flags_follow_storage repo_stats /\
    Details.final_sizes project repo_stats = Ok (repository_size, storage_size) /\
    as_int storage_size = Ok size /\
    bytes_to_mb storage_size = Ok total_size_mb /\
    assoc "total_size_mb" row = Some total_size_mb /\
    assoc "exceeds_2gb" row = Some (CJson (JBool exceeds_2gb)) /\
    assoc "exceeds_6gb" row = Some (CJson (JBool exceeds_6gb)) /\
    (exceeds_2gb = true <-> 2 * 1024 * 1024 * 1024 < size) /\
    (exceeds_6gb = true <-> 6 * 1024 * 1024 * 1024 < size) /\
    (size = 2 * 1024 * 1024 * 1024 -> exceeds_2gb = false) /\
    (size = 6 * 1024 * 1024 * 1024 + 1 -> exceeds_2gb = true /\ exceeds_6gb = true) /\
    (exceeds_6gb = true -> exceeds_2gb = true).
Proof.
  intros H. apply project_stats_inversion in H.
  destruct H as (ia & db & c & rs & mr & t1 & t2 & Hrs & Hb).
  apply build_project_stats_sizes in Hb.
  destruct Hb as (r & s & z & rmb & tmb & Hs & Hz & _ & Htmb & _ & Ht & H2 & H6).
  pose proof (api_flags_follow_storage _ _ _ _ _ _ Hrs) as Hflags.
  exists rs, r, s, z, tmb, (two_gb <? z), (six_gb <? z).
  split; [now exists t1, t2 |]. split; [exact Hflags |].
  unfold two_gb, six_gb in H2, H6 |- *.
  repeat split; try eassumption;
    rewrite ?Z.ltb_lt, ?Z.ltb_ge in *; try lia.
Qed.

(** ** Statistics fallback *)

Lemma eq_int_zero_mb v :
  eq_int v 0 = true -> v <> JNull /\ bytes_to_mb v = Ok (CFloat 0).
Proof.
  unfold eq_int. destruct v as [| [|] | z | | |]; simpl; try discriminate.
  - now split.
  - intros E. apply Z.eqb_eq in E. subst z. now split.
Qed.

(** C10. The statistics of the listing payload are read exactly when the
    API-derived repository size and storage size are both zero: otherwise
    the final sizes are the API ones whatever the payload holds, and in an
    emitted record a size that the API gave as zero next to a non-zero one is
    reported as zero. *)
Theorem listing_statistics_only_when_both_zero
    (world : request -> reply) (py_int : string -> option Z) :
  (forall project repo_stats,
     andb (eq_int (repository_size repo_stats) 0)
          (eq_int (storage_size repo_stats) 0) = false ->
     Details.final_sizes project repo_stats =
     Ok (repository_size repo_stats, storage_size repo_stats)) /\
  (forall fields statistics listed_repository_size listed_storage_size repo_stats,
     andb (eq_int (repository_size repo_stats) 0)
          (eq_int (storage_size repo_stats) 0) = true ->
     assoc "statistics" fields = Some (JDict statistics) ->
     assoc "repository_size" statistics = Some (JInt listed_repository_size) ->
     assoc "storage_size" statistics = Some (JInt listed_storage_size) ->
     Details.final_sizes (JDict fields) repo_stats =
     Ok (JInt listed_repository_size, JInt listed_storage_size)) /\
  (forall project project_id t row t',
     Details.project_stats world py_int project project_id t = (Ok row, t') ->
     exists repo_stats t1 t2,
       get_repository_stats_via_api world py_int project_id t1 = (Ok repo_stats, t2) /\
       (eq_int (repository_size repo_stats) 0 = true ->
        eq_int (storage_size repo_stats) 0 = false ->
        assoc "repository_size_mb" row = Some (CFloat 0) /\
        exists total_size_mb,
          bytes_to_mb (storage_size repo_stats) = Ok total_size_mb /\
          assoc "total_size_mb" row = Some total_size_mb) /\
       (eq_int (repository_size repo_stats) 0 = false ->
        eq_int (storage_size repo_stats) 0 = true ->
        assoc "total_size_mb" row = Some (CFloat 0) /\
        exists repository_size_mb,
          bytes_to_mb (repository_size repo_stats) = Ok repository_size_mb /\
          assoc "repository_size_mb" row = Some repository_size_mb)).
Proof.
  repeat split.
  - intros project repo_stats H. unfold Details.final_sizes. now rewrite H.
  - intros fields statistics r s repo_stats H Hst Hr Hs.
    unfold Details.final_sizes. rewrite H. simpl. rewrite Hst. simpl.
    rewrite Hr, Hs. simpl. unfold gt. simpl.
    now destruct (0 <? r).
  - intros project project_id t row t' H.
    apply project_stats_inversion in H.
    destruct H as (ia & db & c & rs & mr & t1 & t2 & Hrs & Hb).
    apply build_project_stats_sizes in Hb.
    destruct Hb as (r & s & z & rmb & tmb & Hs & Hz & Hrmb & Htmb & Hr' & Ht' & _).
    exists rs, t1, t2. split; [exact Hrs |].
    unfold Details.final_sizes in Hs.
    split; intros Hr0 Hs0; rewrite Hr0, Hs0 in Hs; simpl in Hs;
      inversion Hs; subst r s.
    + destruct (eq_int_zero_mb _ Hr0) as [_ E]. rewrite E in Hrmb.
      inversion Hrmb; subst rmb. split; [exact Hr' |]. now exists tmb.
    + destruct (eq_int_zero_mb _ Hs0) as [_ E]. rewrite E in Htmb.
      inversion Htmb; subst tmb. split; [exact Ht' |]. now exists rmb.
Qed.

(** ** Object-count estimate *)

(** C8, as stated, fails: when the tag lookup times out the estimate is the
    fallback sum 5 of commits and default-branch files, below every additive
    total over 5 commits and 3 branches. *)
Lemma object_count_not_additive_on_timeout :
  ~ object_count_is_additive tags_time_out int_of_digits (JInt 1).
Proof.
  intros H.
  assert (E0 : get_repository_stats_via_api tags_time_out int_of_digits (JInt 1) [] =
               (Ok (Stats 0 (JInt 10) (JInt 10) (JInt 5) 3 5 0 false false false false),
                [Request GET (ProjectStatistics (JInt 1));
                 Request GET (Project (JInt 1));
                 Request HEAD (Branches (JInt 1) 1);
                 Request GET (Project (JInt 1));
                 Request GET (Branches (JInt 1) 100);
                 Request HEAD (Tags (JInt 1))]))
    by (vm_compute; reflexivity).
  destruct (H _ _ E0) as (c & tg & mr & f & Hc & Htg & Hmr & Hf & E).
  cbn [commit_count as_int] in Hc. inversion Hc; subst c.
  cbn [object_count branch_count all_branches_file_count file_count] in E, Hf.
  unfold additive_total in E.
  destruct Hf; subst f; change (0 / 10) with 0 in E; lia.
Qed.


(** ** Large-file scan *)

Lemma lookups_stop_snoc large t rq :
  lookups_stop large (t ++ [rq]) =
  andb (lookups_stop large t)
       (orb (negb (existsb large t)) (negb (is_size_lookup rq))).
Proof.
  induction t as [| a t IH]; simpl.
  - now destruct (large rq).
  - rewrite IH, forallb_app. simpl.
    destruct (large a), (forallb (fun r => negb (is_size_lookup r)) t),
      (lookups_stop large t), (existsb large t), (is_size_lookup rq); reflexivity.
Qed.

Section ScanInvariant.

Variable world : request -> reply.
Variable py_int : string -> option Z.
Variable project_id : json.
Variable checked : list json.

Abbreviation Inv := (scan_invariant world py_int project_id checked).

(** A request that is no size lookup extends the log. *)
Lemma scan_invariant_request u t rq :
  Inv (u, t) -> within_scan project_id checked rq -> is_size_lookup rq = false ->
  Inv (u, t ++ [rq]).
Proof.
  intros (Hw & Hf & Hs) Hrq Hl. unfold scan_invariant in *. simpl in *.
  repeat split.
  - apply Forall_app. split; [exact Hw |]. now constructor.
  - rewrite existsb_app. simpl. unfold large_lookup at 2. rewrite Hl. simpl.
    now rewrite !orb_false_r.
  - rewrite lookups_stop_snoc, Hs, Hl. simpl. now rewrite orb_true_r.
Qed.

(** A size lookup issued while no large file is known. *)
Lemma scan_invariant_lookup u t rq :
  Inv (u, t) -> within_scan project_id checked rq -> large_file_found u = false ->
  Inv (ScanLocals (unique_files u) (large_lookup world py_int rq), t ++ [rq]).
Proof.
  intros (Hw & Hf & Hs) Hrq Hn. unfold scan_invariant in *. simpl in *.
  rewrite Hn in Hf. repeat split.
  - apply Forall_app. split; [exact Hw |]. now constructor.
  - rewrite existsb_app, <- Hf. simpl. now rewrite orb_false_r.
  - rewrite lookups_stop_snoc, Hs, <- Hf. reflexivity.
Qed.

Lemma send_tree_preserves ref page :
  names_branch checked ref ->
  preserves Inv (zoom (send world (Request GET (Tree project_id ref page)))).
Proof.
  intros Hb [u t] o s' E H. unfold zoom, send in E. simpl in E.
  assert (Inv (u, t ++ [Request GET (Tree project_id ref page)])).
  { apply scan_invariant_request; [exact H | now split | reflexivity]. }
  destruct (world _); inversion E; now subst.
Qed.

Lemma check_file_size_preserves path ref s o s' :
  check_file_size world py_int project_id path ref s = (o, s') ->
  has_large_file_extension path = true ->
  names_branch checked ref ->
  large_file_found (fst s) = false ->
  Inv s -> Inv s'.
Proof.
  destruct s as [u t]. intros E Hext Hb Hn H. simpl in Hn.
  pose proof (scan_invariant_lookup u t
                (Request HEAD (File project_id path ref)) H
                (conj eq_refl (conj Hext Hb)) Hn) as Hnew.
  unfold large_lookup, reports_large in Hnew. simpl in Hnew.
  unfold check_file_size, try, bind, zoom, send, update, lift, ret in E. simpl in E.
  destruct (world (Request HEAD (File project_id path ref))) as [r | e].
  - destruct (status_code r =? 200); simpl in *.
    + destruct (gitlab_size py_int r) as [z |].
      * unfold large_file_threshold in E.
        change (100 * 1024 * 1024) with 104857600 in E.
        destruct (104857600 <? z);
          [destruct (true_divide z _) |]; inversion E; subst.
        -- exact Hnew.
        -- exact Hnew.
        -- destruct u; simpl in *; subst; exact Hnew.
      * inversion E; subst. destruct u; simpl in *; subst; exact Hnew.
    + inversion E; subst. destruct u; simpl in *; subst; exact Hnew.
  - inversion E; subst. destruct u; simpl in *; subst; exact Hnew.
Qed.

Lemma scan_item_preserves ref item :
  names_branch checked ref ->
  preserves Inv (scan_item world py_int project_id ref item).
Proof.
  intros Hb [u t] o s' E H.
  unfold scan_item, add_unique_file, bind, lift, locals, update, ret in E.
  simpl in E.
  destruct (get item "type" JNull) as [ty |]; [| inversion E; subst; exact H].
  destruct (eq_str ty "blob"); [| inversion E; subst; exact H].
  destruct (get item "path" (JStr "")) as [file_path |]; [| inversion E; subst; exact H].
  assert (Hu : forall files, Inv (ScanLocals files (large_file_found u), t)).
  { intros files. exact H. }
  destruct (truthy file_path) eqn:Ht; simpl in E.
  - destruct (set_add file_path (unique_files u)) as [files |];
      [| inversion E; subst; exact H].
    simpl in E.
    destruct (large_file_found u) eqn:Hfound; simpl in E;
      [inversion E; subst; apply Hu |].
    destruct (as_str file_path AttributeError) as [path |];
      [| inversion E; subst; apply Hu].
    destruct (has_large_file_extension path) eqn:Hext;
      [| inversion E; subst; apply Hu].
    eapply check_file_size_preserves; try eassumption; [reflexivity | apply Hu].
  - rewrite andb_false_r in E. inversion E; subst; exact H.
Qed.

Lemma scan_pages_preserves remaining :
  forall ref page,
    names_branch checked ref ->
    preserves Inv (scan_pages world py_int remaining project_id ref page).
Proof.
  induction remaining as [| remaining IH]; intros ref page Hb; simpl.
  - apply preserves_ret.
  - apply preserves_bind; [now apply send_tree_preserves |].
    intros tree_response.
    destruct (negb (status_code tree_response =? 200)); [apply preserves_ret |].
    apply preserves_bind; [apply preserves_lift |]. intros items.
    destruct (negb (truthy items)); [apply preserves_ret |].
    apply preserves_bind; [apply preserves_lift |]. intros l.
    apply preserves_bind.
    + apply preserves_for_each. intros x _. now apply scan_item_preserves.
    + intros _. destruct (has_next_page tree_response);
        [now apply IH | apply preserves_ret].
Qed.

Lemma scan_branches_preserves branches :
  incl branches checked ->
  preserves Inv (scan_branches world py_int project_id branches).
Proof.
  induction branches as [| branch branches IH]; intros Hin; cbn [scan_branches].
  - apply preserves_ret.
  - apply preserves_bind_lift. intros branch_name En.
    apply preserves_bind.
    + destruct (truthy branch_name) eqn:Ht; [| apply preserves_ret].
      apply preserves_try; [| intros _; apply preserves_ret].
      apply scan_pages_preserves. exists branch. repeat split; try assumption.
      apply Hin. now left.
    + intros _. apply IH. intros b Hb. apply Hin. now right.
Qed.

End ScanInvariant.

Lemma checked_branches_bound world project_id :
  (List.length (checked_branches world project_id) <= 10)%nat.
Proof.
  unfold checked_branches.
  destruct (world _) as [response | e]; [| cbn [List.length]; lia].
  destruct (status_code response =? 200); [| cbn [List.length]; lia].
  destruct (body response) as [[| b | z | s | l | d] |];
    cbn [branches_to_check]; try (cbn [List.length]; lia).
  - rewrite length_firstn. lia.
  - rewrite length_firstn. lia.
  - destruct (Nat.ltb_spec 10 (List.length d)); [cbn [List.length]; lia |].
    rewrite length_map. lia.
Qed.

Lemma scan_branches_returns world py_int project_id branches :
  Forall is_object branches ->
  forall s, exists s', scan_branches world py_int project_id branches s = (Ok tt, s').
Proof.
  induction 1 as [| branch branches Hobj _ IH]; intros s; cbn [scan_branches].
  - now exists s.
  - destruct branch as [| | | | | d]; try contradiction.
    unfold bind at 1, lift. cbn [get].
    set (branch_name := match assoc "name" d with Some x => x | None => JNull end).
    unfold bind.
    destruct (truthy branch_name).
    + unfold try.
      destruct (scan_pages world py_int max_pages_per_branch project_id branch_name 1 s)
        as [[[] | e] s1]; apply IH.
    + apply IH.
Qed.

Lemma scan_all_branches_invariant world py_int project_id o s' :
  scan_all_branches world py_int project_id (ScanLocals [] false, []) = (o, s') ->
  scan_invariant world py_int project_id (checked_branches world project_id) s'.
Proof.
  set (checked := checked_branches world project_id).
  set (rq := Request GET (Branches project_id 100)).
  assert (H0 : scan_invariant world py_int project_id checked (ScanLocals [] false, [rq])).
  { apply (scan_invariant_request world py_int project_id checked _ [] rq).
    - repeat split. constructor.
    - now split.
    - reflexivity. }
  unfold scan_all_branches, bind, zoom, send, lift. cbn [snd fst app].
  fold rq. intros E.
  destruct (world rq) as [response |] eqn:Ew; [| inversion E; subst; exact H0].
  destruct (status_code response =? 200) eqn:Es; cbn [negb] in E;
    [| inversion E; subst; exact H0].
  unfold json_of in E.
  destruct (body response) as [branches |] eqn:Eb; [| inversion E; subst; exact H0].
  destruct (branches_to_check branches) as [l |] eqn:El;
    [| inversion E; subst; exact H0].
  assert (Hl : l = checked).
  { unfold checked, checked_branches. fold rq. now rewrite Ew, Es, Eb, El. }
  subst l.
  eapply scan_branches_preserves; [apply incl_refl | exact E | exact H0].
Qed.

Lemma scan_all_branches_raises world py_int project_id e s' :
  scan_all_branches world py_int project_id (ScanLocals [] false, []) = (Raise e, s') ->
  Forall is_object (checked_branches world project_id) ->
  snd s' = [Request GET (Branches project_id 100)].
Proof.
  set (rq := Request GET (Branches project_id 100)).
  unfold scan_all_branches, bind, zoom, send, lift. cbn [snd fst app].
  fold rq. intros E Hobj.
  destruct (world rq) as [response |] eqn:Ew; [| now inversion E].
  destruct (status_code response =? 200) eqn:Es; cbn [negb] in E; [| discriminate].
  unfold json_of in E.
  destruct (body response) as [branches |] eqn:Eb; [| now inversion E].
  destruct (branches_to_check branches) as [l |] eqn:El; [| now inversion E].
  assert (Hl : l = checked_branches world project_id).
  { unfold checked_branches. fold rq. now rewrite Ew, Es, Eb, El. }
  subst l.
  match type of E with
  | scan_branches _ _ _ _ ?s = _ =>
      destruct (scan_branches_returns world py_int project_id _ Hobj s) as [s1 E1]
  end.
  rewrite E1 in E. discriminate.
Qed.

(** ** Sub-query failures *)

(** A [try] whose handler returns a constant always returns. *)
Lemma try_constant_returns {S A} (c : M S A) (a0 : A) :
  never_raises (try c (fun _ => ret a0)).
Proof.
  intros s. unfold try, ret. destruct (c s) as [[a | e] s']; eauto.
Qed.

Lemma hard_failure_status response :
  hard_failure (Replied response) -> (status_code response =? 200) = false.
Proof. simpl. intros H. now apply Z.eqb_neq. Qed.

Section Defaults.

Variable world : request -> reply.
Variable py_int : string -> option Z.
Variable project_id : json.

Lemma count_via_default target t :
  hard_failure (world (Request HEAD target)) ->
  hard_failure (world (Request GET target)) ->
  fst (count_via world py_int target t) = Ok 0.
Proof.
  intros Hh Hg. unfold count_via, try, bind, send, ret, lift.
  destruct (world (Request HEAD target)) as [r |]; [| reflexivity].
  rewrite (hard_failure_status _ Hh). cbn [andb].
  destruct (world (Request GET target)) as [r' |]; [| reflexivity].
  now rewrite (hard_failure_status _ Hg).
Qed.

Lemma get_repository_file_count_default t :
  hard_failure (world (Request GET (Project project_id))) ->
  fst (get_repository_file_count world py_int project_id t) = Ok 0.
Proof.
  intros H. unfold get_repository_file_count, try, bind, send, ret.
  destruct (world (Request GET (Project project_id))) as [r |]; [| reflexivity].
  now rewrite (hard_failure_status _ H).
Qed.

Lemma check_for_pipeline_config_default t :
  hard_failure (world (Request GET (Project project_id))) ->
  fst (check_for_pipeline_config world project_id t) = Ok false.
Proof.
  intros H. unfold check_for_pipeline_config, try, bind, send, ret.
  destruct (world (Request GET (Project project_id))) as [r |]; [| reflexivity].
  now rewrite (hard_failure_status _ H).
Qed.

Lemma get_all_branches_file_stats_default t :
  hard_failure (world (Request GET (Branches project_id 100))) ->
  fst (get_all_branches_file_stats world py_int project_id t) = Ok (0, false).
Proof.
  intros H.
  unfold get_all_branches_file_stats, scan_all_branches, bind, zoom, send, ret.
  cbn [fst snd].
  destruct (world (Request GET (Branches project_id 100))) as [r |]; [| reflexivity].
  now rewrite (hard_failure_status _ H).
Qed.

Lemma get_all_branches_file_stats_returns t :
  exists r t', get_all_branches_file_stats world py_int project_id t = (Ok r, t').
Proof.
  unfold get_all_branches_file_stats.
  destruct (scan_all_branches world py_int project_id (ScanLocals [] false, t))
    as [[[] | e] [u t']]; eauto.
Qed.

Lemma merge_request_count_default t :
  hard_failure (world (Request HEAD (MergeRequests project_id))) ->
  fst (Details.merge_request_count world py_int project_id t) = Ok 0.
Proof.
  intros H. unfold Details.merge_request_count, try, bind, send, ret, lift, total_if_ok.
  destruct (world (Request HEAD (MergeRequests project_id))) as [r |]; [| reflexivity].
  now rewrite (hard_failure_status _ H).
Qed.

Lemma get_repository_object_count_fallback existing_stats commits e t :
  as_int (commit_count existing_stats) = Ok commits ->
  world (Request HEAD (Tags project_id)) = Failed e ->
  fst (get_repository_object_count world py_int project_id existing_stats t) =
  Ok (commits + file_count existing_stats).
Proof.
  intros Hc Ht.
  unfold get_repository_object_count, try, bind, send, ret, lift.
  now rewrite Hc, Ht.
Qed.

Lemma get_repository_stats_via_api_returns t :
  exists st t', get_repository_stats_via_api world py_int project_id t = (Ok st, t').
Proof.
  unfold get_repository_stats_via_api.
  destruct (collect_stats world py_int project_id (initial_stats, t)) as [o [st t']].
  eauto.
Qed.

End Defaults.

(** *** The record does not depend on the sub-queries *)

Lemma setters_keep_sizes st n b :
  sizes (set_file_count n st) = sizes st /\
  sizes (set_branch_count n st) = sizes st /\
  sizes (set_has_pipeline b st) = sizes st /\
  sizes (set_all_branches n b st) = sizes st /\
  sizes (set_object_count n st) = sizes st.
Proof. now repeat split. Qed.

Lemma collect_counts_keeps_sizes world py_int project_id v :
  preserves (fun s : stats * trace => sizes (fst s) = v)
            (collect_counts world py_int project_id).
Proof.
  unfold collect_counts.
  repeat first
    [ apply preserves_bind; [| intros ?]
    | apply (preserves_zoom_locals (fun st => sizes st = v))
    | apply (preserves_update_locals (fun st => sizes st = v)); intros st Hst; exact Hst
    | apply preserves_locals ].
Qed.

(** The statistics block does not look at the request log. *)
Lemma read_statistics_state response st t :
  read_statistics response (st, t) =
  (fst (read_statistics response (st, [])),
   (fst (snd (read_statistics response (st, []))), t)).
Proof.
  unfold read_statistics, bind, lift, update, ret.
  destruct (status_code response =? 200); [| reflexivity].
  destruct (json_of response) as [project_data |]; [| reflexivity].
  destruct (get project_data "statistics" (JDict [])) as [statistics |]; [| reflexivity].
  destruct (truthy statistics); [| reflexivity].
  destruct (get statistics "repository_size" (JInt 0)) as [r |]; [| reflexivity].
  destruct (get statistics "storage_size" (JInt 0)) as [s |]; [| reflexivity].
  destruct (get statistics "commit_count" (JInt 0)) as [c |]; [| reflexivity].
  cbn [fst snd].
  destruct (gt s two_gb) as [b2 |]; [| reflexivity].
  destruct (gt s six_gb) as [b6 |]; reflexivity.
Qed.

(** The sizes of the returned statistics are fixed by the reply to the
    statistics request alone. *)
Lemma api_sizes_determined world py_int project_id t st t' :
  get_repository_stats_via_api world py_int project_id t = (Ok st, t') ->
  sizes st =
  match world (Request GET (ProjectStatistics project_id)) with
  | Replied response =>
      sizes (fst (snd (read_statistics response (initial_stats, []))))
  | Failed _ => sizes initial_stats
  end.
Proof.
  unfold get_repository_stats_via_api, collect_stats.
  unfold bind at 1. unfold zoom, send. cbn [fst snd].
  destruct (world (Request GET (ProjectStatistics project_id))) as [response | e].
  - unfold bind. rewrite read_statistics_state.
    destruct (fst (read_statistics response (initial_stats, []))) as [[] | e].
    + destruct (collect_counts world py_int project_id _) as [o [st1 t1]] eqn:E.
      intros H. inversion H; subst.
      exact (collect_counts_keeps_sizes _ _ _ _ _ _ _ E eq_refl).
    + intros H. now inversion H.
  - intros H. now inversion H.
Qed.

Lemma final_sizes_agree project st st' :
  sizes st = sizes st' ->
  Details.final_sizes project st = Details.final_sizes project st'.
Proof.
  unfold sizes, Details.final_sizes. intros H. inversion H. reflexivity.
Qed.

Lemma build_project_stats_emits project is_archived default_branch
    contributors st merge_request_count row st' merge_request_count' :
  Details.build_project_stats project is_archived default_branch contributors
    st merge_request_count = Ok row ->
  sizes st = sizes st' ->
  exists row',
    Details.build_project_stats project is_archived default_branch contributors
      st' merge_request_count' = Ok row'.
Proof.
  unfold Details.build_project_stats. intros H Hs.
  rewrite <- (final_sizes_agree project _ _ Hs).
  repeat match type of H with
         | and_then ?o _ = Ok _ =>
             destruct o; cbn [and_then] in H |- *; [| discriminate H]
         end.
  eexists. reflexivity.
Qed.

Lemma build_project_stats_columns project is_archived default_branch
    contributors st merge_request_count row :
  Details.build_project_stats project is_archived default_branch contributors
    st merge_request_count = Ok row ->
  map fst row = Details.fieldnames /\
  dict_to_list Details.fieldnames row = Ok (map snd row).
Proof.
  unfold Details.build_project_stats. intros H.
  and_then_inv H. inversion H; subst row. split; reflexivity.
Qed.

Lemma contributor_stats_agree world world' project_id t :
  world' (Request GET (Contributors project_id)) =
  world (Request GET (Contributors project_id)) ->
  Details.contributor_stats world' project_id t =
  Details.contributor_stats world project_id t.
Proof.
  intros H. unfold Details.contributor_stats, bind, send. now rewrite H.
Qed.

Lemma project_stats_emission_agree world world' py_int project project_id t :
  world' (Request GET (Contributors project_id)) =
  world (Request GET (Contributors project_id)) ->
  world' (Request GET (ProjectStatistics project_id)) =
  world (Request GET (ProjectStatistics project_id)) ->
  (exists row t', Details.project_stats world py_int project project_id t = (Ok row, t')) ->
  exists row t', Details.project_stats world' py_int project project_id t = (Ok row, t').
Proof.
  intros Hc Hp (row & t' & H).
  unfold Details.project_stats, bind, lift in *.
  rewrite (contributor_stats_agree _ _ _ _ Hc).
  destruct (get project "archived" (JBool false)) as [ia |]; [| discriminate].
  destruct (get project "default_branch" (JStr "main")) as [db |]; [| discriminate].
  destruct (Details.contributor_stats world project_id t) as [[c |] t1]; [| discriminate].
  destruct (get_repository_stats_via_api world py_int project_id t1)
    as [[st |] t2] eqn:E; [| discriminate].
  destruct (get_repository_stats_via_api_returns world' py_int project_id t1)
    as (st' & t2' & E').
  rewrite E'.
  assert (Hs : sizes st = sizes st').
  { rewrite (api_sizes_determined _ _ _ _ _ _ E),
            (api_sizes_determined _ _ _ _ _ _ E'), Hp. reflexivity. }
  destruct (try_constant_returns
              (mr_response <- send world (Request HEAD (MergeRequests project_id)) ;;
               lift (total_if_ok py_int mr_response)) 0 t2) as (mr & t3 & Em).
  destruct (try_constant_returns
              (mr_response <- send world' (Request HEAD (MergeRequests project_id)) ;;
               lift (total_if_ok py_int mr_response)) 0 t2') as (mr' & t3' & Em').
  unfold Details.merge_request_count in *. rewrite Em in H. rewrite Em'.
  destruct (Details.build_project_stats project ia db c st mr) as [r |] eqn:Eb;
    [| discriminate].
  destruct (build_project_stats_emits _ _ _ _ _ _ _ st' mr' Eb Hs) as [r' Er'].
  rewrite Er'. eauto.
Qed.


(** *** The estimate of a project *)

Section ObjectCount.

Variable world : request -> reply.
Variable py_int : string -> option Z.
Variable project_id : json.

(** The estimate, from the statistics it is computed on. *)
Lemma get_repository_object_count_value existing_stats commits t :
  as_int (commit_count existing_stats) = Ok commits ->
  fst (get_repository_object_count world py_int project_id existing_stats t) =
  match lookup_count py_int (world (Request HEAD (Tags project_id))),
        lookup_count py_int (world (Request HEAD (MergeRequests project_id))) with
  | Some tags, Some merge_requests =>
      Ok (additive_total commits (branch_count existing_stats) tags
            (all_branches_file_count existing_stats) merge_requests)
  | _, _ => Ok (commits + file_count existing_stats)
  end.
Proof.
  intros Hc.
  unfold get_repository_object_count, try, bind, lift, send, ret, lookup_count.
  rewrite Hc.
  destruct (world (Request HEAD (Tags project_id))) as [tr | e]; [| reflexivity].
  destruct (total_if_ok py_int tr) as [tags |]; [| reflexivity].
  destruct (world (Request HEAD (MergeRequests project_id))) as [mr | e]; [| reflexivity].
  destruct (total_if_ok py_int mr) as [n |]; [| reflexivity].
  cbn [fst]. unfold additive_total. f_equal. lia.
Qed.

(** Without a numeric commit count the handler raises as well. *)
Lemma get_repository_object_count_numeric existing_stats t n t' :
  get_repository_object_count world py_int project_id existing_stats t = (Ok n, t') ->
  exists commits, as_int (commit_count existing_stats) = Ok commits.
Proof.
  unfold get_repository_object_count, try, bind, lift.
  destruct (as_int (commit_count existing_stats)) as [c |]; [eauto | discriminate].
Qed.

(** The lookups after the statistics block all return, up to the estimate:
    what is stored is the estimate on the statistics gathered before it, or
    nothing when the estimate raises. *)
Lemma collect_counts_runs st t :
  exists n m b r t1 o t2,
    let gathered :=
      set_all_branches (fst r) (snd r)
        (set_has_pipeline b (set_branch_count m (set_file_count n st))) in
    get_repository_object_count world py_int project_id gathered t1 = (o, t2) /\
    collect_counts world py_int project_id (st, t) =
    match o with
    | Ok k => (Ok tt, (set_object_count k gathered, t2))
    | Raise e => (Raise e, (gathered, t2))
    end.
Proof.
  destruct (try_constant_returns _ 0 t : exists n ta,
              get_repository_file_count world py_int project_id t = (Ok n, ta))
    as (n & ta & En).
  destruct (try_constant_returns _ 0 ta : exists m tb,
              get_branch_count world py_int project_id ta = (Ok m, tb)) as (m & tb & Em).
  destruct (try_constant_returns _ false tb : exists b tc,
              check_for_pipeline_config world project_id tb = (Ok b, tc)) as (b & tc & Eb).
  destruct (get_all_branches_file_stats_returns world py_int project_id tc)
    as (r & t1 & Er).
  set (gathered := set_all_branches (fst r) (snd r)
                     (set_has_pipeline b (set_branch_count m (set_file_count n st)))).
  destruct (get_repository_object_count world py_int project_id gathered t1)
    as [o t2] eqn:Eo.
  exists n, m, b, r, t1, o, t2. split; [exact Eo |].
  unfold collect_counts, bind, zoom, update, locals. cbn [fst snd].
  rewrite En. cbn [fst snd]. rewrite Em. cbn [fst snd]. rewrite Eb. cbn [fst snd].
  rewrite Er. cbn [fst snd]. fold gathered. rewrite Eo.
  now destruct o.
Qed.

Lemma read_statistics_object_count response st t :
  object_count (fst (snd (read_statistics response (st, t)))) = object_count st.
Proof.
  unfold read_statistics, bind, lift, update, ret.
  destruct (status_code response =? 200); [| reflexivity].
  destruct (json_of response) as [project_data |]; [| reflexivity].
  destruct (get project_data "statistics" (JDict [])) as [statistics |]; [| reflexivity].
  destruct (truthy statistics); [| reflexivity].
  destruct (get statistics "repository_size" (JInt 0)) as [r |]; [| reflexivity].
  destruct (get statistics "storage_size" (JInt 0)) as [s |]; [| reflexivity].
  destruct (get statistics "commit_count" (JInt 0)) as [c |]; [| reflexivity].
  cbn [fst snd].
  destruct (gt s two_gb) as [b2 |]; [| reflexivity].
  destruct (gt s six_gb) as [b6 |]; reflexivity.
Qed.

End ObjectCount.

(** C8, amended.  The object count a project's statistics end with is 0
    when the collection is cut short before the estimate (the statistics
    request raises, or the statistics block does) and when the estimate
    itself raises, which it does when the commit count is no number.  In
    every other case, that is whenever the statistics block completes and
    the commit count is numeric, the count is the additive total over the
    commit count, the branch count, the tag count, the all-branches file
    count [F], [max (F / 10) 1] and the merge-request count when both
    lookups yield a count, and the commit count plus the default-branch
    file count when either lookup raises. *)
Theorem object_count_estimate
    (world : request -> reply) (py_int : string -> option Z)
    (project_id : json) (t t' : trace) (st : stats) :
  get_repository_stats_via_api world py_int project_id t = (Ok st, t') ->
  let estimate commits :=
    match lookup_count py_int (world (Request HEAD (Tags project_id))),
          lookup_count py_int (world (Request HEAD (MergeRequests project_id))) with
    | Some tags, Some merge_requests =>
        additive_total commits (branch_count st) tags
          (all_branches_file_count st) merge_requests
    | _, _ => commits + file_count st
    end in
  ((exists e,
      world (Request GET (ProjectStatistics project_id)) = Failed e) \/
   (exists response e,
      world (Request GET (ProjectStatistics project_id)) = Replied response /\
      fst (read_statistics response (initial_stats, [])) = Raise e) ->
   object_count st = 0) /\
  (forall e, as_int (commit_count st) = Raise e -> object_count st = 0) /\
  (forall response commits,
     world (Request GET (ProjectStatistics project_id)) = Replied response ->
     fst (read_statistics response (initial_stats, [])) = Ok tt ->
     as_int (commit_count st) = Ok commits ->
     object_count st = estimate commits).
Proof.
  intros H estimate.
  unfold get_repository_stats_via_api, collect_stats in H.
  unfold bind at 1 in H. unfold zoom, send in H. cbn [fst snd] in H.
  destruct (world (Request GET (ProjectStatistics project_id)))
    as [response | e] eqn:Ew.
  2: { inversion H; subst.
       split; [reflexivity |]. split; [reflexivity |].
       intros r0 c0 Hx; discriminate Hx. }
  unfold bind in H. rewrite read_statistics_state in H.
  pose proof (read_statistics_object_count response initial_stats []) as H0.
  set (st1 := fst (snd (read_statistics response (initial_stats, [])))) in *.
  destruct (fst (read_statistics response (initial_stats, []))) as [[] | e] eqn:Ers.
  2: { inversion H; subst.
       split; [intros _; exact H0 |]. split; [intros _ _; exact H0 |].
       intros r0 c0 Hw Hx. inversion Hw; subst r0. rewrite Ers in Hx.
       discriminate Hx. }
  destruct (collect_counts_runs world py_int project_id st1 (t ++ [Request GET (ProjectStatistics project_id)]))
    as (n & m & b & r & t1 & o & t2 & Eo & Ec).
  cbv zeta in Eo, Ec. rewrite Ec in H.
  set (gathered := set_all_branches (fst r) (snd r)
                     (set_has_pipeline b (set_branch_count m (set_file_count n st1)))) in *.
  assert (Hshort :
            (exists e,
               @Replied response = Failed e) \/
            (exists response' e,
               Replied response = Replied response' /\
               fst (read_statistics response' (initial_stats, [])) = Raise e) ->
            False).
  { intros [(e & He) | (r' & e & Hr & He)]; [discriminate He |].
    inversion Hr; subst r'. rewrite Ers in He. discriminate He. }
  destruct o as [k | e].
  - inversion H; subst st t'.
    destruct (get_repository_object_count_numeric _ _ _ _ _ _ _ Eo) as [c Hc].
    pose proof (get_repository_object_count_value world py_int project_id
                  gathered c t1 Hc) as Hv.
    rewrite Eo in Hv. cbn [fst] in Hv.
    assert (Hk : k = estimate c).
    { unfold estimate. cbn [branch_count all_branches_file_count file_count
                              set_object_count].
      destruct (lookup_count py_int (world (Request HEAD (Tags project_id))));
        [destruct (lookup_count py_int
                     (world (Request HEAD (MergeRequests project_id)))) |];
        now inversion Hv. }
    split; [intros Hs; destruct (Hshort Hs) |].
    split.
    + intros e He.
      change (as_int (commit_count st1) = Raise e) in He.
      change (as_int (commit_count st1) = Ok c) in Hc.
      rewrite Hc in He. discriminate He.
    + intros response' commits _ _ Hc'.
      change (as_int (commit_count st1) = Ok commits) in Hc'.
      change (as_int (commit_count st1) = Ok c) in Hc.
      rewrite Hc in Hc'. inversion Hc'; subst commits. exact Hk.
  - inversion H; subst st t'.
    split; [intros Hs; destruct (Hshort Hs) |].
    split; [intros _ _; exact H0 |].
    intros response' commits _ _ Hc'.
    pose proof (get_repository_object_count_value world py_int project_id
                  gathered commits t1 Hc') as Hv.
    rewrite Eo in Hv. cbn [fst] in Hv.
    destruct (lookup_count py_int (world (Request HEAD (Tags project_id))));
      [destruct (lookup_count py_int
                   (world (Request HEAD (MergeRequests project_id)))) |];
      discriminate Hv.
Qed.

(** * Instances *)

(** C1 on a server whose second page times out: the entry of the first page
    is discarded. *)
Lemma listing_failure_returns_None_witness :
  fetch_all_groups second_page_down 3 [] =
  Some (None, [groups_url 50 1; groups_url 50 2]) /\
  fetch_all_projects second_page_down 3 (JStr "a") [] =
  Some (None, [group_projects_url (JStr "a") 100 1;
               group_projects_url (JStr "a") 100 2]).
Proof.
  assert (Hfuel : (List.length [[sample_group "a"]] < 3)%nat) by (simpl; lia).
  destruct (listing_failure_returns_None second_page_down 3
              [[sample_group "a"]] [] Hfuel) as (Hg & Hp & _).
  split.
  - apply Hg.
    + intros [| [| i]] items E; simpl in E; inversion E.
      eexists. eexists. repeat split; reflexivity.
    + exact I.
  - apply (Hp (JStr "a")).
    + intros [| [| i]] items E; simpl in E; inversion E.
      eexists. eexists. repeat split; reflexivity.
    + exact I.
Defined.

(** C7 on a two-page listing, and on a collection of three entries served
    in pages of two. *)
Lemma pagination_concatenates_pages_witness :
  fetch_all_groups two_pages 3 [] =
  Some (Some [sample_group "a"; sample_group "b"],
        [groups_url 50 1; groups_url 50 2]) /\
  exists t,
    paginate (paged_server [JInt 1; JInt 2; JInt 3]) 4 (groups_url 2) 1 [] [] =
    Some (Some [JInt 1; JInt 2; JInt 3], t).
Proof.
  destruct (pagination_concatenates_pages two_pages 3 []) as (Hg & _ & _).
  destruct (pagination_concatenates_pages (paged_server [JInt 1; JInt 2; JInt 3]) 4 [])
    as (_ & _ & Hc).
  split.
  - apply (Hg [[sample_group "a"]] [sample_group "b"]).
    + simpl. lia.
    + intros [| [| i]] items E; simpl in E; inversion E.
      eexists. eexists. repeat split; reflexivity.
    + eexists. eexists. repeat split; try reflexivity.
      right. repeat split; reflexivity.
  - apply (Hc [JInt 1; JInt 2; JInt 3] 2%nat JNull); simpl; lia.
Defined.

(** C3 on a filter file whose rows say "Archive" and "keep". *)
Lemma filter_without_match_is_ignored_witness :
  load_project_filter (JStr "projects.csv") [JStr "Migrate"]
    (FilterTable (Some ["Name"; "Migrate Repo"]) sample_rows) = Ok None /\
  and_then (load_project_filter (JStr "projects.csv") [JStr "Migrate"]
              (FilterTable (Some ["Name"; "Migrate Repo"]) sample_rows))
           (apply_project_filter [sample_project]) = Ok [sample_project].
Proof.
  assert (H : Forall (fun row => forall migrate_value,
                        stripped row "Migrate Repo" = Ok migrate_value ->
                        migrate_match [JStr "Migrate"] migrate_value = false)
                     sample_rows).
  { repeat constructor; intros m E; vm_compute in E; inversion E; reflexivity. }
  destruct (filter_without_match_is_ignored "projects.csv" [JStr "Migrate"]
              (Some ["Name"; "Migrate Repo"]) sample_rows [sample_project] H)
    as (H1 & H2 & _).
  split; [exact H1 | exact H2].
Defined.

(** C8 on the sample server with 4 tags: 5 + 3 + 4 + 0 + 1 + 2. *)
Lemma object_count_estimate_witness :
  exists st t,
    get_repository_stats_via_api
      (sample_server 10 (Replied (Response 200 [("X-Total", "4")] None)))
      int_of_digits (JInt 1) [] = (Ok st, t) /\
    object_count st = 15.
Proof.
  destruct (get_repository_stats_via_api
              (sample_server 10 (Replied (Response 200 [("X-Total", "4")] None)))
              int_of_digits (JInt 1) []) as [[st | e] t] eqn:E.
  - exists st, t. split; [reflexivity |].
    destruct (object_count_estimate _ _ _ _ _ _ E) as (_ & _ & H).
    vm_compute in E. inversion E; subst st t.
    exact (H (Response 200 []
                (Some (JDict [("statistics",
                               JDict [("repository_size", JInt 10);
                                      ("storage_size", JInt 10);
                                      ("commit_count", JInt 5)])])))
             5 eq_refl eq_refl eq_refl).
  - vm_compute in E. discriminate E.
Defined.

(** C2 on the sample server with a storage size of [6 * 1024^3 + 1]. *)
Lemma size_flags_follow_final_size_witness :
  exists row t,
    Details.project_stats (sample_server (6 * 1024 * 1024 * 1024 + 1) (Failed Timeout))
      int_of_digits sample_project (JInt 1) [] = (Ok row, t) /\
    assoc "exceeds_2gb" row = Some (CJson (JBool true)) /\
    assoc "exceeds_6gb" row = Some (CJson (JBool true)).
Proof.
  destruct (Details.project_stats
              (sample_server (6 * 1024 * 1024 * 1024 + 1) (Failed Timeout))
              int_of_digits sample_project (JInt 1) []) as [[row | e] t] eqn:E.
  - exists row, t. split; [reflexivity |].
    destruct (size_flags_follow_final_size _ _ _ _ _ _ _ E)
      as (rs & r & s & z & mb & e2 & e6 & _ & _ & _ & _ & _ & _ & H2 & H6 & _).
    vm_compute in E. inversion E; subst row. split; reflexivity.
  - vm_compute in E. discriminate E.
Defined.
(** C6 on concrete runs.  gitlab-groups.py: no token at all, a group
    listing that times out, an empty group listing.  gitlab-details.py with
    a token in the environment and an empty group listing: the process ends
    with status 1, where its main block would end with status 0. *)
Lemma process_exit_behaviour_witness :
  exits_nonzero (Groups.script second_page_down int_of_digits 3
                   (Environment None None None) NoTokenFile) /\
  exits_nonzero (Groups.script second_page_down int_of_digits 3
                   (Environment (Some "glpat-sample") None None) NoTokenFile) /\
  exits_zero_without_output
    (Groups.script (paged_server []) int_of_digits 3
       (Environment (Some "glpat-sample") None None) NoTokenFile) /\
  Details.script (paged_server []) int_of_digits 3
    (Environment (Some "glpat-sample") None None) NoTokenFile NoFilterFile
  = Some (Run 1 None []) /\
  ~ exits_zero_without_output
      (Details.script (paged_server []) int_of_digits 3
         (Environment (Some "glpat-sample") None None) NoTokenFile NoFilterFile) /\
  exits_zero_without_output (Details.main (paged_server []) int_of_digits 3 None) /\
  exits_zero_without_output (Details.main two_pages int_of_digits 3 (Some ["zeta"])).
Proof.
  destruct (process_exit_behaviour second_page_down int_of_digits 3)
    as (Htoken & Hfail & _).
  destruct (process_exit_behaviour (paged_server []) int_of_digits 3)
    as (_ & _ & Hempty & Hdetails & _ & Hmain & _).
  destruct (process_exit_behaviour two_pages int_of_digits 3)
    as (_ & _ & _ & _ & _ & _ & Hfiltered).
  destruct (Hdetails (Environment (Some "glpat-sample") None None)
              NoTokenFile NoFilterFile) as [Hrun Hnot].
  split; [| split; [| split; [| split; [| split; [| split]]]]].
  - apply Htoken. split; [reflexivity | exact I].
  - apply (Hfail _ _ (JStr "glpat-sample") [groups_url 50 1; groups_url 50 2]);
      reflexivity.
  - apply (Hempty _ _ (JStr "glpat-sample") [groups_url 50 1]); reflexivity.
  - exact Hrun.
  - exact Hnot.
  - apply (Hmain [groups_url 50 1] None). reflexivity.
  - eapply Hfiltered; vm_compute; reflexivity.
Defined.

(** C10 on statistics with a zero repository size next to a storage size of
    10: the payload of the listing is not read. *)
Lemma listing_statistics_only_when_both_zero_witness :
  Details.final_sizes
    (JDict [("statistics", JDict [("repository_size", JInt 77)])])
    (Stats 0 (JInt 0) (JInt 10) (JInt 0) 0 0 0 false false false false) =
  Ok (JInt 0, JInt 10).
Proof.
  destruct (listing_statistics_only_when_both_zero tags_time_out int_of_digits)
    as (H & _).
  apply (H _ (Stats 0 (JInt 0) (JInt 10) (JInt 0) 0 0 0 false false false false)).
  reflexivity.
Defined.


(** * Further properties *)

(** ** Order of the page requests *)

Lemma paginate_log world url fuel :
  forall page acc t r t',
    paginate world fuel url page acc t = Some (r, t') ->
    exists k, (1 <= k <= fuel)%nat /\ t' = t ++ page_requests url page k.
Proof.
  induction fuel as [| fuel IH]; intros page acc t r t'; cbn [paginate];
    [discriminate |].
  assert (Hone : t ++ [url page] = t ++ page_requests url page 1).
  { unfold page_requests. simpl. now rewrite Z.add_0_r. }
  assert (Hstop : forall x, Some (x, t ++ [url page]) = Some (r, t') ->
            exists k, (1 <= k <= S fuel)%nat /\ t' = t ++ page_requests url page k).
  { intros x H. inversion H; subst. exists 1%nat. split; [lia | exact Hone]. }
  destruct (world (url page)) as [response | e]; [| apply Hstop].
  destruct (negb (status_code response =? 200)); [apply Hstop |].
  destruct (json_of response) as [items |]; [| apply Hstop].
  destruct (negb (truthy items)); [apply Hstop |].
  destruct (iter items) as [l |]; [| apply Hstop].
  destruct (has_next_page response); [| apply Hstop].
  intros H. apply IH in H. destruct H as (k & Hk & ->).
  exists (S k). split; [lia |].
  now rewrite page_requests_S, <- app_assoc.
Qed.

(** X1. Whatever the server does, a listing fetch that returns has asked for
    pages 1, 2, ..., k in this order, each once, with k at least 1 and at
    most the fuel: it never skips a page, repeats one or asks for anything
    else. *)
Theorem fetch_requests_consecutive_pages
    (world : request -> reply) (fuel : nat) (t : trace) :
  (forall r t',
     fetch_all_groups world fuel t = Some (r, t') ->
     exists k, (1 <= k <= fuel)%nat /\
               t' = t ++ page_requests (groups_url 50) 1 k) /\
  (forall group_name r t',
     fetch_all_projects world fuel group_name t = Some (r, t') ->
     exists k, (1 <= k <= fuel)%nat /\
               t' = t ++ page_requests (group_projects_url group_name 100) 1 k).
Proof.
  split.
  - intros r t' H. exact (paginate_log _ _ _ _ _ _ _ _ H).
  - intros g r t' H. exact (paginate_log _ _ _ _ _ _ _ _ H).
Qed.

(** ** Counting through the [X-Total] header *)

(** X2. The count helpers ([get_branch_count] and the three group counters)
    always return, after the HEAD request alone or the HEAD request followed
    by the GET request; when the HEAD reply is a 200 whose [X-Total] header
    reads as a number, that number is returned and no GET request is made;
    when the HEAD reply is a 200 whose header does not read as a number, the
    result is 0, again without a GET request. *)
Theorem count_prefers_head_request
    (world : request -> reply) (py_int : string -> option Z)
    (target : endpoint) (t : trace) :
  exists n t',
    count_via world py_int target t = (Ok n, t') /\
    (t' = t ++ [Request HEAD target] \/
     t' = t ++ [Request HEAD target; Request GET target]) /\
    (forall response total,
       world (Request HEAD target) = Replied response ->
       status_code response = 200 ->
       assoc "X-Total" (headers response) = Some total ->
       t' = t ++ [Request HEAD target] /\
       n = match py_int total with Some z => z | None => 0 end).
Proof.
  unfold count_via, try, bind, send, ret, lift, header_int, has_header.
  destruct (world (Request HEAD target)) as [r |] eqn:Eh.
  - destruct (status_code r =? 200) eqn:Es; cbn [andb].
    + destruct (assoc "X-Total" (headers r)) as [v |] eqn:Ev.
      * destruct (py_int v) as [z |] eqn:Ez; do 2 eexists;
          (split; [reflexivity |]); (split; [now left |]);
          intros r' tot Hr _ Hv; inversion Hr; subst r';
          rewrite Ev in Hv; inversion Hv; subst tot; rewrite Ez; now split.
      * assert (Hno : forall n t',
                  forall response total,
                    Replied r = Replied response ->
                    status_code response = 200 ->
                    assoc "X-Total" (headers response) = Some total ->
                    t' = t ++ [Request HEAD target] /\
                    n = match py_int total with Some z => z | None => 0 end).
        { intros n t' r' tot Hr _ Hv. inversion Hr; subst r'.
          rewrite Ev in Hv. discriminate. }
        rewrite <- app_assoc. cbn [app].
        destruct (world (Request GET target)) as [g |];
          [| do 2 eexists; split; [reflexivity |]; split; [now right | apply Hno]].
        destruct (status_code g =? 200);
          [| do 2 eexists; split; [reflexivity |]; split; [now right | apply Hno]].
        destruct (assoc "X-Total" (headers g)) as [w |].
        -- destruct (py_int w);
             do 2 eexists; (split; [reflexivity |]); (split; [now right | apply Hno]).
        -- destruct (json_of g) as [body |];
             [destruct (len body) |];
             do 2 eexists; (split; [reflexivity |]); (split; [now right | apply Hno]).
    + assert (Hno : forall n t',
                forall response total,
                  Replied r = Replied response ->
                  status_code response = 200 ->
                  assoc "X-Total" (headers response) = Some total ->
                  t' = t ++ [Request HEAD target] /\
                  n = match py_int total with Some z => z | None => 0 end).
      { intros n t' r' tot Hr Hs _. inversion Hr; subst r'.
        rewrite Hs in Es. discriminate. }
      rewrite <- app_assoc. cbn [app].
      destruct (world (Request GET target)) as [g |];
        [| do 2 eexists; split; [reflexivity |]; split; [now right | apply Hno]].
      destruct (status_code g =? 200);
        [| do 2 eexists; split; [reflexivity |]; split; [now right | apply Hno]].
      destruct (assoc "X-Total" (headers g)) as [w |].
      * destruct (py_int w);
          do 2 eexists; (split; [reflexivity |]); (split; [now right | apply Hno]).
      * destruct (json_of g) as [body |];
          [destruct (len body) |];
          do 2 eexists; (split; [reflexivity |]); (split; [now right | apply Hno]).
  - do 2 eexists. split; [reflexivity |]. split; [now left |].
    intros r' tot Hr. discriminate Hr.
Qed.

(** ** Size conversion keeps the order *)

Lemma round_half_even_monotone (n m d : Z) :
  0 < d -> n <= m -> round_half_even n d <= round_half_even m d.
Proof.
  intros Hd Hnm. unfold round_half_even.
  pose proof (Z.div_mod n d ltac:(lia)) as En.
  pose proof (Z.div_mod m d ltac:(lia)) as Em.
  pose proof (Z.mod_pos_bound n d Hd) as Bn.
  pose proof (Z.mod_pos_bound m d Hd) as Bm.
  pose proof (Z.div_le_mono n m d Hd Hnm) as Hq.
  destruct (Z.eq_dec (n / d) (m / d)) as [Heq | Hne].
  - rewrite Heq in *.
    assert (n mod d <= m mod d) by lia.
    destruct (2 * (n mod d) <? d) eqn:A1; destruct (2 * (m mod d) <? d) eqn:A2;
      destruct (d <? 2 * (n mod d)) eqn:B1; destruct (d <? 2 * (m mod d)) eqn:B2;
      destruct (Z.even (m / d)); lia.
  - assert (n / d + 1 <= m / d) by lia.
    destruct (2 * (n mod d) <? d); destruct (2 * (m mod d) <? d);
      destruct (d <? 2 * (n mod d)); destruct (d <? 2 * (m mod d));
      destruct (Z.even (n / d)); destruct (Z.even (m / d)); lia.
Qed.

Lemma round_half_even_nonneg (n d : Z) :
  0 < d -> 0 <= n -> 0 <= round_half_even n d.
Proof.
  intros Hd Hn.
  assert (H0 : round_half_even 0 d = 0).
  { unfold round_half_even.
    rewrite Z.div_0_l, Z.mod_0_l by lia.
    destruct (2 * 0 <? d) eqn:E; [reflexivity |].
    apply Z.ltb_ge in E. lia. }
  rewrite <- H0 at 1. now apply round_half_even_monotone.
Qed.

(** X3. [bytes_to_mb] keeps the order of sizes below [2^53] bytes, where
    the division is exact: of two such byte counts the larger never gets the
    smaller number of megabytes, and one that is not negative never gets a
    negative one. *)
Theorem bytes_to_mb_monotone (a b : Z) :
  Z.abs a < 2 ^ 53 -> Z.abs b < 2 ^ 53 -> a <= b ->
  exists qa qb,
    bytes_to_mb (JInt a) = Ok (CFloat qa) /\
    bytes_to_mb (JInt b) = Ok (CFloat qb) /\
    (qa <= qb)%Q /\
    (0 <= a -> (0 <= qa)%Q).
Proof.
  intros Ha Hb Hab.
  rewrite (bytes_to_mb_exact a Ha), (bytes_to_mb_exact b Hb).
  do 2 eexists. split; [reflexivity |]. split; [reflexivity |].
  assert (Hd : 0 < 1024 * 1024) by lia.
  split.
  - rewrite !Qred_correct. unfold Qle. cbn [Qnum Qden].
    apply Z.mul_le_mono_nonneg_r; [lia |].
    apply round_half_even_monotone; lia.
  - intros Ha0. rewrite Qred_correct. unfold Qle. cbn [Qnum Qden].
    pose proof (round_half_even_nonneg (100 * a) (1024 * 1024) Hd ltac:(lia)).
    lia.
Qed.

(** ** Run time report *)

(** X4. For a run of [total] whole seconds, [total] not negative, the logged
    hours, minutes and seconds add up to [total]; minutes and seconds are
    below 60; and the format is chosen by the leading unit: hours are shown
    exactly from 3600 seconds on, minutes without hours from 60 to 3599. *)
Theorem execution_time_report_splits (total : Z) :
  0 <= total ->
  match execution_time_report total with
  | HoursMinutesSeconds h m s =>
      3600 <= total /\ 0 < h /\ 0 <= m < 60 /\ 0 <= s < 60 /\
      total = 3600 * h + 60 * m + s
  | MinutesSeconds m s =>
      60 <= total < 3600 /\ 0 < m < 60 /\ 0 <= s < 60 /\ total = 60 * m + s
  | SecondsOnly s => total < 60 /\ s = total
  end.
Proof.
  intros Ht. unfold execution_time_report.
  pose proof (Z.div_mod total 3600 ltac:(lia)) as E1.
  pose proof (Z.mod_pos_bound total 3600 ltac:(lia)) as B1.
  pose proof (Z.div_mod (total mod 3600) 60 ltac:(lia)) as E2.
  pose proof (Z.mod_pos_bound (total mod 3600) 60 ltac:(lia)) as B2.
  pose proof (Z.mod_pos_bound total 60 ltac:(lia)) as B3.
  assert (E3 : (total mod 3600) mod 60 = total mod 60).
  { apply Z.mod_mod_divide. now exists 60. }
  rewrite E3 in *.
  assert (0 <= total / 3600) by (apply Z.div_pos; lia).
  assert (0 <= (total mod 3600) / 60) by (apply Z.div_pos; lia).
  assert ((total mod 3600) / 60 < 60) by (apply Z.div_lt_upper_bound; lia).
  destruct (0 <? total / 3600) eqn:Hh.
  - apply Z.ltb_lt in Hh. repeat split; lia.
  - apply Z.ltb_ge in Hh.
    destruct (0 <? (total mod 3600) / 60) eqn:Hm.
    + apply Z.ltb_lt in Hm. repeat split; lia.
    + apply Z.ltb_ge in Hm. split; lia.
Qed.

(** ** Token in use *)

Lemma unset_false (v : option string) :
  unset v = false -> exists s, v = Some s /\ s <> "".
Proof.
  destruct v as [s |]; cbn; [| discriminate].
  intros H. exists s. split; [reflexivity |].
  intros ->. discriminate.
Qed.

Lemma truthy_string (v : json) (u : unit) :
  (if truthy v then setenv v else Ok tt) = Ok u -> truthy v = true ->
  exists s, v = JStr s /\ s <> "".
Proof.
  intros H Ht. rewrite Ht in H.
  destruct v; try discriminate.
  exists s. split; [reflexivity |].
  intros ->. discriminate.
Qed.

(** X5. When start-up goes on, the token in use is a string that is not
    empty; it is the value of the environment variable when that is set and
    not empty, whatever the token file holds, and otherwise the [token]
    entry of the token file.  In both scripts. *)
Theorem token_in_use_is_nonempty_string (env : environment) (file : token_file) :
  (forall tok,
     Groups.resolve_token env file = Proceed tok ->
     exists s, tok = JStr s /\ s <> "" /\
       if unset (env_GITLAB_TOKEN env)
       then exists token_data,
              file = TokenData token_data /\
              get token_data "token" JNull = Ok (JStr s)
       else env_GITLAB_TOKEN env = Some s) /\
  (forall cfg,
     Details.resolve_config env file = Proceed cfg ->
     exists s, Details.GITLAB_TOKEN cfg = JStr s /\ s <> "" /\
       if unset (env_GITLAB_TOKEN env)
       then exists token_data,
              file = TokenData token_data /\
              get token_data "token" JNull = Ok (JStr s)
       else env_GITLAB_TOKEN env = Some s).
Proof.
  split.
  - intros tok. unfold Groups.resolve_token.
    destruct (unset (env_GITLAB_TOKEN env)) eqn:Hu.
    + destruct file as [| | d]; try discriminate.
      unfold Groups.token_from_file, and_then.
      destruct (get d "token" JNull) as [v |] eqn:Eg; [| discriminate].
      destruct (if truthy v then setenv v else Ok tt) as [u |] eqn:Es;
        [| discriminate].
      destruct (export_if_present d "gitlab_url"); [| discriminate].
      destruct (truthy v) eqn:Ht; cbn [negb]; [| discriminate].
      intros H. inversion H; subst tok.
      assert (Hs : (if truthy v then setenv v else Ok tt) = Ok u)
        by now rewrite Ht.
      destruct (truthy_string v u Hs Ht) as (s & -> & Hne).
      exists s. split; [reflexivity |]. split; [exact Hne |].
      exists d. now split.
    + destruct (unset_false _ Hu) as (s & Es & Hne). rewrite Es.
      intros H. inversion H. exists s. now repeat split.
  - intros cfg. unfold Details.resolve_config.
    destruct (unset (env_GITLAB_TOKEN env)) eqn:Hu.
    + destruct file as [| | d]; try discriminate.
      unfold Details.settings_without_env_token, and_then.
      destruct (get d "token" JNull) as [v |] eqn:Eg; [| discriminate].
      destruct (if truthy v then setenv v else Ok tt) as [u |] eqn:Es;
        [| discriminate].
      destruct (export_if_present d "github_token"); [| discriminate].
      destruct (export_if_present d "gitlab_url"); [| discriminate].
      destruct (read_if_present d "project_list_file" JNull); [| discriminate].
      destruct (read_migrate_values d); [| discriminate].
      cbn [Details.GITLAB_TOKEN].
      destruct (truthy v) eqn:Ht; cbn [negb]; [| discriminate].
      intros H. inversion H; subst cfg. cbn [Details.GITLAB_TOKEN].
      assert (Hs : (if truthy v then setenv v else Ok tt) = Ok u)
        by now rewrite Ht.
      destruct (truthy_string v u Hs Ht) as (s & -> & Hne).
      exists s. split; [reflexivity |]. split; [exact Hne |].
      exists d. now split.
    + destruct (unset_false _ Hu) as (s & Es & Hne). rewrite Es.
      cbv zeta.
      destruct file as [| | d]; try discriminate.
      * intros H. inversion H. exists s. now repeat split.
      * unfold Details.settings_with_env_token, and_then.
        destruct (if unset (env_GITHUB_TOKEN env)
                  then export_if_present d "github_token" else Ok tt);
          [| discriminate].
        destruct (match env_GITLAB_URL env with
                  | Some url =>
                      if String.eqb url "https://gitlab.com"
                      then export_if_present d "gitlab_url" else Ok tt
                  | None => export_if_present d "gitlab_url"
                  end); [| discriminate].
        destruct (read_if_present d "project_list_file" JNull); [| discriminate].
        destruct (read_migrate_values d); [| discriminate].
        intros H. inversion H. exists s. now repeat split.
Qed.

Lemma bytes_to_mb_monotone_witness :
  exists qa qb,
    bytes_to_mb (JInt 1048576) = Ok (CFloat qa) /\
    bytes_to_mb (JInt 3145728) = Ok (CFloat qb) /\
    (qa <= qb)%Q /\
    (0 <= 1048576 -> (0 <= qa)%Q).
Proof. apply (bytes_to_mb_monotone 1048576 3145728); cbn; lia. Defined.

Lemma execution_time_report_splits_witness :
  match execution_time_report 3725 with
  | HoursMinutesSeconds h m s =>
      3600 <= 3725 /\ 0 < h /\ 0 <= m < 60 /\ 0 <= s < 60 /\
      3725 = 3600 * h + 60 * m + s
  | MinutesSeconds m s =>
      60 <= 3725 < 3600 /\ 0 < m < 60 /\ 0 <= s < 60 /\ 3725 = 60 * m + s
  | SecondsOnly s => 3725 < 60 /\ s = 3725
  end.
Proof. apply (execution_time_report_splits 3725). lia. Defined.

(** ** Default-branch file count *)

Lemma count_blobs_filter (items : list json) :
  count_blobs items =
  if forallb has_get items
  then Ok (Z.of_nat (List.length (filter is_blob items)))
  else Raise AttributeError.
Proof.
  induction items as [| item items IH]; [reflexivity |].
  cbn [count_blobs forallb filter]. rewrite IH. unfold is_blob.
  destruct item; cbn [get has_get andb]; try reflexivity.
  destruct (forallb has_get items); [| reflexivity].
  destruct (eq_str _ "blob"); [| reflexivity].
  cbn [List.length]. f_equal. lia.
Qed.

(** X6. The list comprehension of the tree walk counts the entries whose
    [type] is [blob], and raises exactly when an entry is no object. *)
Theorem count_blobs_counts_blob_entries (items : list json) :
  count_blobs items =
  if forallb has_get items
  then Ok (Z.of_nat (List.length (filter is_blob items)))
  else Raise AttributeError.
Proof. exact (count_blobs_filter items). Qed.

Lemma count_blobs_nonneg (items : list json) (n : Z) :
  count_blobs items = Ok n -> 0 <= n.
Proof.
  rewrite count_blobs_filter.
  destruct (forallb has_get items); [| discriminate].
  intros H. inversion H. lia.
Qed.

Section FileCount.

Variable world : request -> reply.
Variable py_int : string -> option Z.
Variable project_id : json.

Lemma tree_page_run (ref : json) (page count : Z) (t : trace) :
  0 <= count ->
  exists step,
    tree_page world py_int project_id ref page count t
    = (Ok step, t ++ [tree_url project_id ref page]) /\
    match step with
    | Return v => v = 0
    | Break c => 0 <= c
    | Next c => 0 <= c
    end.
Proof.
  intros Hc. unfold tree_page, try, bind, send, ret, lift, tree_url.
  destruct (world (Request GET (Tree project_id ref page))) as [r |];
    [| eexists; split; [reflexivity | exact Hc]].
  destruct (status_code r =? 404); [eexists; split; [reflexivity | reflexivity] |].
  destruct (negb (status_code r =? 200));
    [eexists; split; [reflexivity | exact Hc] |].
  destruct (json_of r) as [items |];
    [| eexists; split; [reflexivity | exact Hc]].
  destruct (negb (truthy items));
    [eexists; split; [reflexivity | exact Hc] |].
  destruct (iter items) as [l |];
    [| eexists; split; [reflexivity | exact Hc]].
  destruct (count_blobs l) as [n |] eqn:En;
    [| eexists; split; [reflexivity | exact Hc]].
  apply count_blobs_nonneg in En.
  destruct (check_total_pages py_int r page (count + n));
    [destruct (has_next_page r) |];
    (eexists; split; [reflexivity | cbn; lia]).
Qed.

Lemma count_tree_log (ref : json) (remaining : nat) :
  forall page count t,
    0 <= count ->
    exists n k,
      count_tree world py_int remaining project_id ref page count t
      = (Ok n, t ++ page_requests (tree_url project_id ref) page k) /\
      0 <= n /\ (k <= remaining)%nat.
Proof.
  induction remaining as [| remaining IH]; intros page count t Hc.
  - exists count, 0%nat. cbn. rewrite app_nil_r. repeat split; [exact Hc | lia].
  - cbn [count_tree]. unfold bind at 1.
    destruct (tree_page_run ref page count t Hc) as (step & -> & Hstep).
    assert (Hone : t ++ [tree_url project_id ref page]
                   = t ++ page_requests (tree_url project_id ref) page 1).
    { unfold page_requests. cbn. now rewrite Z.add_0_r. }
    destruct step as [v | c | c].
    + exists v, 1%nat. unfold ret. rewrite Hone. repeat split; lia.
    + exists c, 1%nat. unfold ret. rewrite Hone. repeat split; lia.
    + destruct (IH (page + 1) c (t ++ [tree_url project_id ref page]) Hstep)
        as (n & k & -> & Hn & Hk).
      exists n, (S k). rewrite page_requests_S, <- app_assoc.
      repeat split; [exact Hn | lia].
Qed.

Lemma large_repo_count_log (ref : json) (t : trace) :
  exists early j,
    large_repo_count world py_int project_id ref t
    = (Ok early,
       t ++ firstn j [Request HEAD (Commits project_id ref);
                      Request HEAD (SearchBlobs project_id)]) /\
    (1 <= j <= 2)%nat /\
    match early with Some v => 0 <= v | None => True end.
Proof.
  unfold large_repo_count, try, bind, send, ret, lift.
  destruct (world (Request HEAD (Commits project_id ref))) as [c |];
    [| exists None, 1%nat; repeat split; lia].
  destruct (status_code c =? 200);
    [| exists None, 1%nat; repeat split; lia].
  rewrite <- app_assoc. cbn [app].
  destruct (world (Request HEAD (SearchBlobs project_id))) as [s |];
    [| exists None, 2%nat; repeat split; lia].
  destruct (andb (status_code s =? 200) (has_header s "X-Total"));
    [| exists (Some 0), 2%nat; repeat split; lia].
  destruct (header_int py_int s "X-Total") as [z |];
    [| exists None, 2%nat; repeat split; lia].
  destruct (0 <? z) eqn:Ez.
  - apply Z.ltb_lt in Ez. exists (Some z), 2%nat. repeat split; lia.
  - exists (Some 0), 2%nat. repeat split; lia.
Qed.

End FileCount.

(** X7. [get_repository_file_count] always returns a count that is not
    negative.  It asks for the project first, for a repository above
    10 GB then for the commits and possibly the blob search, and then walks
    tree pages 1, 2, ..., k of the default branch in order, k at most 50:
    at most 53 requests. *)
Theorem get_repository_file_count_bounds
    (world : request -> reply) (py_int : string -> option Z)
    (project_id : json) (t : trace) :
  exists n ref j k,
    get_repository_file_count world py_int project_id t
    = (Ok n, t ++ firstn j (file_count_preamble project_id ref)
               ++ page_requests (tree_url project_id ref) 1 k) /\
    0 <= n /\ (1 <= j <= 3)%nat /\ (k <= 50)%nat.
Proof.
  unfold get_repository_file_count, try, send, ret, lift.
  unfold bind at 1.
  destruct (world (Request GET (Project project_id))) as [r |];
    [| exists 0, JNull, 1%nat, 0%nat; repeat split; lia].
  destruct (negb (status_code r =? 200));
    [exists 0, JNull, 1%nat, 0%nat; repeat split; lia |].
  unfold bind at 1.
  destruct (json_of r) as [info |];
    [| exists 0, JNull, 1%nat, 0%nat; repeat split; lia].
  unfold bind at 1.
  destruct (get info "default_branch" JNull) as [ref |];
    [| exists 0, JNull, 1%nat, 0%nat; repeat split; lia].
  unfold bind at 1.
  destruct (get info "statistics" (JDict [])) as [statistics |];
    [| exists 0, JNull, 1%nat, 0%nat; repeat split; lia].
  unfold bind at 1.
  destruct (get statistics "repository_size" (JInt 0)) as [size |];
    [| exists 0, JNull, 1%nat, 0%nat; repeat split; lia].
  unfold bind at 1.
  destruct (as_int size) as [z |];
    [| exists 0, JNull, 1%nat, 0%nat; repeat split; lia].
  unfold bind at 1.
  destruct (true_divide z (1024 * 1024)) as [size_mb |];
    [| exists 0, JNull, 1%nat, 0%nat; repeat split; lia].
  destruct (negb (truthy ref));
    [exists 0, JNull, 1%nat, 0%nat; repeat split; lia |].
  unfold bind at 1.
  destruct (float_gt size_mb 10000).
  - destruct (large_repo_count_log world py_int project_id ref
                (t ++ [Request GET (Project project_id)]))
      as (early & j & -> & Hj & He).
    destruct early as [v |].
    + exists v, ref, (S j), 0%nat.
      unfold file_count_preamble. cbn [firstn page_requests seq map].
      rewrite app_nil_r, <- app_assoc. cbn [app].
      repeat split; lia.
    + destruct (count_tree_log world py_int project_id ref max_pages 1 0
                  ((t ++ [Request GET (Project project_id)])
                   ++ firstn j [Request HEAD (Commits project_id ref);
                                Request HEAD (SearchBlobs project_id)])
                  ltac:(lia))
        as (n & k & -> & Hn & Hk).
      exists n, ref, (S j), k.
      unfold file_count_preamble. cbn [firstn].
      rewrite <- !app_assoc. cbn [app].
      unfold max_pages in Hk. repeat split; lia.
  - unfold ret.
    destruct (count_tree_log world py_int project_id ref max_pages 1 0
                (t ++ [Request GET (Project project_id)]) ltac:(lia))
      as (n & k & -> & Hn & Hk).
    exists n, ref, 1%nat, k.
    unfold file_count_preamble. cbn [firstn].
    rewrite <- !app_assoc. cbn [app].
    unfold max_pages in Hk. repeat split; lia.
Qed.

(** ** Pipeline configuration lookup *)

Lemma through_first_spec {A : Type} (found : A -> bool) (l : list A) :
  (existsb found l = false /\ through_first found l = l) \/
  (exists before x after,
     l = before ++ x :: after /\ through_first found l = before ++ [x] /\
     found x = true /\ forallb (fun y => negb (found y)) before = true /\
     existsb found l = true).
Proof.
  induction l as [| x l IH]; [now left |].
  cbn [existsb through_first].
  destruct (found x) eqn:Ex.
  - right. exists [], x, l. now repeat split.
  - destruct IH as [[Hn Ht] | (before & y & after & Hl & Ht & Hy & Hb & He)].
    + left. cbn. now rewrite Hn, Ht.
    + right. exists (x :: before), y, after.
      rewrite Hl at 1. rewrite Ht. cbn [app forallb orb]. rewrite Ex, He.
      now repeat split.
Qed.

Lemma existsb_map_compose {A B : Type} (f : B -> bool) (g : A -> B) (l : list A) :
  existsb f (map g l) = existsb (fun x => f (g x)) l.
Proof.
  induction l as [| x l IH]; [reflexivity |]. cbn. now rewrite IH.
Qed.

Lemma in_before_last {A : Type} (l : list A) (x : A) :
  forall before y after,
    l ++ [x] = before ++ y :: after -> after <> [] -> In y l.
Proof.
  induction l as [| z l IH]; intros before y after H Ha.
  - destruct before as [| b before]; cbn in H.
    + inversion H. congruence.
    + inversion H as [[Hb Hrest]]. now destruct before.
  - destruct before as [| b before]; cbn in H.
    + inversion H. now left.
    + inversion H as [[Hb Hrest]]. right. exact (IH _ _ _ Hrest Ha).
Qed.

Lemma find_pipeline_file_run (world : request -> reply)
    (project_id ref : json) (files : list string) :
  forall t,
    find_pipeline_file world project_id ref files t
    = (Ok (existsb (fun f => gives_200 (world (pipeline_lookup project_id ref f)))
             files),
       t ++ map (pipeline_lookup project_id ref)
              (through_first
                 (fun f => gives_200 (world (pipeline_lookup project_id ref f)))
                 files)).
Proof.
  induction files as [| f files IH]; intros t.
  - cbn. now rewrite app_nil_r.
  - cbn [find_pipeline_file existsb through_first].
    unfold bind at 1, try, bind, send, ret, gives_200 at 1 3, pipeline_lookup at 1 4.
    destruct (world (Request HEAD (File project_id f ref))) as [r |].
    + destruct (status_code r =? 200); [reflexivity |].
      rewrite IH. cbn [orb map]. now rewrite <- app_assoc.
    + rewrite IH. cbn [orb map]. now rewrite <- app_assoc.
Qed.

(** X8. [check_for_pipeline_config] always returns.  After the project
    request it probes the six candidate names in their listed order on the
    default branch and stops at the first one answered with status 200: the
    result is true exactly when one of the probes made was answered so, that
    probe is then the last request, and no probe before it was. *)
Theorem pipeline_lookup_stops_at_first_hit
    (world : request -> reply) (project_id : json) (t : trace) :
  exists found lookups,
    check_for_pipeline_config world project_id t
    = (Ok found, t ++ Request GET (Project project_id) :: lookups) /\
    (List.length lookups <= 6)%nat /\
    found = existsb (fun rq => gives_200 (world rq)) lookups /\
    (lookups = [] \/
     exists ref,
       truthy ref = true /\
       lookups
       = map (pipeline_lookup project_id ref)
           (through_first
              (fun f => gives_200 (world (pipeline_lookup project_id ref f)))
              pipeline_files)) /\
    forall before rq after,
      lookups = before ++ rq :: after -> after <> [] ->
      gives_200 (world rq) = false.
Proof.
  assert (Hnone : exists found lookups,
            (@Ok bool false, t ++ [Request GET (Project project_id)])
            = (Ok found, t ++ Request GET (Project project_id) :: lookups) /\
            (List.length lookups <= 6)%nat /\
            found = existsb (fun rq => gives_200 (world rq)) lookups /\
            (lookups = [] \/
             exists ref,
               truthy ref = true /\
               lookups
               = map (pipeline_lookup project_id ref)
                   (through_first
                      (fun f => gives_200 (world (pipeline_lookup project_id ref f)))
                      pipeline_files)) /\
            forall before rq after,
              lookups = before ++ rq :: after -> after <> [] ->
              gives_200 (world rq) = false).
  { exists false, []. split; [reflexivity |]. split; [cbn; lia |].
    split; [reflexivity |]. split; [now left |].
    intros before rq after H. now destruct before. }
  unfold check_for_pipeline_config, try, send, ret, lift.
  unfold bind at 1.
  destruct (world (Request GET (Project project_id))) as [r |]; [| exact Hnone].
  destruct (negb (status_code r =? 200)); [exact Hnone |].
  unfold bind at 1.
  destruct (json_of r) as [info |]; [| exact Hnone].
  unfold bind at 1.
  destruct (get info "default_branch" JNull) as [ref |]; [| exact Hnone].
  destruct (negb (truthy ref)) eqn:Hr; [exact Hnone |].
  apply negb_false_iff in Hr.
  rewrite find_pipeline_file_run.
  set (hit := fun f => gives_200 (world (pipeline_lookup project_id ref f))).
  do 2 eexists. split; [rewrite <- app_assoc; reflexivity |].
  destruct (through_first_spec hit pipeline_files)
    as [[Hn Ht] | (before & x & after & Hl & Ht & Hx & Hb & He)].
  - rewrite Ht, Hn. split; [cbn; lia |].
    split.
    { rewrite existsb_map_compose. symmetry. exact Hn. }
    split; [right; exists ref; split; [exact Hr | unfold hit in Ht; now rewrite Ht] |].
    intros b rq a Hsplit _.
    assert (Hin : In rq (map (pipeline_lookup project_id ref) pipeline_files)).
    { rewrite Hsplit. apply in_or_app. right. now left. }
    apply in_map_iff in Hin. destruct Hin as (f & <- & Hf).
    destruct (gives_200 (world (pipeline_lookup project_id ref f))) eqn:E;
      [| reflexivity].
    assert (existsb hit pipeline_files = true)
      by (apply existsb_exists; exists f; now split).
    congruence.
  - rewrite Ht, He. split.
    { rewrite length_map, length_app. cbn [List.length].
      assert (List.length pipeline_files = 6%nat) by reflexivity.
      rewrite Hl in H. rewrite length_app in H. cbn [List.length] in H. lia. }
    split.
    { rewrite existsb_map_compose. symmetry. apply existsb_exists.
      exists x. split; [apply in_or_app; right; now left | exact Hx]. }
    split; [right; exists ref; split; [exact Hr | unfold hit in Ht; now rewrite Ht] |].
    intros b rq a Hsplit Ha.
    rewrite map_app in Hsplit. cbn [map] in Hsplit.
    assert (Hin : In rq (map (pipeline_lookup project_id ref) before))
      by exact (in_before_last _ _ _ _ _ Hsplit Ha).
    apply in_map_iff in Hin. destruct Hin as (f & <- & Hf).
    rewrite forallb_forall in Hb. specialize (Hb f Hf).
    now apply negb_true_iff in Hb.
Qed.

(** ** Bounds of the all-branches scan *)

Section TreePages.

Context {L : Type}.

Lemma adds_nothing {A : Type} (c : M (L * trace) A) (lo hi : Z) :
  (forall s o s', c s = (o, s') -> snd s' = snd s) ->
  adds_tree_pages 0 lo hi c.
Proof.
  intros H s o s' E. exists []. rewrite (H _ _ _ E), app_nil_r.
  repeat split; [cbn; lia | constructor].
Qed.

Lemma adds_ret {A : Type} (a : A) (lo hi : Z) :
  adds_tree_pages (L := L) 0 lo hi (ret a).
Proof. apply adds_nothing. intros s o s' E. now inversion E. Qed.

Lemma adds_stop {A : Type} (a : A) (k : nat) (lo hi : Z) :
  adds_tree_pages (L := L) k lo hi (ret a).
Proof.
  intros s o s' E. inversion E; subst. exists []. rewrite app_nil_r.
  repeat split; [cbn; lia | constructor].
Qed.

Lemma adds_lift {A : Type} (x : outcome A) (lo hi : Z) :
  adds_tree_pages (L := L) 0 lo hi (lift x).
Proof. apply adds_nothing. intros s o s' E. now inversion E. Qed.

Lemma adds_locals (lo hi : Z) : adds_tree_pages (L := L) 0 lo hi locals.
Proof. apply adds_nothing. intros s o s' E. now inversion E. Qed.

Lemma adds_update (f : L -> L) (lo hi : Z) :
  adds_tree_pages 0 lo hi (update f).
Proof. apply adds_nothing. intros s o s' E. now inversion E. Qed.

Lemma adds_weaken {A : Type} (c : M (L * trace) A) (k k' : nat) (lo lo' hi hi' : Z) :
  adds_tree_pages k lo hi c -> (k <= k')%nat -> lo' <= lo -> hi <= hi' ->
  adds_tree_pages k' lo' hi' c.
Proof.
  intros H Hk Hlo Hhi s o s' E.
  destruct (H _ _ _ E) as (pages & Ep & Hlen & Hall).
  exists pages. repeat split; [exact Ep | lia |].
  eapply Forall_impl; [| exact Hall]. cbv beta. intros p Hp. lia.
Qed.

Lemma adds_bind {A B : Type} (c : M (L * trace) A) (f : A -> M (L * trace) B)
    (k1 k2 : nat) (lo hi : Z) :
  adds_tree_pages k1 lo hi c -> (forall a, adds_tree_pages k2 lo hi (f a)) ->
  adds_tree_pages (k1 + k2) lo hi (bind c f).
Proof.
  intros Hc Hf s o s' E. unfold bind in E.
  destruct (c s) as [[a | e] s1] eqn:Ec.
  - destruct (Hc _ _ _ Ec) as (p1 & E1 & L1 & F1).
    destruct (Hf a _ _ _ E) as (p2 & E2 & L2 & F2).
    exists (p1 ++ p2). rewrite E2, E1, app_assoc, length_app.
    repeat split; [lia | now apply Forall_app].
  - inversion E; subst.
    destruct (Hc _ _ _ Ec) as (p1 & E1 & L1 & F1).
    exists p1. repeat split; [exact E1 | lia | exact F1].
Qed.

Lemma adds_try {A : Type} (c : M (L * trace) A) (h : exn -> M (L * trace) A)
    (k : nat) (lo hi : Z) :
  adds_tree_pages k lo hi c -> (forall e, adds_tree_pages 0 lo hi (h e)) ->
  adds_tree_pages k lo hi (try c h).
Proof.
  intros Hc Hh s o s' E. unfold try in E.
  destruct (c s) as [[a | e] s1] eqn:Ec.
  - inversion E; subst. exact (Hc _ _ _ Ec).
  - destruct (Hc _ _ _ Ec) as (p1 & E1 & L1 & F1).
    destruct (Hh e _ _ _ E) as (p2 & E2 & L2 & F2).
    destruct p2; [| cbn in L2; lia].
    exists p1. rewrite E2, app_nil_r. repeat split; [exact E1 | lia | exact F1].
Qed.

Lemma adds_for_each {A : Type} (l : list A) (body : A -> M (L * trace) unit)
    (lo hi : Z) :
  (forall x, adds_tree_pages 0 lo hi (body x)) ->
  adds_tree_pages 0 lo hi (for_each l body).
Proof.
  intros Hb. induction l as [| x l IH]; cbn [for_each].
  - apply adds_ret.
  - apply (adds_bind _ _ 0 0); [apply Hb | intros _; exact IH].
Qed.

Lemma adds_send (world : request -> reply) (rq : request) (lo hi : Z) :
  match target rq with Tree _ _ page => lo <= page <= hi | _ => True end ->
  adds_tree_pages (L := L) 1 lo hi (zoom (send world rq)).
Proof.
  intros Hrq [u t] o s' E. unfold zoom, send in E. cbn [fst snd] in E.
  assert (Es : snd s' = t ++ [rq]) by (destruct (world rq); now inversion E).
  cbn [snd]. rewrite Es. unfold tree_pages. rewrite flat_map_app.
  eexists. split; [reflexivity |]. cbn [flat_map]. rewrite app_nil_r.
  destruct (target rq); cbn; repeat split; try lia;
    try constructor; try assumption; constructor.
Qed.

End TreePages.

Section ScanBounds.

Variable world : request -> reply.
Variable py_int : string -> option Z.
Variable project_id : json.

Lemma check_file_size_adds path ref lo hi :
  adds_tree_pages 0 lo hi (check_file_size world py_int project_id path ref).
Proof.
  intros [u t] o s' E.
  assert (Es : snd s' = t ++ [Request HEAD (File project_id path ref)]).
  { unfold check_file_size, try, bind, zoom, send, update, lift, ret in E.
    cbn [fst snd] in E.
    destruct (world (Request HEAD (File project_id path ref))) as [r |];
      [| now inversion E].
    destruct (status_code r =? 200); [| now inversion E].
    destruct (gitlab_size py_int r) as [z |]; [| now inversion E].
    destruct (large_file_threshold <? z);
      [destruct (true_divide z (1024 * 1024)) |]; now inversion E. }
  exists []. cbn [snd]. rewrite Es. unfold tree_pages. rewrite flat_map_app.
  cbn. repeat split; [lia | constructor].
Qed.

Lemma scan_item_adds ref item lo hi :
  adds_tree_pages 0 lo hi (scan_item world py_int project_id ref item).
Proof.
  unfold scan_item, add_unique_file.
  apply (adds_bind _ _ 0 0); [apply adds_lift | intros ty].
  destruct (eq_str ty "blob"); [| apply adds_ret].
  apply (adds_bind _ _ 0 0); [apply adds_lift | intros file_path].
  apply (adds_bind _ _ 0 0).
  - destruct (truthy file_path); [| apply adds_ret].
    apply (adds_bind _ _ 0 0); [apply adds_locals | intros u].
    apply (adds_bind _ _ 0 0); [apply adds_lift | intros files].
    apply adds_update.
  - intros _.
    apply (adds_bind _ _ 0 0); [apply adds_locals | intros u].
    destruct (andb (negb (large_file_found u)) (truthy file_path));
      [| apply adds_ret].
    apply (adds_bind _ _ 0 0); [apply adds_lift | intros path].
    destruct (has_large_file_extension path); [| apply adds_ret].
    apply check_file_size_adds.
Qed.

Lemma scan_pages_adds (remaining : nat) :
  forall ref page,
    adds_tree_pages remaining page (page + Z.of_nat remaining - 1)
      (scan_pages world py_int remaining project_id ref page).
Proof.
  induction remaining as [| remaining IH]; intros ref page.
  - apply adds_ret.
  - cbn [scan_pages].
    apply (adds_bind _ _ 1 remaining).
    + apply adds_send. cbn [target]. lia.
    + intros r.
      destruct (negb (status_code r =? 200));
        [apply adds_stop |].
      apply (adds_bind _ _ 0 remaining); [apply adds_lift | intros items].
      destruct (negb (truthy items));
        [apply adds_stop |].
      apply (adds_bind _ _ 0 remaining); [apply adds_lift | intros l].
      apply (adds_bind _ _ 0 remaining).
      * apply adds_for_each. intros x. apply scan_item_adds.
      * intros _.
        destruct (has_next_page r);
          [| apply adds_stop].
        eapply adds_weaken; [apply IH | lia | lia | lia].
Qed.

Lemma scan_branches_adds (branches : list json) :
  adds_tree_pages (5 * List.length branches) 1 5
    (scan_branches world py_int project_id branches).
Proof.
  induction branches as [| branch branches IH]; cbn [scan_branches].
  - apply adds_ret.
  - apply (adds_bind _ _ 0 (5 * List.length (branch :: branches)));
      [apply adds_lift | intros branch_name].
    replace (5 * List.length (branch :: branches))%nat
      with (5 + 5 * List.length branches)%nat by (cbn [List.length]; lia).
    apply adds_bind; [| intros _; exact IH].
    destruct (truthy branch_name);
      [| apply adds_stop].
    apply adds_try; [| intros e; apply adds_ret].
    eapply adds_weaken;
      [apply scan_pages_adds | unfold max_pages_per_branch; lia | lia
      | unfold max_pages_per_branch; lia].
Qed.

Lemma branches_to_check_length (branches : json) (l : list json) :
  branches_to_check branches = Ok l -> (List.length l <= 10)%nat.
Proof.
  destruct branches as [| b | z | s | l0 | d]; cbn [branches_to_check];
    try discriminate.
  - intros H. replace l with (firstn 10 (chars s)) by congruence.
    rewrite length_firstn. lia.
  - intros H. replace l with (firstn 10 l0) by congruence.
    rewrite length_firstn. lia.
  - destruct (10 <? List.length d)%nat eqn:E; [discriminate |].
    intros [= <-]. rewrite length_map.
    apply Nat.ltb_ge in E. exact E.
Qed.

Lemma scan_all_branches_adds :
  adds_tree_pages 50 1 5 (scan_all_branches world py_int project_id).
Proof.
  unfold scan_all_branches.
  apply (adds_bind _ _ 0 50).
  - intros [u t] o s' E. unfold zoom, send in E. cbn [fst snd] in E.
    assert (Es : snd s' = t ++ [Request GET (Branches project_id 100)])
      by (destruct (world _); now inversion E).
    exists []. cbn [snd]. rewrite Es. unfold tree_pages. rewrite flat_map_app.
    cbn. repeat split; [lia | constructor].
  - intros r.
    destruct (negb (status_code r =? 200));
      [apply adds_stop |].
    apply (adds_bind _ _ 0 50); [apply adds_lift | intros branches].
    intros s o s' E. unfold bind, lift in E.
    destruct (branches_to_check branches) as [l |] eqn:El.
    + pose proof (branches_to_check_length _ _ El) as Hl.
      exact (adds_weaken _ _ 50 _ 1 _ 5 (scan_branches_adds l)
               ltac:(lia) ltac:(lia) ltac:(lia) _ _ _ E).
    + inversion E; subst. exists []. rewrite app_nil_r.
      repeat split; [cbn; lia | constructor].
Qed.

End ScanBounds.

(** X9. Whatever the server answers, one call of
    [get_all_branches_file_stats] issues at most 50 tree requests (ten
    branches, five pages each), and every one of them asks for a page from
    1 to 5. *)
Theorem branch_scan_tree_requests_bounded
    (world : request -> reply) (py_int : string -> option Z)
    (project_id : json) (t : trace) :
  exists result t' pages,
    get_all_branches_file_stats world py_int project_id t = (Ok result, t') /\
    tree_pages t' = tree_pages t ++ pages /\
    (List.length pages <= 50)%nat /\
    Forall (fun page => 1 <= page <= 5) pages.
Proof.
  unfold get_all_branches_file_stats.
  destruct (scan_all_branches world py_int project_id (ScanLocals [] false, t))
    as [o [u t']] eqn:E.
  destruct (scan_all_branches_adds world py_int project_id _ _ _ E)
    as (pages & Ep & Hl & Hf).
  cbn [snd] in Ep.
  destruct o; do 3 eexists; (split; [reflexivity |]);
    (split; [exact Ep |]); now split.
Qed.

(** ** Files counted by the all-branches scan *)

Lemma key_eqb_sym (a b : json) : key_eqb a b = key_eqb b a.
Proof.
  destruct a, b; cbn; try reflexivity;
    try apply Z.eqb_sym; try apply String.eqb_sym;
    repeat match goal with |- context [if ?b then _ else _] => destruct b end;
    reflexivity.
Qed.

Lemma distinct_keys_snoc (l : list json) (v : json) :
  distinct_keys l = true -> existsb (key_eqb v) l = false ->
  distinct_keys (l ++ [v]) = true.
Proof.
  induction l as [| x l IH]; [reflexivity |].
  cbn [distinct_keys existsb app]. intros Hd Hv.
  apply andb_true_iff in Hd. destruct Hd as [Hx Hd].
  apply orb_false_iff in Hv. destruct Hv as [Hvx Hv].
  rewrite existsb_app. cbn [existsb]. rewrite orb_false_r.
  rewrite (key_eqb_sym x v), Hvx, orb_false_r, Hx. cbn [andb].
  now apply IH.
Qed.

Lemma listed_blob_grows world project_id t extra f :
  listed_blob world project_id t f ->
  listed_blob world project_id (t ++ extra) f.
Proof.
  intros (ref & page & r & v & items & item & Hin & H).
  exists ref, page, r, v, items, item. split; [| exact H].
  apply in_or_app. now left.
Qed.

Section CountedFiles.

Variable world : request -> reply.
Variable py_int : string -> option Z.
Variable project_id : json.

Abbreviation Counted := (counted_files_invariant world project_id).

Lemma counted_request t0 u u' t rq :
  Counted t0 (u, t) -> unique_files u' = unique_files u ->
  Counted t0 (u', t ++ [rq]).
Proof.
  intros ((extra & He) & Hd & Hf) Hu. unfold counted_files_invariant in *.
  cbn [fst snd] in *. rewrite Hu. repeat split.
  - exists (extra ++ [rq]). now rewrite He, app_assoc.
  - exact Hd.
  - eapply Forall_impl; [| exact Hf]. cbv beta. intros f [Ht Hl].
    split; [exact Ht | now apply listed_blob_grows].
Qed.

Lemma counted_from t0 t1 s :
  Counted t1 s -> (exists extra, t1 = t0 ++ extra) -> Counted t0 s.
Proof.
  intros ((extra & He) & H) (extra' & ->). split; [| exact H].
  exists (extra' ++ extra). now rewrite He, app_assoc.
Qed.

Lemma counted_restart t0 s : Counted t0 s -> Counted (snd s) s.
Proof.
  intros (_ & H). split; [| exact H]. exists []. now rewrite app_nil_r.
Qed.

Lemma counted_send t0 rq :
  preserves (Counted t0) (zoom (send world rq)).
Proof.
  intros [u t] o s' E H. unfold zoom, send in E. cbn [fst snd] in E.
  assert (Es : s' = (u, t ++ [rq])) by (destruct (world rq); now inversion E).
  rewrite Es. now apply counted_request with (u := u).
Qed.

Lemma check_file_size_counted t0 path ref :
  preserves (Counted t0) (check_file_size world py_int project_id path ref).
Proof.
  intros [u t] o s' E H.
  assert (Es : exists flag,
             s' = (ScanLocals (unique_files u) flag,
                   t ++ [Request HEAD (File project_id path ref)])).
  { unfold check_file_size, try, bind, zoom, send, update, lift, ret in E.
    cbn [fst snd] in E.
    destruct (world (Request HEAD (File project_id path ref))) as [r |];
      [| exists (large_file_found u); destruct u; now inversion E].
    destruct (status_code r =? 200);
      [| exists (large_file_found u); destruct u; now inversion E].
    destruct (gitlab_size py_int r) as [z |];
      [| exists (large_file_found u); destruct u; now inversion E].
    destruct (large_file_threshold <? z);
      [exists true; destruct (true_divide z (1024 * 1024))
      | exists (large_file_found u); destruct u]; now inversion E. }
  destruct Es as (flag & ->). now apply counted_request with (u := u).
Qed.

Lemma scan_item_counted t0 ref page response v items item :
  In (tree_url project_id ref page) t0 ->
  world (tree_url project_id ref page) = Replied response ->
  status_code response = 200 -> json_of response = Ok v ->
  iter v = Ok items -> In item items ->
  forall branch_name,
    preserves (Counted t0) (scan_item world py_int project_id branch_name item).
Proof.
  intros Hin Hw Hs Hj Hi Hitem branch_name [u t] o s' E H.
  unfold scan_item, add_unique_file in E.
  unfold bind at 1, lift at 1 in E.
  destruct (get item "type" JNull) as [ty |] eqn:Ety;
    [| inversion E; subst; exact H].
  destruct (eq_str ty "blob") eqn:Eb; [| inversion E; subst; exact H].
  assert (Hblob : is_blob item = true) by (unfold is_blob; now rewrite Ety).
  unfold bind at 1, lift at 1 in E.
  destruct (get item "path" (JStr "")) as [file_path |] eqn:Ep;
    [| inversion E; subst; exact H].
  assert (Hnew : forall files flag,
            truthy file_path = true ->
            set_add file_path (unique_files u) = Ok files ->
            Counted t0 (ScanLocals files flag, t)).
  { intros files flag Ht Ha.
    destruct H as ((extra & He) & Hd & Hf). cbn [fst snd] in *.
    unfold set_add in Ha. destruct (hashable file_path); [| discriminate].
    split; [now exists extra |]. cbn [fst snd unique_files].
    destruct (existsb (key_eqb file_path) (unique_files u)) eqn:Ex;
      inversion Ha; subst files; [now split |].
    split; [now apply distinct_keys_snoc |].
    apply Forall_app. split; [exact Hf |]. constructor; [| constructor].
    split; [exact Ht |].
    exists ref, page, response, v, items, item.
    repeat split; try assumption.
    rewrite He. apply in_or_app. now left. }
  unfold bind at 1 in E.
  destruct (truthy file_path) eqn:Ht.
  - unfold bind at 1, locals at 1 in E. cbn [fst snd] in E.
    unfold bind at 1, lift at 1 in E.
    destruct (set_add file_path (unique_files u)) as [files |] eqn:Ea;
      [| inversion E; subst; exact H].
    unfold update at 1 in E. cbn [fst snd] in E.
    specialize (Hnew files (large_file_found u) eq_refl eq_refl).
    unfold bind at 1, locals at 1 in E. cbn [fst large_file_found] in E.
    destruct (large_file_found u); cbn [negb andb] in E;
      [inversion E; subst; exact Hnew |].
    unfold bind at 1, lift at 1 in E.
    destruct (as_str file_path AttributeError) as [path |];
      [| inversion E; subst; exact Hnew].
    destruct (has_large_file_extension path);
      [| inversion E; subst; exact Hnew].
    exact (check_file_size_counted _ _ _ _ _ _ E Hnew).
  - unfold ret at 1 in E.
    unfold bind at 1, locals at 1 in E. cbn [fst] in E.
    rewrite andb_false_r in E. inversion E; subst; exact H.
Qed.

Lemma scan_pages_counted (remaining : nat) :
  forall t0 ref page,
    preserves (Counted t0) (scan_pages world py_int remaining project_id ref page).
Proof.
  induction remaining as [| remaining IH]; intros t0 ref page; cbn [scan_pages].
  - apply preserves_ret.
  - intros [u t] o s' E H.
    unfold bind at 1, zoom, send in E. cbn [fst snd] in E.
    pose proof (counted_request t0 u u t (Request GET (Tree project_id ref page))
                  H eq_refl) as H1.
    destruct (world (Request GET (Tree project_id ref page))) as [r |] eqn:Ew;
      [| inversion E; subst; exact H1].
    destruct (negb (status_code r =? 200)) eqn:Es;
      [inversion E; subst; exact H1 |].
    apply negb_false_iff, Z.eqb_eq in Es.
    unfold bind at 1, lift at 1 in E.
    destruct (json_of r) as [v |] eqn:Ej; [| inversion E; subst; exact H1].
    destruct (negb (truthy v)); [inversion E; subst; exact H1 |].
    unfold bind at 1, lift at 1 in E.
    destruct (iter v) as [items |] eqn:Ei; [| inversion E; subst; exact H1].
    unfold bind at 1 in E.
    match type of E with
    | context [for_each ?l ?b ?s] =>
        destruct (for_each l b s) as [o2 s2] eqn:Ef
    end.
    assert (H2 : Counted t0 s2).
    { apply counted_from
        with (t1 := t ++ [Request GET (Tree project_id ref page)]).
      - eapply (preserves_for_each (Counted _)); [| exact Ef |].
        + intros item Hitem.
          apply (scan_item_counted _ ref page r v items item);
            try assumption.
          apply in_or_app. right. now left.
        + exact (counted_restart _ _ H1).
      - destruct H as ((extra & He) & _). cbn [snd] in He.
        exists (extra ++ [Request GET (Tree project_id ref page)]).
        now rewrite He, app_assoc. }
    destruct o2 as [[] | e]; [| inversion E; subst; exact H2].
    destruct (has_next_page r); [| inversion E; subst; exact H2].
    exact (IH _ _ _ _ _ _ E H2).
Qed.

Lemma scan_branches_counted (branches : list json) :
  forall t0,
    preserves (Counted t0) (scan_branches world py_int project_id branches).
Proof.
  induction branches as [| branch branches IH]; intros t0; cbn [scan_branches].
  - apply preserves_ret.
  - apply preserves_bind_lift. intros branch_name _.
    apply preserves_bind; [| intros _; apply IH].
    destruct (truthy branch_name); [| apply preserves_ret].
    apply preserves_try; [apply scan_pages_counted |].
    intros e. apply preserves_ret.
Qed.

Lemma scan_all_branches_counted t0 :
  preserves (Counted t0) (scan_all_branches world py_int project_id).
Proof.
  unfold scan_all_branches.
  apply preserves_bind; [apply counted_send | intros r].
  destruct (negb (status_code r =? 200)); [apply preserves_ret |].
  apply preserves_bind_lift. intros branches _.
  apply preserves_bind_lift. intros l _.
  apply scan_branches_counted.
Qed.

End CountedFiles.

(** X10. The all-branches file count is the size of a set of paths that are
    pairwise different and not empty, each of them the [path] of a [blob]
    entry in the answer to a tree request the scan made for this project: a
    path is counted once however many branches hold it, and nothing is
    counted that the server did not list. *)
Theorem counted_files_are_listed_blobs
    (world : request -> reply) (py_int : string -> option Z)
    (project_id : json) (t : trace) :
  exists o files found t',
    scan_all_branches world py_int project_id (ScanLocals [] false, t)
    = (o, (ScanLocals files found, t')) /\
    get_all_branches_file_stats world py_int project_id t
    = (Ok (match o with
           | Ok _ => (Z.of_nat (List.length files), found)
           | Raise _ => (0, false)
           end), t') /\
    distinct_keys files = true /\
    Forall (fun f => truthy f = true /\
                     listed_blob world project_id t' f) files.
Proof.
  destruct (scan_all_branches world py_int project_id (ScanLocals [] false, t))
    as [o [[files found] t']] eqn:E.
  exists o, files, found, t'. split; [reflexivity |].
  split.
  - unfold get_all_branches_file_stats.
    match goal with
    | |- context [scan_all_branches ?w ?i ?p ?s] =>
        replace (scan_all_branches w i p s)
          with (o, (ScanLocals files found, t')) by (symmetry; exact E)
    end.
    now destruct o.
  - assert (H0 : counted_files_invariant world project_id t
                   (ScanLocals [] false, t)).
    { split; [exists []; cbn [snd]; now rewrite app_nil_r |].
      split; [reflexivity | constructor]. }
    destruct (scan_all_branches_counted world py_int project_id t _ _ _ E H0)
      as (_ & Hd & Hf).
    now split.
Qed.

(** ** Project filter *)

Lemma in_filter_true (v : json) (names : list string) (b : bool) :
  in_filter v names = Ok b ->
  (b = true <-> exists s, v = JStr s /\ In s names).
Proof.
  unfold in_filter. destruct (hashable v); [| discriminate].
  intros [= <-]. split.
  - destruct v; try discriminate. intros H.
    apply existsb_exists in H. destruct H as (x & Hx & E).
    apply String.eqb_eq in E. subst x. now exists s.
  - intros (s & -> & Hs). apply existsb_exists. exists s.
    split; [exact Hs | apply String.eqb_refl].
Qed.

Lemma should_process_project_named (project : json) (names : list string) (b : bool) :
  should_process_project project (Some names) = Ok b ->
  (b = true <-> named_in names project).
Proof.
  unfold should_process_project, named_in.
  destruct (get project "name" (JStr "")) as [n |]; [| discriminate].
  destruct (get project "path" (JStr "")) as [p |]; [| discriminate].
  destruct (in_filter n names) as [bn |] eqn:En; [| discriminate].
  pose proof (in_filter_true _ _ _ En) as Hn.
  destruct bn.
  - intros [= <-]. split; [intros _ | reflexivity].
    destruct Hn as [Hn _]. destruct (Hn eq_refl) as (s & -> & Hs).
    exists s. split; [exact Hs | now left].
  - intros Ep. pose proof (in_filter_true _ _ _ Ep) as Hp.
    rewrite Hp. split.
    + intros (s & -> & Hs). exists s. split; [exact Hs | now right].
    + intros (s & Hs & [E | E]); inversion E; subst.
      * destruct Hn as [_ Hn]. discriminate Hn. now exists s.
      * now exists s.
Qed.

Lemma filter_projects_keeps (names : list string) (projects : list json) :
  forall kept,
    filter_projects projects (Some names) = Ok kept ->
    kept = filter (fun p => match should_process_project p (Some names) with
                            | Ok b => b
                            | Raise _ => false
                            end) projects /\
    forall p, In p kept <-> In p projects /\ named_in names p.
Proof.
  induction projects as [| q projects IH]; intros kept; cbn [filter_projects filter].
  - intros [= <-]. split; [reflexivity |]. intros p. cbn. tauto.
  - destruct (should_process_project q (Some names)) as [b |] eqn:Eq;
      [| discriminate].
    destruct (filter_projects projects (Some names)) as [l |]; [| discriminate].
    destruct (IH l eq_refl) as [Hl Hin].
    pose proof (should_process_project_named _ _ _ Eq) as Hq.
    intros [= <-]. split; [now rewrite <- Hl |].
    intros p. destruct b; cbn [In]; rewrite ?Hin.
    + split.
      * intros [-> | [Hp Hn]]; [split; [now left | now apply Hq] | tauto].
      * intros [[-> | Hp] Hn]; [now left | right; tauto].
    + split.
      * intros [Hp Hn]. tauto.
      * intros [[-> | Hp] Hn]; [| tauto].
        apply Hq in Hn. discriminate.
Qed.

(** X11. When the filter step of the main block returns, it has kept the
    whole list if there is no filter, and otherwise exactly the projects
    whose [name] or [path] is in the filter, in their order of discovery:
    nothing is added, reordered or repeated. *)
Theorem filter_keeps_named_projects
    (projects : list json) (project_filter : option (list string))
    (kept : list json) :
  apply_project_filter projects project_filter = Ok kept ->
  match project_filter with
  | None => kept = projects
  | Some names =>
      (exists keep, kept = filter keep projects) /\
      forall p, In p kept <-> In p projects /\ named_in names p
  end.
Proof.
  destruct project_filter as [names |]; cbn [apply_project_filter].
  - intros H. destruct (filter_projects_keeps _ _ _ H) as [Hk Hin].
    split; [eexists; exact Hk | exact Hin].
  - now intros [= <-].
Qed.

Lemma filter_keeps_named_projects_witness :
  (exists keep,
     [JDict [("name", JStr "alpha"); ("path", JStr "a")]]
     = filter keep [JDict [("name", JStr "alpha"); ("path", JStr "a")];
                    JDict [("name", JStr "beta"); ("path", JStr "b")]]) /\
  forall p,
    In p [JDict [("name", JStr "alpha"); ("path", JStr "a")]] <->
    In p [JDict [("name", JStr "alpha"); ("path", JStr "a")];
          JDict [("name", JStr "beta"); ("path", JStr "b")]] /\
    named_in ["alpha"] p.
Proof.
  exact (filter_keeps_named_projects
           [JDict [("name", JStr "alpha"); ("path", JStr "a")];
            JDict [("name", JStr "beta"); ("path", JStr "b")]]
           (Some ["alpha"])
           [JDict [("name", JStr "alpha"); ("path", JStr "a")]]
           eq_refl).
Defined.

(** ** Project list *)

Lemma add_name_spec (name : string) (names : list string) :
  NoDup names ->
  NoDup (add_name name names) /\
  forall n, In n (add_name name names) <-> In n names \/ n = name.
Proof.
  intros Hd. unfold add_name.
  destruct (existsb (String.eqb name) names) eqn:E.
  - split; [exact Hd |]. intros n. split; [tauto |].
    intros [H | ->]; [exact H |].
    apply existsb_exists in E. destruct E as (x & Hx & Ex).
    apply String.eqb_eq in Ex. now subst x.
  - split.
    + apply NoDup_app; [exact Hd | repeat constructor; intros [] |].
      intros x Hx [E0 | []]. subst x.
      assert (existsb (String.eqb name) names = true)
        by (apply existsb_exists; exists name; split;
            [exact Hx | apply String.eqb_refl]).
      congruence.
    + intros n. rewrite in_app_iff. cbn [In]. intuition congruence.
Qed.

Lemma filter_rows_selected (values : list json)
    (rows : list (list (string * option string))) :
  forall acc names,
    filter_rows values rows acc = Ok names ->
    NoDup acc ->
    NoDup names /\
    forall n, In n names <->
              In n acc \/
              (n <> "" /\ exists row, In row rows /\ selects values row n).
Proof.
  induction rows as [| row rows IH]; intros acc names; cbn [filter_rows].
  - intros [= <-] Hd. split; [exact Hd |]. intros n. split; [tauto |].
    intros [H | (_ & r & [] & _)]. exact H.
  - destruct (stripped row "Migrate Repo") as [mv |] eqn:Em; [| discriminate].
    destruct (stripped row "Name") as [pn |] eqn:En; [| discriminate].
    intros H Hd.
    destruct (andb (migrate_match values mv) (negb (String.eqb pn ""))) eqn:Ec.
    + apply andb_true_iff in Ec. destruct Ec as [Hm Hne].
      apply negb_true_iff, String.eqb_neq in Hne.
      destruct (add_name_spec pn acc Hd) as [Hd' Hin'].
      destruct (IH _ _ H Hd') as [Hn Hin]. split; [exact Hn |].
      intros n. rewrite Hin, Hin'. split.
      * intros [[Ha | ->] | (Hn0 & r & Hr & Hs)].
        -- now left.
        -- right. split; [exact Hne |]. exists row. split; [now left |].
           now exists mv.
        -- right. split; [exact Hn0 |]. exists r. split; [now right | exact Hs].
      * intros [Ha | (Hn0 & r & [<- | Hr] & Hs)].
        -- left. now left.
        -- destruct Hs as (mv' & Em' & _ & En'). left. right. congruence.
        -- right. split; [exact Hn0 |]. now exists r.
    + destruct (IH _ _ H Hd) as [Hn Hin]. split; [exact Hn |].
      intros n. rewrite Hin. split.
      * intros [Ha | (Hn0 & r & Hr & Hs)]; [now left |].
        right. split; [exact Hn0 |]. exists r. split; [now right | exact Hs].
      * intros [Ha | (Hn0 & r & [<- | Hr] & Hs)]; [now left | |].
        -- exfalso. destruct Hs as (mv' & Em' & Hm' & En').
           rewrite Em in Em'. rewrite En in En'.
           inversion Em'; inversion En'; subst mv' n.
           rewrite Hm' in Ec. cbn [andb] in Ec.
           apply negb_false_iff, String.eqb_eq in Ec. contradiction.
        -- right. split; [exact Hn0 |]. now exists r.
Qed.

(** X12. A filter that [load_project_filter] returns comes from a readable
    table with both columns; it holds, each once, exactly the stripped
    [Name] cells that are not empty of the rows whose stripped
    [Migrate Repo] cell is one of the configured values. *)
Theorem load_project_filter_selects_marked_rows
    (PROJECT_LIST_FILE : json) (MIGRATE_REPO_VALUES : list json)
    (file : filter_file) (names : list string) :
  load_project_filter PROJECT_LIST_FILE MIGRATE_REPO_VALUES file = Ok (Some names) ->
  exists fieldnames rows,
    file = FilterTable (Some fieldnames) rows /\
    In "Migrate Repo" fieldnames /\ In "Name" fieldnames /\
    NoDup names /\
    forall n, In n names <->
              n <> "" /\ exists row, In row rows /\
                                     selects MIGRATE_REPO_VALUES row n.
Proof.
  unfold load_project_filter.
  destruct (negb (truthy PROJECT_LIST_FILE)); [discriminate |].
  destruct (as_str PROJECT_LIST_FILE TypeError); [| discriminate].
  destruct file as [| | [fieldnames |] rows]; try discriminate.
  destruct (existsb (String.eqb "Migrate Repo") fieldnames) eqn:E1;
    [| discriminate].
  destruct (existsb (String.eqb "Name") fieldnames) eqn:E2; [| discriminate].
  cbn [negb orb].
  destruct (filter_rows MIGRATE_REPO_VALUES rows []) as [l |] eqn:Ef;
    [| discriminate].
  destruct (List.length l =? 0)%nat; [discriminate |].
  intros [= <-].
  destruct (filter_rows_selected _ _ _ _ Ef (NoDup_nil _)) as [Hd Hin].
  exists fieldnames, rows. split; [reflexivity |].
  apply existsb_exists in E1. destruct E1 as (x1 & H1 & X1).
  apply String.eqb_eq in X1. subst x1.
  apply existsb_exists in E2. destruct E2 as (x2 & H2 & X2).
  apply String.eqb_eq in X2. subst x2.
  repeat split; try assumption.
  - apply Hin in H. destruct H as [[] | [H _]]. exact H.
  - apply Hin in H. destruct H as [[] | [_ H]]. exact H.
  - intros [Hn Hr]. apply Hin. right. now split.
Qed.

Lemma load_project_filter_selects_marked_rows_witness :
  exists fieldnames rows,
    FilterTable (Some ["Name"; "Migrate Repo"])
      [[("Name", Some " alpha "); ("Migrate Repo", Some "Migrate")];
       [("Name", Some "beta"); ("Migrate Repo", Some "No")];
       [("Name", Some "alpha"); ("Migrate Repo", Some "Migrate")]]
    = FilterTable (Some fieldnames) rows /\
    In "Migrate Repo" fieldnames /\ In "Name" fieldnames /\
    NoDup ["alpha"] /\
    forall n, In n ["alpha"] <->
              n <> "" /\ exists row, In row rows /\
                                     selects [JStr "Migrate"] row n.
Proof.
  exact (load_project_filter_selects_marked_rows
           (JStr "projects.csv") [JStr "Migrate"]
           (FilterTable (Some ["Name"; "Migrate Repo"])
              [[("Name", Some " alpha "); ("Migrate Repo", Some "Migrate")];
               [("Name", Some "beta"); ("Migrate Repo", Some "No")];
               [("Name", Some "alpha"); ("Migrate Repo", Some "Migrate")]])
           ["alpha"] eq_refl).
Defined.

(** ** Discovery of projects *)

Lemma assoc_set_same {A : Type} (k : string) (v : A) (d : list (string * A)) :
  assoc k (assoc_set k v d) = Some v.
Proof.
  induction d as [| [k' v'] d IH]; cbn [assoc_set assoc].
  - now rewrite String.eqb_refl.
  - destruct (String.eqb k k') eqn:E; cbn [assoc].
    + now rewrite String.eqb_refl.
    + now rewrite E.
Qed.

Lemma assoc_set_other {A : Type} (k k0 : string) (v : A) (d : list (string * A)) :
  k0 <> k -> assoc k0 (assoc_set k v d) = assoc k0 d.
Proof.
  intros Hne. induction d as [| [k' v'] d IH]; cbn [assoc_set assoc].
  - apply String.eqb_neq in Hne. now rewrite Hne.
  - destruct (String.eqb k k') eqn:E; cbn [assoc].
    + apply String.eqb_eq in E. subst k'.
      apply String.eqb_neq in Hne. now rewrite Hne.
    + now rewrite IH.
Qed.

Lemma tag_one (group_name group_path original project1 project : json) :
  set_item original "_group_name" group_name = Ok project1 ->
  set_item project1 "_group_path" group_path = Ok project ->
  tagged_with group_name group_path original project.
Proof.
  destruct original as [| | | | | d]; try discriminate.
  cbn [set_item]. intros [= <-]. cbn [set_item]. intros [= <-].
  split; [exact I |]. cbn [item]. split; [| split].
  - rewrite assoc_set_other by discriminate. now rewrite assoc_set_same.
  - now rewrite assoc_set_same.
  - intros key H1 H2. now rewrite !assoc_set_other by assumption.
Qed.

Lemma tag_projects_tagged (group_name group_path : json) (projects : list json) :
  forall tagged,
    Details.tag_projects group_name group_path projects = Ok tagged ->
    Forall2 (tagged_with group_name group_path) projects tagged.
Proof.
  induction projects as [| original projects IH]; intros tagged;
    cbn [Details.tag_projects].
  - intros [= <-]. constructor.
  - unfold and_then.
    destruct (set_item original "_group_name" group_name) as [p1 |] eqn:E1;
      [| discriminate].
    destruct (set_item p1 "_group_path" group_path) as [p2 |] eqn:E2;
      [| discriminate].
    destruct (Details.tag_projects group_name group_path projects) as [l |];
      [| discriminate].
    intros [= <-]. constructor; [exact (tag_one _ _ _ _ _ E1 E2) | now apply IH].
Qed.

(** X13. When the tagging loop returns, the list has the same projects in
    the same order, each an object that now holds the group's name under
    [_group_name] and its full path under [_group_path], with every other
    key as the listing gave it. *)
Theorem tag_projects_sets_group_fields
    (group_name group_path : json) (projects tagged : list json) :
  Details.tag_projects group_name group_path projects = Ok tagged ->
  List.length tagged = List.length projects /\
  Forall2 (tagged_with group_name group_path) projects tagged.
Proof.
  intros H. pose proof (tag_projects_tagged _ _ _ _ H) as HF.
  split; [symmetry; exact (Forall2_length HF) | exact HF].
Qed.

Lemma tag_projects_sets_group_fields_witness :
  List.length [JDict [("id", JInt 7); ("_group_name", JStr "g");
                      ("_group_path", JStr "top/g")]]
  = List.length [JDict [("id", JInt 7)]] /\
  Forall2 (tagged_with (JStr "g") (JStr "top/g"))
    [JDict [("id", JInt 7)]]
    [JDict [("id", JInt 7); ("_group_name", JStr "g");
            ("_group_path", JStr "top/g")]].
Proof.
  exact (tag_projects_sets_group_fields (JStr "g") (JStr "top/g")
           [JDict [("id", JInt 7)]]
           [JDict [("id", JInt 7); ("_group_name", JStr "g");
                   ("_group_path", JStr "top/g")]]
           eq_refl).
Defined.

Lemma Forall2_In_r {A B : Type} (R : A -> B -> Prop) (l : list A) (l' : list B) :
  Forall2 R l l' -> forall y, In y l' -> exists x, In x l /\ R x y.
Proof.
  induction 1 as [| x y l l' Hxy HF IH]; intros z Hz; [destruct Hz |].
  destruct Hz as [<- | Hz].
  - exists x. split; [now left | exact Hxy].
  - destruct (IH z Hz) as (x' & Hx' & Hr). exists x'. split; [now right | exact Hr].
Qed.

Lemma collect_projects_discovers (world : request -> reply) (fuel : nat)
    (all_groups : list json) (groups : list json) :
  forall all_projects t result t',
    (forall g, In g groups -> In g all_groups) ->
    Details.collect_projects world fuel groups all_projects t
    = Some (Ok result, t') ->
    exists added extra,
      result = all_projects ++ added /\ t' = t ++ extra /\
      Forall (discovered_in world fuel all_groups) added /\
      Forall (lists_group_projects all_groups) extra.
Proof.
  induction groups as [| group groups IH]; intros acc t result t' Hsub;
    cbn [Details.collect_projects].
  - intros [= <- <-]. exists [], []. rewrite !app_nil_r.
    repeat split; constructor.
  - destruct (item group "name") as [group_name |] eqn:En; [| discriminate].
    destruct (item group "full_path") as [group_path |] eqn:Ep; [| discriminate].
    destruct (fetch_all_projects world fuel group_path t) as [[listing t1] |] eqn:Ef;
      [| discriminate].
    assert (Hlog : exists extra1,
               t1 = t ++ extra1 /\
               Forall (lists_group_projects all_groups) extra1).
    { destruct (paginate_log _ _ _ _ _ _ _ _ Ef) as (k & _ & ->).
      eexists. split; [reflexivity |].
      unfold page_requests. apply Forall_forall. intros rq Hrq.
      apply in_map_iff in Hrq. destruct Hrq as (i & <- & _).
      exists group, group_path, (1 + Z.of_nat i).
      split; [apply Hsub; now left | now split]. }
    destruct Hlog as (extra1 & -> & Hextra1).
    assert (Hsub' : forall g, In g groups -> In g all_groups)
      by (intros g Hg; apply Hsub; now right).
    destruct listing as [projects |].
    + destruct (Details.tag_projects group_name group_path projects)
        as [tagged |] eqn:Et; [| discriminate].
      intros H. destruct (IH _ _ _ _ Hsub' H)
        as (added & extra & -> & -> & Hadded & Hextra).
      exists (tagged ++ added), (extra1 ++ extra).
      rewrite !app_assoc. repeat split.
      * apply Forall_app. split; [| exact Hadded].
        apply Forall_forall. intros p Hp.
        destruct (Forall2_In_r _ _ _ (tag_projects_tagged _ _ _ _ Et) p Hp)
          as (original & Ho & Htag).
        exists group, group_name, group_path, projects, original, t, (t ++ extra1).
        repeat split; try assumption; try apply Htag.
        apply Hsub. now left.
      * apply Forall_app. now split.
    + intros H. destruct (IH _ _ _ _ Hsub' H)
        as (added & extra & -> & -> & Hadded & Hextra).
      exists added, (extra1 ++ extra). rewrite !app_assoc.
      repeat split; [exact Hadded | apply Forall_app; now split].
Qed.

(** X14. When the discovery loop returns a list, every project in it was
    listed for one of the groups and carries that group's name and full
    path, and the loop has only asked for pages of 100 of the project
    listings of these groups. *)
Theorem discovered_projects_carry_their_group
    (world : request -> reply) (fuel : nat) (groups : list json)
    (t : trace) (all_projects : list json) (t' : trace) :
  Details.collect_projects world fuel groups [] t = Some (Ok all_projects, t') ->
  Forall (discovered_in world fuel groups) all_projects /\
  exists extra,
    t' = t ++ extra /\ Forall (lists_group_projects groups) extra.
Proof.
  intros H.
  destruct (collect_projects_discovers world fuel groups groups [] t _ _
              (fun g Hg => Hg) H)
    as (added & extra & -> & -> & Hadded & Hextra).
  split; [exact Hadded | now exists extra].
Qed.

Lemma discovered_projects_carry_their_group_witness :
  Forall (discovered_in two_pages 3 [sample_group "g"])
    [JDict [("id", JInt 7); ("name", JStr "a"); ("path", JStr "a");
            ("full_path", JStr "a"); ("_group_name", JStr "g");
            ("_group_path", JStr "g")];
     JDict [("id", JInt 7); ("name", JStr "b"); ("path", JStr "b");
            ("full_path", JStr "b"); ("_group_name", JStr "g");
            ("_group_path", JStr "g")]] /\
  exists extra,
    [group_projects_url (JStr "g") 100 1; group_projects_url (JStr "g") 100 2]
    = [] ++ extra /\
    Forall (lists_group_projects [sample_group "g"]) extra.
Proof.
  apply (discovered_projects_carry_their_group two_pages 3 [sample_group "g"] []).
  vm_compute. reflexivity.
Defined.

(** ** The report file *)

Lemma dict_to_list_of_literal (fieldnames : list string) (r : row) :
  map fst r = fieldnames ->
  exists line,
    dict_to_list fieldnames r = Ok line /\
    List.length line = List.length fieldnames.
Proof.
  intros Hk. unfold dict_to_list.
  assert (Hall : forallb (fun kv => existsb (String.eqb (fst kv)) fieldnames) r
                 = true).
  { apply forallb_forall. intros kv Hkv. apply existsb_exists.
    exists (fst kv). split; [| apply String.eqb_refl].
    rewrite <- Hk. now apply in_map. }
  rewrite Hall. eexists. split; [reflexivity |]. now rewrite length_map.
Qed.

Lemma writerows_of_literals (fieldnames : list string) (stats : list row) :
  Forall (fun r => map fst r = fieldnames) stats ->
  exists lines,
    writerows fieldnames stats = (lines, false) /\
    List.length lines = List.length stats /\
    Forall (fun line => List.length line = List.length fieldnames) lines.
Proof.
  induction 1 as [| r stats Hr _ IH]; cbn [writerows].
  - exists []. repeat split. constructor.
  - destruct (dict_to_list_of_literal _ _ Hr) as (line & -> & Hline).
    destruct IH as (lines & -> & Hlen & Hall).
    exists (line :: lines). cbn [List.length]. repeat split; [lia |].
    now constructor.
Qed.

Lemma write_report_of_literals (fieldnames : list string) (stats : list row)
    (t : trace) :
  Forall (fun r => map fst r = fieldnames) stats ->
  exit_code (write_report fieldnames stats t) = 0 /\
  issued (write_report fieldnames stats t) = t /\
  match output_file (write_report fieldnames stats t) with
  | None => stats = []
  | Some (header, lines) =>
      header = fieldnames /\ lines <> [] /\
      List.length lines = List.length stats /\
      Forall (fun line => List.length line = List.length fieldnames) lines
  end.
Proof.
  intros H. unfold write_report.
  destruct stats as [| r stats]; [now repeat split |].
  destruct (writerows_of_literals _ _ H) as (lines & -> & Hlen & Hall).
  cbn [exit_code issued output_file]. repeat split; try assumption.
  intros ->. discriminate Hlen.
Qed.

Lemma process_projects_rows (world : request -> reply)
    (py_int : string -> option Z) (projects : list json) :
  forall stats t rows t',
    Details.process_projects world py_int projects stats t = (Ok rows, t') ->
    Forall (fun r => map fst r = Details.fieldnames) stats ->
    Forall (fun r => map fst r = Details.fieldnames) rows /\
    (List.length rows <= List.length stats + List.length projects)%nat.
Proof.
  induction projects as [| project projects IH]; intros stats t rows t';
    cbn [Details.process_projects].
  - intros [= <- <-] H. split; [exact H | lia].
  - unfold bind at 1, lift at 1.
    destruct (item project "id") as [project_id |]; [| discriminate].
    unfold bind at 1, lift at 1.
    destruct (item project "name") as [project_name |]; [| discriminate].
    unfold bind at 1, try, bind at 1, ret.
    destruct (Details.project_stats world py_int project project_id t)
      as [[r | e] t1] eqn:Er.
    + intros E H.
      destruct (project_stats_inversion _ _ _ _ _ _ _ Er)
        as (ia & db & c & rs & mr & t2 & t3 & _ & Hb).
      destruct (build_project_stats_columns _ _ _ _ _ _ _ Hb) as [Hk _].
      destruct (IH _ _ _ _ E) as [Hrows Hlen].
      * apply Forall_app. split; [exact H | now constructor].
      * split; [exact Hrows |]. rewrite length_app in Hlen.
        cbn [List.length] in *. lia.
    + intros E H. destruct (IH _ _ _ _ E H) as [Hrows Hlen].
      split; [exact Hrows | cbn [List.length]; lia].
Qed.

(** X15. Whatever the server answers, a run of gitlab-details.py that ends
    does so with status 0 or 1; if it leaves a report, its status is 0, the
    header is the fixed list of 28 columns, there is at least one line and
    every line has 28 cells: the writer never meets a record it must
    refuse. *)
Theorem details_report_is_complete
    (world : request -> reply) (py_int : string -> option Z) (fuel : nat)
    (project_filter : option (list string)) (r : run) :
  Details.main world py_int fuel project_filter = Some r ->
  (exit_code r = 0 \/ exit_code r = 1) /\
  match output_file r with
  | None => True
  | Some (header, lines) =>
      exit_code r = 0 /\ header = Details.fieldnames /\ lines <> [] /\
      Forall (fun line => List.length line = 28%nat) lines
  end.
Proof.
  unfold Details.main.
  destruct (fetch_all_groups world fuel []) as [[[groups |] t] |];
    [| intros [= <-]; cbn; tauto | discriminate].
  destruct groups as [| g groups]; [intros [= <-]; cbn; tauto |].
  destruct (Details.collect_projects world fuel (g :: groups) [] t)
    as [[[all_projects |] t1] |]; [| intros [= <-]; cbn; tauto | discriminate].
  destruct (apply_project_filter all_projects project_filter)
    as [projects |]; [| intros [= <-]; cbn; tauto].
  destruct projects as [| p projects]; [intros [= <-]; cbn; tauto |].
  destruct (Details.process_projects world py_int (p :: projects) [] t1)
    as [[stats |] t2] eqn:Ep; [| intros [= <-]; cbn; tauto].
  intros [= <-].
  destruct (process_projects_rows _ _ _ _ _ _ _ Ep (Forall_nil _)) as [Hrows _].
  destruct (write_report_of_literals Details.fieldnames stats t2 Hrows)
    as (He & _ & Ho).
  split; [now left |].
  destruct (output_file (write_report Details.fieldnames stats t2))
    as [[header lines] |]; [| exact I].
  destruct Ho as (Hh & Hne & _ & Hall). now repeat split.
Qed.

Lemma details_report_is_complete_witness :
  exists r,
    Details.main reporting_server int_of_digits 3 None = Some r /\
    output_file r <> None /\
    (exit_code r = 0 \/ exit_code r = 1) /\
    match output_file r with
    | None => True
    | Some (header, lines) =>
        exit_code r = 0 /\ header = Details.fieldnames /\ lines <> [] /\
        Forall (fun line => List.length line = 28%nat) lines
    end.
Proof.
  destruct (Details.main reporting_server int_of_digits 3 None) as [r |] eqn:E;
    [| vm_compute in E; discriminate E].
  exists r. split; [reflexivity |]. split.
  - vm_compute in E. inversion E. discriminate.
  - exact (details_report_is_complete reporting_server int_of_digits 3 None r E).
Defined.

Lemma group_stats_columns (world : request -> reply)
    (py_int : string -> option Z) (group group_id : json) (t : trace)
    (r : row) (t' : trace) :
  Groups.group_stats world py_int group group_id t = (Ok r, t') ->
  map fst r = Groups.fieldnames.
Proof.
  unfold Groups.group_stats, bind, lift, ret. intros E.
  destruct (get_group_project_count world py_int group_id t)
    as [[pc |] t1]; [| discriminate].
  destruct (get_subgroup_count world py_int group_id t1)
    as [[sc |] t2]; [| discriminate].
  destruct (get_group_member_count world py_int group_id t2)
    as [[mc |] t3]; [| discriminate].
  repeat match type of E with
         | match ?x with _ => _ end = _ => destruct x; [| discriminate]
         end.
  inversion E. reflexivity.
Qed.

Lemma process_groups_rows (world : request -> reply)
    (py_int : string -> option Z) (groups : list json) :
  forall stats t rows t',
    Groups.process_groups world py_int groups stats t = (Ok rows, t') ->
    Forall (fun r => map fst r = Groups.fieldnames) stats ->
    Forall (fun r => map fst r = Groups.fieldnames) rows /\
    (List.length rows <= List.length stats + List.length groups)%nat.
Proof.
  induction groups as [| group groups IH]; intros stats t rows t';
    cbn [Groups.process_groups].
  - intros [= <- <-] H. split; [exact H | lia].
  - unfold bind at 1, lift at 1.
    destruct (item group "id") as [group_id |]; [| discriminate].
    unfold bind at 1, lift at 1.
    destruct (item group "name") as [group_name |]; [| discriminate].
    unfold bind at 1, lift at 1.
    destruct (item group "full_path") as [group_path |]; [| discriminate].
    unfold bind at 1, try, bind at 1, ret.
    destruct (Groups.group_stats world py_int group group_id t)
      as [[r | e] t1] eqn:Er.
    + intros E H.
      pose proof (group_stats_columns _ _ _ _ _ _ _ Er) as Hk.
      destruct (IH _ _ _ _ E) as [Hrows Hlen].
      * apply Forall_app. split; [exact H | now constructor].
      * split; [exact Hrows |]. rewrite length_app in Hlen.
        cbn [List.length] in *. lia.
    + intros E H. destruct (IH _ _ _ _ E H) as [Hrows Hlen].
      split; [exact Hrows | cbn [List.length]; lia].
Qed.

(** X16. The same for gitlab-groups.py: a run that ends does so with status
    0 or 1; a report is only left with status 0, has the fixed header of 14
    columns, at least one line and at most one line for each group listed,
    and every line has 14 cells. *)
Theorem groups_report_is_complete
    (world : request -> reply) (py_int : string -> option Z) (fuel : nat)
    (r : run) :
  Groups.main world py_int fuel = Some r ->
  (exit_code r = 0 \/ exit_code r = 1) /\
  match output_file r with
  | None => True
  | Some (header, lines) =>
      exit_code r = 0 /\ header = Groups.fieldnames /\ lines <> [] /\
      Forall (fun line => List.length line = 14%nat) lines /\
      exists groups t,
        fetch_all_groups world fuel [] = Some (Some groups, t) /\
        (List.length lines <= List.length groups)%nat
  end.
Proof.
  unfold Groups.main.
  destruct (fetch_all_groups world fuel []) as [[[groups |] t] |];
    [| intros [= <-]; cbn; tauto | discriminate].
  destruct groups as [| g groups]; [intros [= <-]; cbn; tauto |].
  destruct (Groups.process_groups world py_int (g :: groups) [] t)
    as [[stats |] t2] eqn:Ep; [| intros [= <-]; cbn; tauto].
  intros [= <-].
  destruct (process_groups_rows _ _ _ _ _ _ _ Ep (Forall_nil _)) as [Hrows Hn].
  destruct (write_report_of_literals Groups.fieldnames stats t2 Hrows)
    as (He & _ & Ho).
  split; [now left |].
  destruct (output_file (write_report Groups.fieldnames stats t2))
    as [[header lines] |]; [| exact I].
  destruct Ho as (Hh & Hne & Hlen & Hall).
  repeat split; try assumption.
  exists (g :: groups), t. split; [reflexivity |].
  rewrite Hlen. cbn [List.length] in Hn. exact Hn.
Qed.

Lemma groups_report_is_complete_witness :
  exists r,
    Groups.main reporting_server int_of_digits 3 = Some r /\
    output_file r <> None /\
    (exit_code r = 0 \/ exit_code r = 1) /\
    match output_file r with
    | None => True
    | Some (header, lines) =>
        exit_code r = 0 /\ header = Groups.fieldnames /\ lines <> [] /\
        Forall (fun line => List.length line = 14%nat) lines /\
        exists groups t,
          fetch_all_groups reporting_server 3 [] = Some (Some groups, t) /\
          (List.length lines <= List.length groups)%nat
    end.
Proof.
  destruct (Groups.main reporting_server int_of_digits 3) as [r |] eqn:E;
    [| vm_compute in E; discriminate E].
  exists r. split; [reflexivity |]. split.
  - vm_compute in E. inversion E. discriminate.
  - exact (groups_report_is_complete reporting_server int_of_digits 3 r E).
Defined.

(** ** Every complete group gets its record *)

Lemma sized_bytes_to_mb (d : list (string * json)) (key : string) :
  sized (assoc key d) ->
  exists c,
    bytes_to_mb (match assoc key d with Some x => x | None => JInt 0 end) = Ok c.
Proof.
  destruct (assoc key d) as [[| b | z | s | l | d'] |]; cbn [sized];
    try contradiction.
  - intros _. eexists. reflexivity.
  - intros _. destruct b; eexists; reflexivity.
  - intros Hz. eexists. exact (bytes_to_mb_exact z Hz).
  - intros _. eexists. reflexivity.
Qed.

Lemma count_via_returns (world : request -> reply)
    (py_int : string -> option Z) (target : endpoint) :
  never_raises (count_via world py_int target).
Proof. unfold count_via. apply try_constant_returns. Qed.

Lemma group_stats_returns (world : request -> reply)
    (py_int : string -> option Z) (group group_id : json) (t : trace) :
  complete_group group -> item group "id" = Ok group_id ->
  exists r t',
    Groups.group_stats world py_int group group_id t = (Ok r, t') /\
    assoc "id" r = Some (CJson group_id).
Proof.
  intros (d & -> & Hid & Hname & Hpath & Hfull & Hstats) Eid.
  unfold Groups.group_stats, get_group_project_count, get_subgroup_count,
    get_group_member_count.
  unfold bind at 1.
  destruct (count_via_returns world py_int (GroupProjectsCount group_id) t)
    as (pc & t1 & ->).
  unfold bind at 1.
  destruct (count_via_returns world py_int (Subgroups group_id) t1)
    as (sc & t2 & ->).
  unfold bind at 1.
  destruct (count_via_returns world py_int (Members group_id) t2)
    as (mc & t3 & ->).
  unfold bind, lift, ret. cbn [get item] in *.
  rewrite Eid.
  destruct (assoc "name" d) as [name |]; [| congruence].
  destruct (assoc "path" d) as [path |]; [| congruence].
  destruct (assoc "full_path" d) as [full_path |]; [| congruence].
  destruct (assoc "statistics" d) as [[| b | z | s | l | statistics] |];
    try contradiction.
  - destruct Hstats as [Hs Hr]. cbn [get].
    destruct (sized_bytes_to_mb _ _ Hs) as (cs & ->).
    destruct (sized_bytes_to_mb _ _ Hr) as (cr & ->).
    do 2 eexists. split; reflexivity.
  - do 2 eexists. split; reflexivity.
Qed.

Lemma process_groups_complete (world : request -> reply)
    (py_int : string -> option Z) (groups : list json) :
  Forall complete_group groups ->
  forall stats t,
    exists rows t',
      Groups.process_groups world py_int groups stats t
      = (Ok (stats ++ rows), t') /\
      Forall2 record_of_group groups rows.
Proof.
  induction 1 as [| group groups Hg _ IH]; intros stats t;
    cbn [Groups.process_groups].
  - exists [], t. rewrite app_nil_r. split; [reflexivity | constructor].
  - pose proof Hg as (d & -> & Hid & Hname & _ & Hfull & _).
    unfold bind at 1, lift at 1. cbn [item].
    destruct (assoc "id" d) as [id |] eqn:Eid; [| congruence].
    unfold bind at 1, lift at 1.
    destruct (assoc "name" d) as [name |] eqn:En; [| congruence].
    unfold bind at 1, lift at 1.
    destruct (assoc "full_path" d) as [full_path |] eqn:Ef; [| congruence].
    unfold bind at 1, try, bind at 1, ret.
    destruct (group_stats_returns world py_int (JDict d) id t Hg)
      as (r & t1 & -> & Hr).
    { cbn [item]. now rewrite Eid. }
    destruct (IH (stats ++ [r]) t1) as (rows & t' & -> & Hrows).
    exists (r :: rows), t'. rewrite <- app_assoc. split; [reflexivity |].
    constructor; [| exact Hrows].
    exists id. split; [cbn [item]; now rewrite Eid | exact Hr].
Qed.

(** X17. In gitlab-groups.py no answer of the server costs a group its
    record: for a list of group entries that each have [id], [name], [path]
    and [full_path] and sizes that are absent, null, truth values or
    integers below [2^53] in magnitude, the group loop returns one record
    for each group, in the order of the list, whatever the count requests
    return. *)
Theorem every_complete_group_gets_a_record
    (world : request -> reply) (py_int : string -> option Z)
    (groups : list json) (t : trace) :
  Forall complete_group groups ->
  exists rows t',
    Groups.process_groups world py_int groups [] t = (Ok rows, t') /\
    Forall2 record_of_group groups rows.
Proof.
  intros H. exact (process_groups_complete world py_int groups H [] t).
Qed.

Lemma every_complete_group_gets_a_record_witness :
  exists rows t',
    Groups.process_groups second_page_down int_of_digits
      [sample_group "a"; sample_group "b"] [] [] = (Ok rows, t') /\
    Forall2 record_of_group [sample_group "a"; sample_group "b"] rows.
Proof.
  apply (every_complete_group_gets_a_record second_page_down int_of_digits
           [sample_group "a"; sample_group "b"] []).
  repeat constructor;
    (eexists; split; [reflexivity |]; cbn; repeat split; discriminate).
Defined.

(** ** A failure in the statistics block *)

(** X18. In [get_repository_stats_via_api] an exception before the lookups
    abandons them all: when the statistics request raises or its body
    cannot be decoded, the function returns the initial dictionary after
    that one request; when the reported storage size is no number, it
    returns the initial dictionary with only the three sizes stored, every
    count still 0, again after that one request. *)
Theorem statistics_failure_skips_the_lookups
    (world : request -> reply) (py_int : string -> option Z)
    (project_id : json) (t : trace) :
  (forall e,
     world (Request GET (ProjectStatistics project_id)) = Failed e ->
     get_repository_stats_via_api world py_int project_id t
     = (Ok initial_stats, t ++ [Request GET (ProjectStatistics project_id)])) /\
  (forall response,
     world (Request GET (ProjectStatistics project_id)) = Replied response ->
     status_code response = 200 -> body response = None ->
     get_repository_stats_via_api world py_int project_id t
     = (Ok initial_stats, t ++ [Request GET (ProjectStatistics project_id)])) /\
  (forall response project_data statistics r s c e,
     world (Request GET (ProjectStatistics project_id)) = Replied response ->
     status_code response = 200 -> body response = Some project_data ->
     get project_data "statistics" (JDict []) = Ok statistics ->
     truthy statistics = true ->
     get statistics "repository_size" (JInt 0) = Ok r ->
     get statistics "storage_size" (JInt 0) = Ok s ->
     get statistics "commit_count" (JInt 0) = Ok c ->
     as_int s = Raise e ->
     get_repository_stats_via_api world py_int project_id t
     = (Ok (set_sizes r s c initial_stats),
        t ++ [Request GET (ProjectStatistics project_id)])).
Proof.
  split; [| split].
  - intros e Hw.
    unfold get_repository_stats_via_api, collect_stats, bind, zoom, send.
    cbn [fst snd]. now rewrite Hw.
  - intros response Hw Hs Hb.
    unfold get_repository_stats_via_api, collect_stats, bind, zoom, send,
      read_statistics, lift, json_of.
    cbn [fst snd]. rewrite Hw, Hs, Hb. reflexivity.
  - intros response project_data statistics r s c e Hw Hs Hb Hst Ht Hr Hss Hc He.
    unfold get_repository_stats_via_api, collect_stats.
    unfold bind at 1, zoom, send. cbn [fst snd]. rewrite Hw.
    unfold read_statistics. rewrite Hs, Z.eqb_refl.
    unfold bind, lift, json_of, update, gt. rewrite Hb. cbv beta iota.
    rewrite Hst. cbv beta iota. rewrite Ht, Hr. cbv beta iota.
    rewrite Hss. cbv beta iota. rewrite Hc. cbn [fst snd]. cbv beta iota.
    rewrite He. reflexivity.
Qed.

(** ** Contributors *)

Lemma sum_commits_total (contributors : list json) :
  forall total n,
    Details.sum_commits contributors total = Ok n ->
    n = total + fold_right Z.add 0 (map commits_of contributors).
Proof.
  induction contributors as [| c contributors IH]; intros total n;
    cbn [Details.sum_commits map fold_right].
  - intros [= <-]. lia.
  - unfold and_then.
    destruct (get c "commits" (JInt 0)) as [v |] eqn:Eg; [| discriminate].
    destruct (as_int v) as [k |] eqn:Ea; [| discriminate].
    intros H. apply IH in H.
    assert (commits_of c = k) by (unfold commits_of; now rewrite Eg, Ea).
    lia.
Qed.

(** X19. When the contributors lookup of the main block returns, it has made
    exactly one request; for a status other than 200 it returns 0
    contributors and 0 commits, and for a 200 it returns the length of the
    payload and the sum of the [commits] entries of its elements, an
    element without the entry adding 0. *)
Theorem contributor_stats_totals
    (world : request -> reply) (project_id : json) (t : trace)
    (n total : Z) (t' : trace) :
  Details.contributor_stats world project_id t = (Ok (n, total), t') ->
  t' = t ++ [Request GET (Contributors project_id)] /\
  exists response,
    world (Request GET (Contributors project_id)) = Replied response /\
    if status_code response =? 200
    then exists contributors l,
           json_of response = Ok contributors /\
           iter contributors = Ok l /\ len contributors = Ok n /\
           total = fold_right Z.add 0 (map commits_of l)
    else n = 0 /\ total = 0.
Proof.
  unfold Details.contributor_stats, bind, send, lift, ret.
  destruct (world (Request GET (Contributors project_id))) as [r |];
    [| discriminate].
  destruct (status_code r =? 200) eqn:Es.
  - destruct (json_of r) as [v |] eqn:Ej; [| discriminate].
    destruct (iter v) as [l |] eqn:Ei; [| discriminate].
    destruct (Details.sum_commits l 0) as [k |] eqn:Ek; [| discriminate].
    destruct (len v) as [m |] eqn:El; [| discriminate].
    intros [= <- <- <-]. split; [reflexivity |].
    exists r. split; [reflexivity |]. rewrite Es.
    exists v, l. repeat split; try assumption.
    apply sum_commits_total in Ek. lia.
  - intros [= <- <- <-]. split; [reflexivity |].
    exists r. split; [reflexivity |]. rewrite Es. now split.
Qed.

Lemma contributor_stats_totals_witness :
  [] ++ [Request GET (Contributors (JInt 1))]
  = [] ++ [Request GET (Contributors (JInt 1))] /\
  exists response,
    contributors_server (Request GET (Contributors (JInt 1))) = Replied response /\
    if status_code response =? 200
    then exists contributors l,
           json_of response = Ok contributors /\
           iter contributors = Ok l /\ len contributors = Ok 3 /\
           7 = fold_right Z.add 0 (map commits_of l)
    else 3 = 0 /\ 7 = 0.
Proof.
  exact (contributor_stats_totals contributors_server (JInt 1) []
           3 7 ([] ++ [Request GET (Contributors (JInt 1))]) eq_refl).
Defined.

(** ** Large-file extensions *)

Lemma list_ascii_of_string_app (a b : string) :
  list_ascii_of_string (a ++ b)%string
  = list_ascii_of_string a ++ list_ascii_of_string b.
Proof.
  induction a as [| c a IH]; [reflexivity |].
  cbn [String.append list_ascii_of_string app]. now rewrite IH.
Qed.

Lemma prefix_list_app (p l : list ascii) : prefix_list p (p ++ l) = true.
Proof.
  induction p as [| c p IH]; [reflexivity |].
  cbn [prefix_list app]. now rewrite Ascii.eqb_refl, IH.
Qed.

Lemma lower_list_three (c c1 c2 : ascii) (l : list ascii) :
  lower_list (c :: c1 :: c2 :: l)
  = if dotted_capital_i c c1
    then "i"%char :: "204"%char :: "135"%char :: lower_list (c2 :: l)
    else if kelvin_sign c c1 c2 then "k"%char :: lower_list l
         else lower_ascii c :: lower_list (c1 :: c2 :: l).
Proof. reflexivity. Qed.

Lemma lower_list_two (c c1 : ascii) :
  lower_list [c; c1]
  = if dotted_capital_i c c1 then ["i"%char; "204"%char; "135"%char]
    else lower_ascii c :: lower_list [c1].
Proof. reflexivity. Qed.

Lemma lower_list_dot (n : nat) :
  forall a b, (List.length a <= n)%nat ->
    lower_list (a ++ "."%char :: b) = lower_list a ++ lower_list ("."%char :: b).
Proof.
  induction n as [| n IH]; intros a b Hn.
  - destruct a; [reflexivity | cbn in Hn; lia].
  - destruct a as [| c [| c1 [| c2 a3]]]; [reflexivity | | |].
    + change ([c] ++ "."%char :: b) with (c :: "."%char :: b).
      destruct b as [| c2 b].
      * rewrite lower_list_two. unfold dotted_capital_i.
        cbn [Ascii.eqb Bool.eqb andb]. rewrite !andb_false_r. reflexivity.
      * rewrite lower_list_three. unfold dotted_capital_i, kelvin_sign.
        cbn [Ascii.eqb Bool.eqb andb]. rewrite !andb_false_r. reflexivity.
    + change ([c; c1] ++ "."%char :: b) with (c :: c1 :: "."%char :: b).
      rewrite lower_list_three, lower_list_two. unfold kelvin_sign.
      cbn [Ascii.eqb Bool.eqb andb]. rewrite !andb_false_r.
      destruct (dotted_capital_i c c1); [reflexivity |].
      change (c1 :: "."%char :: b) with ([c1] ++ "."%char :: b).
      rewrite (IH [c1] b) by (cbn in *; lia). reflexivity.
    + change ((c :: c1 :: c2 :: a3) ++ "."%char :: b)
        with (c :: c1 :: c2 :: (a3 ++ "."%char :: b)).
      rewrite !lower_list_three.
      destruct (dotted_capital_i c c1).
      * change (c2 :: a3 ++ "."%char :: b) with ((c2 :: a3) ++ "."%char :: b).
        rewrite (IH (c2 :: a3) b) by (cbn in *; lia). reflexivity.
      * destruct (kelvin_sign c c1 c2).
        -- rewrite (IH a3 b) by (cbn in *; lia). reflexivity.
        -- change (c1 :: c2 :: a3 ++ "."%char :: b)
             with ((c1 :: c2 :: a3) ++ "."%char :: b).
           rewrite (IH (c1 :: c2 :: a3) b) by (cbn in *; lia). reflexivity.
Qed.

Lemma lower_list_head (l : list ascii) (rest : list ascii) :
  lower_list l = "."%char :: rest -> exists b, l = "."%char :: b.
Proof.
  destruct l as [| c [| c1 [| c2 l3]]]; cbn [lower_list].
  - discriminate.
  - intros [= E]. exists []. f_equal. revert E. unfold lower_ascii.
    destruct (andb _ _) eqn:Eb; [| tauto].
    intros E. apply (f_equal nat_of_ascii) in E.
    apply andb_prop in Eb. destruct Eb as [Ea Eb].
    apply Nat.leb_le in Ea, Eb.
    rewrite nat_ascii_embedding in E by lia. cbn in E. lia.
  - destruct (dotted_capital_i c c1); [discriminate |].
    intros [= E _]. exists [c1]. f_equal. revert E. unfold lower_ascii.
    destruct (andb _ _) eqn:Eb; [| tauto].
    intros E. apply (f_equal nat_of_ascii) in E.
    apply andb_prop in Eb. destruct Eb as [Ea Eb].
    apply Nat.leb_le in Ea, Eb.
    rewrite nat_ascii_embedding in E by lia. cbn in E. lia.
  - destruct (dotted_capital_i c c1); [discriminate |].
    destruct (kelvin_sign c c1 c2); [discriminate |].
    intros [= E _]. exists (c1 :: c2 :: l3). f_equal. revert E.
    unfold lower_ascii.
    destruct (andb _ _) eqn:Eb; [| tauto].
    intros E. apply (f_equal nat_of_ascii) in E.
    apply andb_prop in Eb. destruct Eb as [Ea Eb].
    apply Nat.leb_le in Ea, Eb.
    rewrite nat_ascii_embedding in E by lia. cbn in E. lia.
Qed.

Lemma lower_app (a b : string) :
  In (lower b) large_file_patterns ->
  list_ascii_of_string (lower (a ++ b)%string)
  = list_ascii_of_string (lower a) ++ list_ascii_of_string (lower b).
Proof.
  intros Hin.
  assert (Hdot : exists rest, lower_list (list_ascii_of_string b)
                              = "."%char :: rest).
  { unfold lower in Hin.
    assert (H : exists rest, list_ascii_of_string
                  (string_of_list_ascii (lower_list (list_ascii_of_string b)))
                  = "."%char :: rest).
    { unfold large_file_patterns in Hin. cbn [In] in Hin.
      repeat (destruct Hin as [<- | Hin]; [eexists; reflexivity |]).
      destruct Hin. }
    rewrite list_ascii_of_string_of_list_ascii in H. exact H. }
  destruct Hdot as (rest & Hdot).
  destruct (lower_list_head _ _ Hdot) as (b' & Eb).
  unfold lower.
  rewrite !list_ascii_of_string_of_list_ascii, list_ascii_of_string_app, Eb.
  apply (lower_list_dot (List.length (list_ascii_of_string a))). lia.
Qed.

(** X20. Whether a path is a candidate for the size lookup depends only on
    how it ends, whatever the letter case: a path that ends in a suffix
    whose lower-case form is one of the listed extensions is a candidate,
    whatever comes before it. *)
Theorem large_file_extension_ignores_case
    (stem extension : string) :
  In (lower extension) large_file_patterns ->
  has_large_file_extension (stem ++ extension)%string = true.
Proof.
  intros Hin. unfold has_large_file_extension.
  apply existsb_exists. exists (lower extension). split; [exact Hin |].
  unfold endswith. rewrite (lower_app _ _ Hin), rev_app_distr.
  apply prefix_list_app.
Qed.

Lemma large_file_extension_ignores_case_witness :
  has_large_file_extension ("Backups/Site" ++ ".ZIP")%string = true.
Proof.
  apply (large_file_extension_ignores_case "Backups/Site" ".ZIP").
  vm_compute. tauto.
Defined.

(** ** Token masking *)

(** X21. The logged form of a token never shows the whole token: a token of
    at most 12 characters is logged as three asterisks, and of a longer one
    the first 8 and the last 4 characters are shown around three dots, the
    one or more characters between them being left out. *)
Theorem masked_token_withholds_the_middle (token : string) :
  let l := list_ascii_of_string token in
  if (12 <? List.length l)%nat
  then exists first middle last,
         l = first ++ middle ++ last /\
         List.length first = 8%nat /\ List.length last = 4%nat /\
         middle <> [] /\
         list_ascii_of_string (masked_token token)
         = first ++ list_ascii_of_string "..." ++ last
  else masked_token token = "***".
Proof.
  cbv zeta. unfold masked_token.
  destruct (12 <? List.length (list_ascii_of_string token))%nat eqn:E;
    [| reflexivity].
  apply Nat.ltb_lt in E.
  set (l := list_ascii_of_string token) in *.
  exists (firstn 8 l), (firstn (List.length l - 12) (skipn 8 l)),
    (skipn (List.length l - 4) l).
  split; [| split; [| split; [| split]]].
  - rewrite <- (firstn_skipn 8 l) at 1. f_equal.
    rewrite <- (firstn_skipn (List.length l - 12) (skipn 8 l)) at 1. f_equal.
    rewrite skipn_skipn. f_equal. lia.
  - rewrite length_firstn. lia.
  - rewrite length_skipn. lia.
  - intros H. apply (f_equal (@List.length ascii)) in H.
    rewrite length_firstn, length_skipn in H. cbn [List.length] in H. lia.
  - now rewrite list_ascii_of_string_of_list_ascii.
Qed.

(** ** Walk of the default-branch tree *)

Lemma blobs_app (a b : list json) : blobs (a ++ b) = blobs a + blobs b.
Proof. unfold blobs. rewrite filter_app, length_app. lia. Qed.

Section TreeWalk.

Variable world : request -> reply.
Variable py_int : string -> option Z.
Variable project_id : json.
Variable ref : json.

Lemma tree_page_of_page (page count : Z) (items : list json) (more : bool)
    (t : trace) :
  tree_page_holds world py_int project_id ref page count items more ->
  tree_page world py_int project_id ref page count t
  = (Ok (if more then Next (count + blobs items) else Break (count + blobs items)),
     t ++ [tree_url project_id ref page]).
Proof.
  intros (r & v & Hw & Hs & Hb & Ht & Hi & Ho & Hc & Hn).
  unfold tree_page, try, bind, send, ret, lift, json_of.
  unfold tree_url in Hw. unfold blobs in Hc.
  rewrite Hw, Hs. cbn [Z.eqb Pos.eqb negb].
  rewrite Hb, Ht. cbn [negb]. rewrite Hi, count_blobs_filter, Ho, Hc, Hn.
  unfold blobs, tree_url. now destruct more.
Qed.

Lemma count_tree_of_pages (remaining : nat) :
  forall pages last page count t,
    (forall i items,
       nth_error pages i = Some items ->
       tree_page_holds world py_int project_id ref (page + Z.of_nat i)
         (count + blobs (List.concat (firstn i pages))) items true) ->
    tree_page_holds world py_int project_id ref
      (page + Z.of_nat (List.length pages))
      (count + blobs (List.concat pages)) last false ->
    count_tree world py_int remaining project_id ref page count t
    = (Ok (count + blobs (List.concat (firstn remaining (pages ++ [last])))),
       t ++ page_requests (tree_url project_id ref) page
              (Nat.min remaining (List.length pages + 1))).
Proof.
  induction remaining as [| remaining IH]; intros pages last page count t Hp Hl.
  - cbn. rewrite app_nil_r. unfold ret, blobs. cbn. now rewrite Z.add_0_r.
  - cbn [count_tree]. unfold bind at 1.
    destruct pages as [| items pages].
    + cbn [List.length Z.of_nat List.concat] in Hl.
      change (blobs []) with 0 in Hl. rewrite !Z.add_0_r in Hl.
      rewrite (tree_page_of_page _ _ _ _ _ Hl). unfold ret.
      cbn [app firstn List.concat List.length Nat.add Nat.min].
      rewrite firstn_nil. cbn [List.concat]. rewrite app_nil_r.
      replace (Nat.min remaining 0) with 0%nat by lia.
      unfold page_requests. cbn [seq map Z.of_nat]. now rewrite Z.add_0_r.
    + pose proof (Hp 0%nat items eq_refl) as H0.
      cbn [Z.of_nat firstn List.concat] in H0.
      change (blobs []) with 0 in H0. rewrite !Z.add_0_r in H0.
      rewrite (tree_page_of_page _ _ _ _ _ H0).
      rewrite (IH pages last (page + 1) (count + blobs items)).
      * cbn [app firstn List.concat List.length].
        rewrite blobs_app, Z.add_assoc.
        replace (Nat.min (S remaining) (S (List.length pages) + 1))
          with (S (Nat.min remaining (List.length pages + 1))) by lia.
        now rewrite page_requests_S, <- app_assoc.
      * intros i its Hi.
        replace (page + 1 + Z.of_nat i) with (page + Z.of_nat (S i)) by lia.
        replace (count + blobs items + blobs (List.concat (firstn i pages)))
          with (count + blobs (List.concat (firstn (S i) (items :: pages))))
          by (cbn [firstn List.concat]; rewrite blobs_app; lia).
        now apply Hp.
      * replace (page + 1 + Z.of_nat (List.length pages))
          with (page + Z.of_nat (List.length (items :: pages)))
          by (cbn [List.length]; lia).
        replace (count + blobs items + blobs (List.concat pages))
          with (count + blobs (List.concat (items :: pages)))
          by (cbn [List.concat]; rewrite blobs_app; lia).
        exact Hl.
Qed.

End TreeWalk.

(** The steps of [get_repository_file_count] up to the choice of the
    counting method, for a repository size below [2^53]. *)
Lemma file_count_method (world : request -> reply) (py_int : string -> option Z)
    (project_id ref : json) (size : Z) (t : trace) :
  project_reply world project_id ref size ->
  Z.abs size < 2 ^ 53 ->
  get_repository_file_count world py_int project_id t
  = try
      (early <- (if 10000 * (1024 * 1024) <? size
                 then large_repo_count world py_int project_id ref
                 else ret None) ;;
       match early with
       | Some v => ret v
       | None => count_tree world py_int max_pages project_id ref 1 0
       end)
      (fun _ => ret 0)
      (t ++ [Request GET (Project project_id)]).
Proof.
  intros (r & info & st & v & Hw & Hs & Hb & Hd & Ht & Hst & Hv & Hz) Hsize.
  destruct (true_divide_mb size Hsize) as (x & Hx & Hk & Ex).
  unfold get_repository_file_count, try.
  unfold bind at 1, send. rewrite Hw, Hs. cbn [Z.eqb Pos.eqb negb].
  unfold bind at 1, lift at 1, json_of. rewrite Hb.
  unfold bind at 1, lift at 1. rewrite Hd.
  unfold bind at 1, lift at 1. rewrite Hst.
  unfold bind at 1, lift at 1. rewrite Hv.
  unfold bind at 1, lift at 1. rewrite Hz.
  unfold bind at 1, lift at 1. rewrite Hx, Ht. cbn [negb].
  now rewrite (float_gt_exact x size 10000 Hk Ex).
Qed.

(** X22. For a project of at most 10 GB whose tree is served in pages, each
    announcing the next one but the last, [get_repository_file_count]
    returns the number of [blob] entries of the first 50 pages, all of them
    if there are no more than 50, after the project request and one request
    for each page counted, in order. *)
Theorem file_count_counts_blobs_of_the_pages
    (world : request -> reply) (py_int : string -> option Z)
    (project_id ref : json) (size : Z) (pages : list (list json))
    (last : list json) (t : trace) :
  project_reply world project_id ref size ->
  0 <= size <= 10000 * (1024 * 1024) ->
  (forall i items,
     nth_error pages i = Some items ->
     tree_page_holds world py_int project_id ref (1 + Z.of_nat i)
       (blobs (List.concat (firstn i pages))) items true) ->
  tree_page_holds world py_int project_id ref
    (1 + Z.of_nat (List.length pages)) (blobs (List.concat pages)) last false ->
  get_repository_file_count world py_int project_id t
  = (Ok (blobs (List.concat (firstn 50 (pages ++ [last])))),
     t ++ Request GET (Project project_id)
       :: page_requests (tree_url project_id ref) 1
            (Nat.min 50 (List.length pages + 1))).
Proof.
  intros Hproject Hsize Hp Hl.
  rewrite (file_count_method world py_int project_id ref size t Hproject)
    by lia.
  assert (Hno : (10000 * (1024 * 1024) <? size) = false)
    by (apply Z.ltb_ge; lia).
  rewrite Hno. unfold try, bind at 1, ret at 1.
  rewrite (count_tree_of_pages world py_int project_id ref max_pages
             pages last 1 0 _ Hp Hl).
  unfold max_pages. rewrite Z.add_0_l, <- app_assoc. reflexivity.
Qed.

Lemma file_count_counts_blobs_of_the_pages_witness :
  get_repository_file_count tree_server int_of_digits (JInt 1) []
  = (Ok (blobs (List.concat
                  (firstn 50
                     ([[JDict [("type", JStr "blob"); ("path", JStr "a")];
                        JDict [("type", JStr "tree"); ("path", JStr "d")];
                        JDict [("type", JStr "blob"); ("path", JStr "d/b")]]]
                      ++ [[JDict [("type", JStr "blob"); ("path", JStr "d/c")]]])))),
     [] ++ Request GET (Project (JInt 1))
       :: page_requests (tree_url (JInt 1) (JStr "main")) 1
            (Nat.min 50 (List.length
                           [[JDict [("type", JStr "blob"); ("path", JStr "a")];
                             JDict [("type", JStr "tree"); ("path", JStr "d")];
                             JDict [("type", JStr "blob"); ("path", JStr "d/b")]]]
                         + 1))).
Proof.
  apply (file_count_counts_blobs_of_the_pages tree_server int_of_digits
           (JInt 1) (JStr "main") 0).
  - do 4 eexists. repeat split; reflexivity.
  - lia.
  - intros [| [| i]] items E; cbn in E; inversion E; subst.
    do 2 eexists. repeat split; reflexivity.
  - do 2 eexists. repeat split; reflexivity.
Defined.

(** X23. For a repository above 10 GB (and below [2^53] bytes, where the
    size in megabytes is computed exactly) whose commits and blob-search
    probes are answered with status 200, [get_repository_file_count] walks
    no tree: it returns the [X-Total] of the search when that is a positive
    number, and 0 when it is not positive or the header is missing, after
    exactly the three opening requests. *)
Theorem large_repository_uses_the_search_count
    (world : request -> reply) (py_int : string -> option Z)
    (project_id ref : json) (size : Z)
    (commits_response search_response : response) (t : trace) :
  project_reply world project_id ref size ->
  10000 * (1024 * 1024) < size < 2 ^ 53 ->
  world (Request HEAD (Commits project_id ref)) = Replied commits_response ->
  status_code commits_response = 200 ->
  world (Request HEAD (SearchBlobs project_id)) = Replied search_response ->
  status_code search_response = 200 ->
  match assoc "X-Total" (headers search_response) with
  | Some total => exists n, py_int total = Some n
  | None => True
  end ->
  get_repository_file_count world py_int project_id t
  = (Ok (match assoc "X-Total" (headers search_response) with
         | Some total =>
             match py_int total with
             | Some n => Z.max n 0
             | None => 0
             end
         | None => 0
         end),
     t ++ file_count_preamble project_id ref).
Proof.
  intros Hproject Hsize Hc Hcs Hsr Hss Hx.
  rewrite (file_count_method world py_int project_id ref size t Hproject)
    by lia.
  assert (Hyes : (10000 * (1024 * 1024) <? size) = true)
    by (apply Z.ltb_lt; lia).
  rewrite Hyes. unfold try at 1, bind at 1.
  unfold large_repo_count, try, bind, send, ret, lift, header_int, has_header.
  rewrite Hc, Hcs. cbn [Z.eqb Pos.eqb].
  rewrite Hsr, Hss. cbn [Z.eqb Pos.eqb andb].
  unfold file_count_preamble. rewrite <- !app_assoc. cbn [app].
  destruct (assoc "X-Total" (headers search_response)) as [total |];
    [| reflexivity].
  destruct Hx as (n & Hn). rewrite Hn.
  destruct (0 <? n) eqn:E.
  - apply Z.ltb_lt in E. now rewrite Z.max_l by lia.
  - apply Z.ltb_ge in E. now rewrite Z.max_r by lia.
Qed.

Lemma large_repository_uses_the_search_count_witness :
  get_repository_file_count large_repo_server int_of_digits (JInt 1) []
  = (Ok (match assoc "X-Total" (headers (Response 200 [("X-Total", "1234")] None)) with
         | Some total =>
             match int_of_digits total with
             | Some n => Z.max n 0
             | None => 0
             end
         | None => 0
         end),
     [] ++ file_count_preamble (JInt 1) (JStr "main")).
Proof.
  apply (large_repository_uses_the_search_count large_repo_server int_of_digits
           (JInt 1) (JStr "main") 21474836480 (Response 200 [] None)
           (Response 200 [("X-Total", "1234")] None)).
  - do 4 eexists. repeat split; reflexivity.
  - cbn. lia.
  - reflexivity.
  - reflexivity.
  - reflexivity.
  - reflexivity.
  - cbn. eexists. vm_compute. reflexivity.
Defined.

(** ** Completeness of the all-branches count *)

Lemma counted_snoc (f v : json) (files : list json) :
  counted f files -> counted f (files ++ [v]).
Proof.
  unfold counted. intros H. rewrite existsb_app, H. reflexivity.
Qed.

Lemma counted_set_add (p : string) (files files' : list json) :
  set_add (JStr p) files = Ok files' ->
  counted (JStr p) files' /\ forall f, counted f files -> counted f files'.
Proof.
  unfold set_add. cbn [hashable].
  destruct (existsb (key_eqb (JStr p)) files) eqn:E; intros [= <-].
  - split; [exact E | tauto].
  - split.
    + unfold counted. rewrite existsb_app. cbn [existsb key_eqb].
      now rewrite String.eqb_refl, orb_true_r.
    + intros f. apply counted_snoc.
Qed.

Lemma listed_blob_app_inv world project_id a b f :
  listed_blob world project_id (a ++ b) f ->
  listed_blob world project_id a f \/ listed_blob world project_id b f.
Proof.
  intros (ref & page & r & v & items & item & Hin & H).
  apply in_app_or in Hin. destruct Hin as [Hin | Hin]; [left | right];
    exists ref, page, r, v, items, item; now split.
Qed.

Lemma listed_blob_no_tree world project_id extra f :
  Forall (fun rq => meth rq = HEAD) extra ->
  ~ listed_blob world project_id extra f.
Proof.
  intros Hall (ref & page & r & v & items & item & Hin & _).
  rewrite Forall_forall in Hall. specialize (Hall _ Hin). discriminate Hall.
Qed.

Lemma falsy_has_no_items (v : json) (items : list json) :
  truthy v = false -> iter v = Ok items -> items = [].
Proof.
  destruct v as [| b | z | s | l | d]; cbn [truthy iter]; try discriminate.
  - destruct s; [now intros _ [= <-] | discriminate].
  - destruct l; [now intros _ [= <-] | discriminate].
  - destruct d; [now intros _ [= <-] | discriminate].
Qed.

Section Completeness.

Variable world : request -> reply.
Variable py_int : string -> option Z.
Variable project_id : json.

Hypothesis objects : tree_of_objects world project_id.

Abbreviation Step := (scan_step world project_id).

Lemma scan_step_refl s : Step s s [].
Proof.
  split; [now rewrite app_nil_r |]. split; [tauto |].
  intros f _ (ref & page & r & v & items & item & [] & _).
Qed.

Lemma scan_step_trans s1 s2 s3 e1 e2 :
  Step s1 s2 e1 -> Step s2 s3 e2 -> Step s1 s3 (e1 ++ e2).
Proof.
  intros (L1 & G1 & C1) (L2 & G2 & C2). split; [| split].
  - now rewrite L2, L1, app_assoc.
  - intros f Hf. apply G2, G1, Hf.
  - intros f Ht Hl. apply listed_blob_app_inv in Hl.
    destruct Hl as [Hl | Hl]; [apply G2, C1 | apply C2]; assumption.
Qed.

Lemma check_file_size_returns path ref u t :
  exists flag,
    check_file_size world py_int project_id path ref (u, t)
    = (Ok tt, (ScanLocals (unique_files u) flag,
               t ++ [Request HEAD (File project_id path ref)])).
Proof.
  unfold check_file_size, try, bind, zoom, send, update, lift, ret.
  cbn [fst snd].
  destruct (world (Request HEAD (File project_id path ref))) as [r |];
    [| exists (large_file_found u); now destruct u].
  destruct (status_code r =? 200);
    [| exists (large_file_found u); now destruct u].
  destruct (gitlab_size py_int r) as [z |];
    [| exists (large_file_found u); now destruct u].
  destruct (large_file_threshold <? z);
    [exists true; now destruct (true_divide z (1024 * 1024))
    | exists (large_file_found u); now destruct u].
Qed.

Lemma scan_item_covers ref d u t :
  match assoc "path" d with
  | Some (JStr _) | None => True
  | Some _ => False
  end ->
  exists u' extra,
    scan_item world py_int project_id ref (JDict d) (u, t)
    = (Ok tt, (u', t ++ extra)) /\
    Forall (fun rq => meth rq = HEAD) extra /\
    (forall f, counted f (unique_files u) -> counted f (unique_files u')) /\
    (is_blob (JDict d) = true ->
     forall f, get (JDict d) "path" (JStr "") = Ok f -> truthy f = true ->
               counted f (unique_files u')).
Proof.
  intros Hpath.
  assert (Hsame : exists u' extra,
             (@Ok unit tt, (u, t)) = (Ok tt, (u', t ++ extra)) /\
             Forall (fun rq => meth rq = HEAD) extra /\
             (forall f, counted f (unique_files u) -> counted f (unique_files u'))).
  { exists u, []. rewrite app_nil_r. repeat split; [constructor | tauto]. }
  unfold scan_item, add_unique_file, is_blob. cbn [get].
  unfold bind at 1, lift at 1.
  destruct (eq_str match assoc "type" d with Some x => x | None => JNull end "blob").
  2:{ destruct Hsame as (u' & extra & E & Hh & Hg).
      exists u', extra. unfold ret. repeat split; try assumption. discriminate. }
  unfold bind at 1, lift at 1.
  assert (Hp : exists p,
             match assoc "path" d with Some x => x | None => JStr "" end = JStr p).
  { destruct (assoc "path" d) as [[| b | z | s | l | d'] |];
      try contradiction; eexists; reflexivity. }
  destruct Hp as (p & ->).
  unfold bind at 1. cbn [truthy].
  destruct (negb (String.eqb p "")) eqn:Et.
  - unfold bind at 1, locals at 1. cbn [fst snd].
    unfold bind at 1, lift at 1.
    destruct (set_add (JStr p) (unique_files u)) as [files |] eqn:Ea;
      [| discriminate Ea].
    destruct (counted_set_add _ _ _ Ea) as [Hin Hgrow].
    unfold update at 1. cbn [fst snd].
    unfold bind at 1, locals at 1. cbn [fst large_file_found as_str].
    destruct (large_file_found u); cbn [negb andb].
    + exists (ScanLocals files true), []. rewrite app_nil_r. unfold ret.
      repeat split; [constructor | exact Hgrow |].
      intros _ f [= <-] _. exact Hin.
    + unfold bind at 1, lift at 1.
      destruct (has_large_file_extension p).
      * destruct (check_file_size_returns p ref (ScanLocals files false) t)
          as (flag & ->).
        exists (ScanLocals files flag), [Request HEAD (File project_id p ref)].
        repeat split; [repeat constructor | exact Hgrow |].
        intros _ f [= <-] _. exact Hin.
      * exists (ScanLocals files false), []. rewrite app_nil_r. unfold ret.
        repeat split; [constructor | exact Hgrow |].
        intros _ f [= <-] _. exact Hin.
  - unfold ret at 1. unfold bind at 1, locals at 1. cbn [fst].
    rewrite andb_false_r.
    exists u, []. rewrite app_nil_r. unfold ret.
    repeat split; [constructor | tauto |].
    intros _ f [= <-]. cbn [truthy]. rewrite Et. discriminate.
Qed.

Lemma for_each_covers ref (items : list json) :
  (forall item, In item items ->
     exists d, item = JDict d /\
               match assoc "path" d with
               | Some (JStr _) | None => True
               | Some _ => False
               end) ->
  forall u t,
    exists u' extra,
      for_each items (scan_item world py_int project_id ref) (u, t)
      = (Ok tt, (u', t ++ extra)) /\
      Forall (fun rq => meth rq = HEAD) extra /\
      (forall f, counted f (unique_files u) -> counted f (unique_files u')) /\
      (forall item f,
         In item items -> is_blob item = true ->
         get item "path" (JStr "") = Ok f -> truthy f = true ->
         counted f (unique_files u')).
Proof.
  induction items as [| item items IH]; intros Hwf u t; cbn [for_each].
  - exists u, []. rewrite app_nil_r. unfold ret.
    repeat split; [constructor | tauto |]. intros item f [].
  - destruct (Hwf item (or_introl eq_refl)) as (d & -> & Hd).
    destruct (scan_item_covers ref d u t Hd) as (u1 & e1 & E1 & H1 & G1 & C1).
    unfold bind. rewrite E1.
    destruct (IH (fun i Hi => Hwf i (or_intror Hi)) u1 (t ++ e1))
      as (u2 & e2 & E2 & H2 & G2 & C2).
    match goal with
    | |- context [for_each ?l ?b ?s] =>
        replace (for_each l b s) with (@Ok unit tt, (u2, (t ++ e1) ++ e2))
          by (symmetry; exact E2)
    end.
    exists u2, (e1 ++ e2). rewrite app_assoc.
    repeat split.
    + apply Forall_app. now split.
    + intros f Hf. apply G2, G1, Hf.
    + intros item f [<- | Hin] Hb Hg Ht.
      * apply G2. now apply C1.
      * now apply (C2 item).
Qed.

Lemma tree_request_step ref page u t :
  (forall r, world (tree_url project_id ref page) = Replied r ->
             status_code r = 200 ->
             forall v items, json_of r = Ok v -> iter v = Ok items ->
                             items = []) ->
  Step (u, t) (u, t ++ [tree_url project_id ref page])
    [tree_url project_id ref page].
Proof.
  intros Hnone. split; [reflexivity |]. split; [tauto |].
  intros f _ (ref' & page' & r & v & items & item & Hin & Hw & Hs & Hj & Hi & Hitem & _).
  destruct Hin as [E | []]. rewrite <- E in Hw.
  rewrite (Hnone r Hw Hs v items Hj Hi) in Hitem. destruct Hitem.
Qed.

Lemma scan_pages_covers (remaining : nat) :
  forall ref page s o s',
    scan_pages world py_int remaining project_id ref page s = (o, s') ->
    exists extra, Step s s' extra.
Proof.
  induction remaining as [| remaining IH]; intros ref page [u t] o s';
    cbn [scan_pages].
  - intros [= <- <-]. exists []. apply scan_step_refl.
  - unfold bind at 1, zoom, send. cbn [fst snd].
    change (Request GET (Tree project_id ref page))
      with (tree_url project_id ref page).
    destruct (world (tree_url project_id ref page)) as [r |] eqn:Ew.
    2:{ intros [= <- <-]. eexists. apply tree_request_step.
        intros r Hr. rewrite Ew in Hr. discriminate Hr. }
    destruct (negb (status_code r =? 200)) eqn:Es.
    { intros [= <- <-]. eexists. apply tree_request_step.
      intros r' Hr Hs. rewrite Ew in Hr. inversion Hr; subst r'.
      rewrite Hs in Es. discriminate Es. }
    apply negb_false_iff, Z.eqb_eq in Es.
    unfold bind at 1, lift at 1.
    destruct (json_of r) as [v |] eqn:Ej.
    2:{ intros [= <- <-]. eexists. apply tree_request_step.
        intros r' Hr _ v items Hv. rewrite Ew in Hr. inversion Hr; subst r'.
        rewrite Ej in Hv. discriminate Hv. }
    destruct (negb (truthy v)) eqn:Et.
    { intros [= <- <-]. eexists. apply tree_request_step.
      intros r' Hr _ v' items Hv Hi. rewrite Ew in Hr. inversion Hr; subst r'.
      rewrite Ej in Hv. inversion Hv; subst v'.
      apply negb_true_iff in Et. exact (falsy_has_no_items _ _ Et Hi). }
    unfold bind at 1, lift at 1.
    destruct (iter v) as [items |] eqn:Ei.
    2:{ intros [= <- <-]. eexists. apply tree_request_step.
        intros r' Hr _ v' items Hv Hi. rewrite Ew in Hr. inversion Hr; subst r'.
        rewrite Ej in Hv. inversion Hv; subst v'.
        rewrite Ei in Hi. discriminate Hi. }
    unfold bind at 1.
    destruct (for_each_covers ref items
                (fun item Hitem => objects ref page r v items item Ew Es Ej Ei Hitem)
                u (t ++ [tree_url project_id ref page]))
      as (u2 & e2 & E2 & H2 & G2 & C2).
    match goal with
    | |- context [for_each ?l ?b ?s] =>
        replace (for_each l b s)
          with (@Ok unit tt, (u2, (t ++ [tree_url project_id ref page]) ++ e2))
          by (symmetry; exact E2)
    end.
    assert (Hpage : Step (u, t)
                      (u2, (t ++ [tree_url project_id ref page]) ++ e2)
                      ([tree_url project_id ref page] ++ e2)).
    { split; [cbn [snd]; now rewrite <- app_assoc |]. split; [exact G2 |].
      intros f Ht Hl. apply listed_blob_app_inv in Hl.
      destruct Hl as [Hl | Hl];
        [| now destruct (listed_blob_no_tree _ _ _ _ H2 Hl)].
      destruct Hl as (ref' & page' & r' & v' & items' & item & Hin & Hw & _
                      & Hj & Hi & Hitem & Hb & Hp).
      destruct Hin as [E | []]. rewrite <- E in Hw. rewrite Ew in Hw.
      inversion Hw; subst r'. rewrite Ej in Hj. inversion Hj; subst v'.
      rewrite Ei in Hi. inversion Hi; subst items'.
      exact (C2 item f Hitem Hb Hp Ht). }
    destruct (has_next_page r).
    + intros E. destruct (IH _ _ _ _ _ E) as (e3 & H3).
      eexists. exact (scan_step_trans _ _ _ _ _ Hpage H3).
    + intros [= <- <-]. eexists. exact Hpage.
Qed.

Lemma scan_branches_covers (branches : list json) :
  forall s o s',
    scan_branches world py_int project_id branches s = (o, s') ->
    exists extra, Step s s' extra.
Proof.
  induction branches as [| branch branches IH]; intros s o s';
    cbn [scan_branches].
  - intros [= <- <-]. exists []. apply scan_step_refl.
  - unfold bind at 1, lift at 1.
    destruct (get branch "name" JNull) as [branch_name |].
    2:{ intros [= <- <-]. exists []. apply scan_step_refl. }
    unfold bind at 1.
    destruct (truthy branch_name).
    + unfold try.
      destruct (scan_pages world py_int max_pages_per_branch project_id
                  branch_name 1 s) as [o1 s1] eqn:E1.
      destruct (scan_pages_covers _ _ _ _ _ _ E1) as (e1 & H1).
      destruct o1 as [[] | e]; unfold ret;
        intros E; destruct (IH _ _ _ E) as (e2 & H2);
        eexists; exact (scan_step_trans _ _ _ _ _ H1 H2).
    + unfold ret. apply IH.
Qed.

Lemma scan_all_branches_covers s o s' :
  scan_all_branches world py_int project_id s = (o, s') ->
  exists extra, Step s s' extra.
Proof.
  destruct s as [u t].
  assert (H0 : Step (u, t) (u, t ++ [Request GET (Branches project_id 100)])
                 [Request GET (Branches project_id 100)]).
  { split; [reflexivity |]. split; [tauto |].
    intros f _ (ref & page & r & v & items & item & [E | []] & _).
    discriminate E. }
  unfold scan_all_branches.
  unfold bind at 1, zoom, send. cbn [fst snd].
  destruct (world (Request GET (Branches project_id 100))) as [r |];
    [| intros [= <- <-]; eexists; exact H0].
  destruct (negb (status_code r =? 200));
    [intros [= <- <-]; eexists; exact H0 |].
  unfold bind at 1, lift at 1.
  destruct (json_of r) as [branches |];
    [| intros [= <- <-]; eexists; exact H0].
  unfold bind at 1, lift at 1.
  destruct (branches_to_check branches) as [l |];
    [| intros [= <- <-]; eexists; exact H0].
  intros E. destruct (scan_branches_covers _ _ _ _ E) as (e & He).
  eexists. exact (scan_step_trans _ _ _ _ _ H0 He).
Qed.

End Completeness.

(** X24. On a server whose tree pages hold objects with string paths, the
    set behind the all-branches file count misses nothing the scan has
    seen: every non-empty path of a [blob] entry in the answer to a tree
    request made by the scan is in the set when the scan ends, whether it
    ends normally or by an exception. *)
Theorem listed_blobs_are_counted
    (world : request -> reply) (py_int : string -> option Z)
    (project_id : json) (t : trace) :
  tree_of_objects world project_id ->
  exists o files found extra,
    scan_all_branches world py_int project_id (ScanLocals [] false, t)
    = (o, (ScanLocals files found, t ++ extra)) /\
    forall f,
      truthy f = true -> listed_blob world project_id extra f ->
      counted f files.
Proof.
  intros Hobj.
  destruct (scan_all_branches world py_int project_id (ScanLocals [] false, t))
    as [o [[files found] t']] eqn:E.
  destruct (scan_all_branches_covers world py_int project_id Hobj _ _ _ E)
    as (extra & Hlog & _ & Hc).
  cbn [fst snd unique_files] in *. subst t'.
  exists o, files, found, extra. split; [reflexivity | exact Hc].
Qed.

Lemma listed_blobs_are_counted_witness :
  exists o files found extra,
    scan_all_branches large_file_server int_of_digits (JInt 1)
      (ScanLocals [] false, [])
    = (o, (ScanLocals files found, [] ++ extra)) /\
    forall f,
      truthy f = true -> listed_blob large_file_server (JInt 1) extra f ->
      counted f files.
Proof.
  apply (listed_blobs_are_counted large_file_server int_of_digits (JInt 1) []).
  intros ref page response v items item Hw _ Hj Hi Hin.
  unfold tree_url, large_file_server in Hw. cbn [target] in Hw.
  destruct page as [| [p | p |] |]; inversion Hw; subst response.
  cbn in Hj. inversion Hj; subst v.
  cbn in Hi. inversion Hi; subst items.
  destruct Hin as [<- | [<- | [<- | []]]]; eexists; split;
    try reflexivity; exact I.
Defined.

(** ** Entries the loops cannot start on *)

Lemma process_projects_aborts (world : request -> reply)
    (py_int : string -> option Z) (projects : list json) :
  Exists unreadable_project projects ->
  forall stats t,
    exists e t',
      Details.process_projects world py_int projects stats t = (Raise e, t').
Proof.
  induction 1 as [project projects Hbad | project projects _ IH];
    intros stats t; cbn [Details.process_projects].
  - unfold bind at 1, lift at 1.
    destruct Hbad as [(e & ->) | (e & He)]; [eauto |].
    destruct (item project "id") as [project_id | e']; [| eauto].
    unfold bind at 1, lift at 1. rewrite He. eauto.
  - unfold bind at 1, lift at 1.
    destruct (item project "id") as [project_id | e']; [| eauto].
    unfold bind at 1, lift at 1.
    destruct (item project "name") as [project_name | e']; [| eauto].
    unfold bind at 1, try.
    destruct ((r <- Details.project_stats world py_int project project_id ;;
               ret (Some r)) t) as [[r | e] t1]; unfold ret; apply IH.
Qed.

Lemma process_groups_aborts (world : request -> reply)
    (py_int : string -> option Z) (groups : list json) :
  Exists unreadable_group groups ->
  forall stats t,
    exists e t',
      Groups.process_groups world py_int groups stats t = (Raise e, t').
Proof.
  induction 1 as [group groups Hbad | group groups _ IH];
    intros stats t; cbn [Groups.process_groups].
  - unfold bind at 1, lift at 1.
    destruct Hbad as [(e & ->) | [(e & He) | (e & He)]]; [eauto | |].
    + destruct (item group "id") as [group_id | e']; [| eauto].
      unfold bind at 1, lift at 1. rewrite He. eauto.
    + destruct (item group "id") as [group_id | e']; [| eauto].
      unfold bind at 1, lift at 1.
      destruct (item group "name") as [group_name | e']; [| eauto].
      unfold bind at 1, lift at 1. rewrite He. eauto.
  - unfold bind at 1, lift at 1.
    destruct (item group "id") as [group_id | e']; [| eauto].
    unfold bind at 1, lift at 1.
    destruct (item group "name") as [group_name | e']; [| eauto].
    unfold bind at 1, lift at 1.
    destruct (item group "full_path") as [group_path | e']; [| eauto].
    unfold bind at 1, try.
    destruct ((r <- Groups.group_stats world py_int group group_id ;;
               ret (Some r)) t) as [[r | e] t1]; unfold ret; apply IH.
Qed.

(** X25. The subscripts that open the body of the per-project loop and of
    the per-group loop are outside the [try]: one listed entry on which
    they raise ends the whole run with status 1 and without a report,
    whatever was collected for the entries before it. *)
Theorem unreadable_entry_ends_the_run
    (world : request -> reply) (py_int : string -> option Z) (fuel : nat) :
  (forall groups t all_projects t' project_filter projects,
     fetch_all_groups world fuel [] = Some (Some groups, t) ->
     Details.collect_projects world fuel groups [] t = Some (Ok all_projects, t') ->
     apply_project_filter all_projects project_filter = Ok projects ->
     Exists unreadable_project projects ->
     exits_nonzero (Details.main world py_int fuel project_filter)) /\
  (forall groups t,
     fetch_all_groups world fuel [] = Some (Some groups, t) ->
     Exists unreadable_group groups ->
     exits_nonzero (Groups.main world py_int fuel)).
Proof.
  split.
  - intros groups t all_projects t' project_filter projects Hg Hc Hf Hbad.
    unfold Details.main. rewrite Hg.
    destruct groups as [| g groups].
    + cbn in Hc. inversion Hc; subst.
      destruct project_filter; cbn in Hf; inversion Hf; subst;
        inversion Hbad.
    + rewrite Hc, Hf.
      destruct projects as [| p projects]; [inversion Hbad |].
      destruct (process_projects_aborts world py_int _ Hbad [] t')
        as (e & t2 & ->).
      eexists. split; [reflexivity |]. cbn. split; [lia | reflexivity].
  - intros groups t Hg Hbad.
    unfold Groups.main. rewrite Hg.
    destruct groups as [| g groups]; [inversion Hbad |].
    destruct (process_groups_aborts world py_int _ Hbad [] t) as (e & t2 & ->).
    eexists. split; [reflexivity |]. cbn. split; [lia | reflexivity].
Qed.

(** ** Completeness of the size lookups *)

Lemma on_allow_list_iff (file_path : string) :
  has_large_file_extension file_path = true <-> on_allow_list file_path.
Proof.
  unfold has_large_file_extension, on_allow_list, large_file_patterns.
  rewrite existsb_exists. split; intros (x & H); now exists x.
Qed.

Lemma listed_candidate_app_inv world project_id a b ref file_path :
  listed_candidate world project_id (a ++ b) ref file_path ->
  listed_candidate world project_id a ref file_path \/
  listed_candidate world project_id b ref file_path.
Proof.
  intros (page & r & v & items & item & Hin & H).
  apply in_app_or in Hin. destruct Hin as [Hin | Hin]; [left | right];
    exists page, r, v, items, item; now split.
Qed.

Lemma listed_candidate_no_tree world project_id extra ref file_path :
  Forall (fun rq => meth rq = HEAD) extra ->
  ~ listed_candidate world project_id extra ref file_path.
Proof.
  intros Hall (page & r & v & items & item & Hin & _).
  rewrite Forall_forall in Hall. specialize (Hall _ Hin). discriminate Hall.
Qed.

Section LookupsComplete.

Variable world : request -> reply.
Variable py_int : string -> option Z.
Variable project_id : json.

Hypothesis objects : tree_of_objects world project_id.

Abbreviation Looked := (lookup_step world project_id).

Lemma lookup_step_refl s : Looked s s [].
Proof.
  split; [now rewrite app_nil_r |]. split; [tauto |].
  intros ref p (page & r & v & items & item & [] & _).
Qed.

Lemma lookup_step_trans s1 s2 s3 e1 e2 :
  Looked s1 s2 e1 -> Looked s2 s3 e2 -> Looked s1 s3 (e1 ++ e2).
Proof.
  intros (L1 & G1 & C1) (L2 & G2 & C2). split; [| split].
  - now rewrite L2, L1, app_assoc.
  - intros Hf. apply G2, G1, Hf.
  - intros ref p Hl. apply listed_candidate_app_inv in Hl.
    destruct Hl as [Hl | Hl].
    + destruct (C1 ref p Hl) as [Hf | Hin];
        [left; now apply G2 | right; apply in_or_app; now left].
    + destruct (C2 ref p Hl) as [Hf | Hin];
        [now left | right; apply in_or_app; now right].
Qed.

Lemma check_file_size_flag path ref u t :
  exists flag,
    check_file_size world py_int project_id path ref (u, t)
    = (Ok tt, (ScanLocals (unique_files u) flag,
               t ++ [Request HEAD (File project_id path ref)])) /\
    (large_file_found u = true -> flag = true).
Proof.
  unfold check_file_size, try, bind, zoom, send, update, lift, ret.
  cbn [fst snd].
  destruct (world (Request HEAD (File project_id path ref))) as [r |];
    [| exists (large_file_found u); split; [now destruct u | tauto]].
  destruct (status_code r =? 200);
    [| exists (large_file_found u); split; [now destruct u | tauto]].
  destruct (gitlab_size py_int r) as [z |];
    [| exists (large_file_found u); split; [now destruct u | tauto]].
  destruct (large_file_threshold <? z);
    [exists true; now destruct (true_divide z (1024 * 1024))
    | exists (large_file_found u); split; [now destruct u | tauto]].
Qed.

Lemma scan_item_looks_up ref d u t :
  match assoc "path" d with
  | Some (JStr _) | None => True
  | Some _ => False
  end ->
  exists u' extra,
    scan_item world py_int project_id ref (JDict d) (u, t)
    = (Ok tt, (u', t ++ extra)) /\
    Forall (fun rq => meth rq = HEAD) extra /\
    (large_file_found u = true -> large_file_found u' = true) /\
    (is_blob (JDict d) = true ->
     forall p, get (JDict d) "path" (JStr "") = Ok (JStr p) -> p <> "" ->
               on_allow_list p ->
               large_file_found u' = true \/
               In (Request HEAD (File project_id p ref)) extra).
Proof.
  intros Hpath.
  unfold scan_item, add_unique_file, is_blob. cbn [get].
  unfold bind at 1, lift at 1.
  destruct (eq_str match assoc "type" d with Some x => x | None => JNull end "blob").
  2:{ exists u, []. rewrite app_nil_r. unfold ret.
      repeat split; [constructor | tauto | discriminate]. }
  unfold bind at 1, lift at 1.
  assert (Hp : exists p,
             match assoc "path" d with Some x => x | None => JStr "" end = JStr p).
  { destruct (assoc "path" d) as [[| b | z | s | l | d'] |];
      try contradiction; eexists; reflexivity. }
  destruct Hp as (p & ->).
  unfold bind at 1. cbn [truthy].
  destruct (negb (String.eqb p "")) eqn:Et.
  - unfold bind at 1, locals at 1. cbn [fst snd].
    unfold bind at 1, lift at 1.
    destruct (set_add (JStr p) (unique_files u)) as [files |] eqn:Ea;
      [| discriminate Ea].
    unfold update at 1. cbn [fst snd].
    unfold bind at 1, locals at 1. cbn [fst large_file_found as_str].
    destruct (large_file_found u) eqn:Ef; cbn [negb andb].
    + exists (ScanLocals files true), []. rewrite app_nil_r. unfold ret.
      repeat split; [constructor |]. intros _ q _ _ _. now left.
    + unfold bind at 1, lift at 1.
      destruct (has_large_file_extension p) eqn:Ex.
      * destruct (check_file_size_flag p ref (ScanLocals files false) t)
          as (flag & -> & _).
        exists (ScanLocals files flag), [Request HEAD (File project_id p ref)].
        repeat split; [repeat constructor | discriminate |].
        intros _ q [= <-] _ _. right. now left.
      * exists (ScanLocals files false), []. rewrite app_nil_r. unfold ret.
        repeat split; [constructor | discriminate |].
        intros _ q [= <-] _ Hq. apply on_allow_list_iff in Hq. congruence.
  - unfold ret at 1. unfold bind at 1, locals at 1. cbn [fst].
    rewrite andb_false_r.
    exists u, []. rewrite app_nil_r. unfold ret.
    repeat split; [constructor | tauto |].
    intros _ q [= <-] Hne.
    apply negb_false_iff, String.eqb_eq in Et. contradiction.
Qed.

Lemma for_each_looks_up ref (items : list json) :
  (forall item, In item items ->
     exists d, item = JDict d /\
               match assoc "path" d with
               | Some (JStr _) | None => True
               | Some _ => False
               end) ->
  forall u t,
    exists u' extra,
      for_each items (scan_item world py_int project_id ref) (u, t)
      = (Ok tt, (u', t ++ extra)) /\
      Forall (fun rq => meth rq = HEAD) extra /\
      (large_file_found u = true -> large_file_found u' = true) /\
      (forall item p,
         In item items -> is_blob item = true ->
         get item "path" (JStr "") = Ok (JStr p) -> p <> "" ->
         on_allow_list p ->
         large_file_found u' = true \/
         In (Request HEAD (File project_id p ref)) extra).
Proof.
  induction items as [| item items IH]; intros Hwf u t; cbn [for_each].
  - exists u, []. rewrite app_nil_r. unfold ret.
    repeat split; [constructor | tauto |]. intros item p [].
  - destruct (Hwf item (or_introl eq_refl)) as (d & -> & Hd).
    destruct (scan_item_looks_up ref d u t Hd) as (u1 & e1 & E1 & H1 & G1 & C1).
    unfold bind. rewrite E1.
    destruct (IH (fun i Hi => Hwf i (or_intror Hi)) u1 (t ++ e1))
      as (u2 & e2 & E2 & H2 & G2 & C2).
    match goal with
    | |- context [for_each ?l ?b ?s] =>
        replace (for_each l b s) with (@Ok unit tt, (u2, (t ++ e1) ++ e2))
          by (symmetry; exact E2)
    end.
    exists u2, (e1 ++ e2). rewrite app_assoc.
    repeat split.
    + apply Forall_app. now split.
    + intros Hf. apply G2, G1, Hf.
    + intros item p [<- | Hin] Hb Hg Hne Hl.
      * destruct (C1 Hb p Hg Hne Hl) as [Hf | Hi];
          [left; now apply G2 | right; apply in_or_app; now left].
      * destruct (C2 item p Hin Hb Hg Hne Hl) as [Hf | Hi];
          [now left | right; apply in_or_app; now right].
Qed.

Lemma tree_request_looked ref page u t :
  (forall r, world (tree_url project_id ref page) = Replied r ->
             status_code r = 200 ->
             forall v items, json_of r = Ok v -> iter v = Ok items ->
                             items = []) ->
  Looked (u, t) (u, t ++ [tree_url project_id ref page])
    [tree_url project_id ref page].
Proof.
  intros Hnone. split; [reflexivity |]. split; [tauto |].
  intros ref' p (page' & r & v & items & item & Hin & Hw & Hs & Hj & Hi & Hitem & _).
  destruct Hin as [E | []]. rewrite <- E in Hw.
  rewrite (Hnone r Hw Hs v items Hj Hi) in Hitem. destruct Hitem.
Qed.

Lemma scan_pages_looks_up (remaining : nat) :
  forall ref page s o s',
    scan_pages world py_int remaining project_id ref page s = (o, s') ->
    exists extra, Looked s s' extra.
Proof.
  induction remaining as [| remaining IH]; intros ref page [u t] o s';
    cbn [scan_pages].
  - intros [= <- <-]. exists []. apply lookup_step_refl.
  - unfold bind at 1, zoom, send. cbn [fst snd].
    change (Request GET (Tree project_id ref page))
      with (tree_url project_id ref page).
    destruct (world (tree_url project_id ref page)) as [r |] eqn:Ew.
    2:{ intros [= <- <-]. eexists. apply tree_request_looked.
        intros r Hr. rewrite Ew in Hr. discriminate Hr. }
    destruct (negb (status_code r =? 200)) eqn:Es.
    { intros [= <- <-]. eexists. apply tree_request_looked.
      intros r' Hr Hs. rewrite Ew in Hr. inversion Hr; subst r'.
      rewrite Hs in Es. discriminate Es. }
    apply negb_false_iff, Z.eqb_eq in Es.
    unfold bind at 1, lift at 1.
    destruct (json_of r) as [v |] eqn:Ej.
    2:{ intros [= <- <-]. eexists. apply tree_request_looked.
        intros r' Hr _ v items Hv. rewrite Ew in Hr. inversion Hr; subst r'.
        rewrite Ej in Hv. discriminate Hv. }
    destruct (negb (truthy v)) eqn:Et.
    { intros [= <- <-]. eexists. apply tree_request_looked.
      intros r' Hr _ v' items Hv Hi. rewrite Ew in Hr. inversion Hr; subst r'.
      rewrite Ej in Hv. inversion Hv; subst v'.
      apply negb_true_iff in Et. exact (falsy_has_no_items _ _ Et Hi). }
    unfold bind at 1, lift at 1.
    destruct (iter v) as [items |] eqn:Ei.
    2:{ intros [= <- <-]. eexists. apply tree_request_looked.
        intros r' Hr _ v' items Hv Hi. rewrite Ew in Hr. inversion Hr; subst r'.
        rewrite Ej in Hv. inversion Hv; subst v'.
        rewrite Ei in Hi. discriminate Hi. }
    unfold bind at 1.
    destruct (for_each_looks_up ref items
                (fun item Hitem => objects ref page r v items item Ew Es Ej Ei Hitem)
                u (t ++ [tree_url project_id ref page]))
      as (u2 & e2 & E2 & H2 & G2 & C2).
    match goal with
    | |- context [for_each ?l ?b ?s] =>
        replace (for_each l b s)
          with (@Ok unit tt, (u2, (t ++ [tree_url project_id ref page]) ++ e2))
          by (symmetry; exact E2)
    end.
    assert (Hpage : Looked (u, t)
                      (u2, (t ++ [tree_url project_id ref page]) ++ e2)
                      ([tree_url project_id ref page] ++ e2)).
    { split; [cbn [snd]; now rewrite <- app_assoc |]. split; [exact G2 |].
      intros ref' p Hl. apply listed_candidate_app_inv in Hl.
      destruct Hl as [Hl | Hl];
        [| now destruct (listed_candidate_no_tree _ _ _ _ _ H2 Hl)].
      destruct Hl as (page' & r' & v' & items' & item & Hin & Hw & _
                      & Hj & Hi & Hitem & Hb & Hp & Hne & Hal).
      destruct Hin as [E | []].
      assert (Eref : ref' = ref) by (unfold tree_url in E; congruence).
      subst ref'. rewrite <- E in Hw. rewrite Ew in Hw.
      inversion Hw; subst r'. rewrite Ej in Hj. inversion Hj; subst v'.
      rewrite Ei in Hi. inversion Hi; subst items'.
      destruct (C2 item p Hitem Hb Hp Hne Hal) as [Hf | Hlook];
        [now left | right; apply in_or_app; now right]. }
    destruct (has_next_page r).
    + intros E. destruct (IH _ _ _ _ _ E) as (e3 & H3).
      eexists. exact (lookup_step_trans _ _ _ _ _ Hpage H3).
    + intros [= <- <-]. eexists. exact Hpage.
Qed.

Lemma scan_branches_looks_up (branches : list json) :
  forall s o s',
    scan_branches world py_int project_id branches s = (o, s') ->
    exists extra, Looked s s' extra.
Proof.
  induction branches as [| branch branches IH]; intros s o s';
    cbn [scan_branches].
  - intros [= <- <-]. exists []. apply lookup_step_refl.
  - unfold bind at 1, lift at 1.
    destruct (get branch "name" JNull) as [branch_name |].
    2:{ intros [= <- <-]. exists []. apply lookup_step_refl. }
    unfold bind at 1.
    destruct (truthy branch_name).
    + unfold try.
      destruct (scan_pages world py_int max_pages_per_branch project_id
                  branch_name 1 s) as [o1 s1] eqn:E1.
      destruct (scan_pages_looks_up _ _ _ _ _ _ E1) as (e1 & H1).
      destruct o1 as [[] | e]; unfold ret;
        intros E; destruct (IH _ _ _ E) as (e2 & H2);
        eexists; exact (lookup_step_trans _ _ _ _ _ H1 H2).
    + unfold ret. apply IH.
Qed.

Lemma scan_all_branches_looks_up s o s' :
  scan_all_branches world py_int project_id s = (o, s') ->
  exists extra, Looked s s' extra.
Proof.
  destruct s as [u t].
  assert (H0 : Looked (u, t) (u, t ++ [Request GET (Branches project_id 100)])
                 [Request GET (Branches project_id 100)]).
  { split; [reflexivity |]. split; [tauto |].
    intros ref p (page & r & v & items & item & [E | []] & _).
    discriminate E. }
  unfold scan_all_branches.
  unfold bind at 1, zoom, send. cbn [fst snd].
  destruct (world (Request GET (Branches project_id 100))) as [r |];
    [| intros [= <- <-]; eexists; exact H0].
  destruct (negb (status_code r =? 200));
    [intros [= <- <-]; eexists; exact H0 |].
  unfold bind at 1, lift at 1.
  destruct (json_of r) as [branches |];
    [| intros [= <- <-]; eexists; exact H0].
  unfold bind at 1, lift at 1.
  destruct (branches_to_check branches) as [l |];
    [| intros [= <- <-]; eexists; exact H0].
  intros E. destruct (scan_branches_looks_up _ _ _ _ E) as (e & He).
  eexists. exact (lookup_step_trans _ _ _ _ _ H0 He).
Qed.

End LookupsComplete.


